(** * SMBOverSocksBrowser: share indexer, search, subnet scanner, scan protocol

    A shallow embedding of the networking core of the repository:

    - [scanner_process.py]: [check_smb_host] (stage 2 of the subnet scan),
      [port_check] and [main];
    - [SMBOverSocksBrowser.py]: [BrowserWorker] ([run_browser],
      [start_background_caching], [do_search], [_build_cache_parallel],
      [_fetch_path_contents], [browse_path], [stop]); of [SMBBrowserApp], the
      reader of the scanner ([handle_scanner_output], [on_scanner_finished]),
      the paths and sizes of the browser tab ([get_selected_file_path],
      [on_item_double_clicked], [format_file_size]) and the settings
      ([load_config], [add_proxy], [edit_proxy], [remove_proxy]).

    Python strings are modelled as Rocq strings; the case and white-space
    functions are Python's on ASCII text.  The remote server, the
    JSON decoder, [os.urandom] and the completion order of the thread pool are
    the environment: they appear as records, section variables and oracles.
    Every effect the properties speak about (calls on a session, emitted Qt
    signals, writes to the process-wide socket configuration) is recorded
    explicitly. *)

From Stdlib Require Import List String Ascii Bool Arith ZArith Lia Permutation Sorted.
Import ListNotations.
Open Scope string_scope.
Open Scope list_scope.

Set Implicit Arguments.
Set Warnings "-register-all".

(* ------------------------------------------------------------------ *)
(** * Python values shared by both programs *)

(** Characters that cannot be written inside a Rocq string literal. *)
Definition dquote : string := String "034"%char "".
Definition newline_char : ascii := "010"%char.
Definition nl : string := String newline_char "".
Definition slash : ascii := "/"%char.
Definition backslash : ascii := "\"%char.

(** The outcome of a call that may raise: the exception carries its text. *)
Inductive result (A : Type) : Type :=
| Ok (a : A)
| Raise (e : string).
Arguments Ok {A} a.
Arguments Raise {A} e.

Module PyStr.

(** [s.startswith(p)] *)
Definition startswith (s p : string) : bool := String.prefix p s.

(** [s.endswith(p)] *)
Fixpoint endswith (s p : string) : bool :=
  match s with
  | EmptyString => String.eqb p ""
  | String _ s' => String.eqb s p || endswith s' p
  end.

(** [s.replace(a, b)] for one-character [a] and [b]. *)
Fixpoint replace_char (a b : ascii) (s : string) : string :=
  match s with
  | EmptyString => EmptyString
  | String c s' => String (if Ascii.eqb c a then b else c) (replace_char a b s')
  end.

(** [c in s] for a character. *)
Fixpoint mem_char (c : ascii) (s : string) : bool :=
  match s with
  | EmptyString => false
  | String d s' => Ascii.eqb c d || mem_char c s'
  end.

(** [sep.join(l)] *)
Definition join (sep : string) (l : list string) : string := String.concat sep l.


(** [str.lower] on one character of ASCII text: the 26 upper-case letters
    move by 32.  (Outside ASCII Python folds further letters, some by their
    neighbours; the properties that rest on [lower] are stated for ASCII
    text.) *)
Definition lower_char (c : ascii) : ascii :=
  let n := nat_of_ascii c in
  if ((65 <=? n) && (n <=? 90))%nat then ascii_of_nat (n + 32) else c.

(** [s.lower()] for ASCII [s]. *)
Fixpoint lower (s : string) : string :=
  match s with
  | EmptyString => EmptyString
  | String c s' => String (lower_char c) (lower s')
  end.

(** [k in s] for strings: [k] occurs in [s] as a contiguous block. *)
Fixpoint contains (s k : string) : bool :=
  String.prefix k s ||
  match s with
  | EmptyString => false
  | String _ s' => contains s' k
  end.

(** The whitespace removed by [str.strip()]: space, tab, LF, VT, FF, CR and
    the separators 28 to 31. *)
Definition is_space (c : ascii) : bool :=
  let n := nat_of_ascii c in
  ((n =? 32) || ((9 <=? n) && (n <=? 13)) || ((28 <=? n) && (n <=? 31)))%nat.

Fixpoint lstrip (s : string) : string :=
  match s with
  | EmptyString => EmptyString
  | String c s' => if is_space c then lstrip s' else s
  end.

(** [rstrip]: a character is kept when it is not white or something that
    is kept follows it. *)
Fixpoint rstrip (s : string) : string :=
  match s with
  | EmptyString => EmptyString
  | String c s' =>
      match rstrip s' with
      | EmptyString => if is_space c then EmptyString else String c EmptyString
      | r => String c r
      end
  end.

(** [s.strip()] for ASCII [s], as the lines of the scanner are. *)
Definition strip (s : string) : string := rstrip (lstrip s).

(** Drop the first [n] characters: [s[n:]]. *)
Fixpoint drop (n : nat) (s : string) : string :=
  match n, s with
  | O, _ => s
  | S n', String _ s' => drop n' s'
  | S _, EmptyString => EmptyString
  end.

(** [s.replace(old, "")] for a non-empty [old]: every occurrence met in a
    left-to-right scan is removed, the scan resuming after it. The fuel is
    the number of characters still to read. *)
Fixpoint remove_all_fuel (fuel : nat) (old s : string) : string :=
  match fuel with
  | O => s
  | S fuel' =>
      match s with
      | EmptyString => EmptyString
      | String c s' =>
          if String.prefix old s
          then remove_all_fuel fuel' old (drop (String.length old) s)
          else String c (remove_all_fuel fuel' old s')
      end
  end.

Definition remove_all (old s : string) : string :=
  remove_all_fuel (String.length s) old s.

(** [s.find(c)] split in the two slices the callers take:
    [(s[:pos], s[pos+1:])], or [None] when [c] does not occur. *)
Fixpoint split_at_char (c : ascii) (s : string) : option (string * string) :=
  match s with
  | EmptyString => None
  | String d s' =>
      if Ascii.eqb d c then Some (EmptyString, s')
      else match split_at_char c s' with
           | Some (l, r) => Some (String d l, r)
           | None => None
           end
  end.

End PyStr.

(* ------------------------------------------------------------------ *)
(** * The process-wide socket configuration

    [socks.set_default_proxy] and the assignments [socket.socket = ...] and
    [smb_structs.socket = ...] write to module globals shared by every thread
    of the process.  (The NTLM switches of [smb_structs], constants in both
    programs, are left out.) *)

Inductive SocketClass : Type := PlainSocket | SocksSocket.

Record ProcState : Type := mkProc {
  default_proxy : option (string * Z);  (* SOCKS5 host and port, or no proxy *)
  socket_socket : SocketClass;          (* the class bound to [socket.socket] *)
  smb_structs_socket : SocketClass      (* the class bound to [smb_structs.socket] *)
}.

Definition set_default_proxy (p : option (string * Z)) (g : ProcState) : ProcState :=
  mkProc p (socket_socket g) (smb_structs_socket g).

Definition set_socket_socket (c : SocketClass) (g : ProcState) : ProcState :=
  mkProc (default_proxy g) c (smb_structs_socket g).

Definition set_smb_structs_socket (c : SocketClass) (g : ProcState) : ProcState :=
  mkProc (default_proxy g) (socket_socket g) c.

(** The state of a fresh interpreter: no default proxy, the plain socket. *)
Definition fresh_process : ProcState := mkProc None PlainSocket PlainSocket.

(** The process of the browser once the module is imported (line 36). *)
Definition browser_process : ProcState := mkProc None PlainSocket SocksSocket.

(* ------------------------------------------------------------------ *)
(** * scanner_process.py *)

Module Scanner.

(** Calls made on the [SMBConnection] of one host, in order. *)
Inductive call : Type :=
| CConnect (host : string)
| CListShares
| CListPath (share path : string)
| CCreateDirectory (share path : string)
| CDeleteDirectory (share path : string)
| CClose.

(** The three calls that probe a permission. *)
Definition is_probe (c : call) : bool :=
  match c with
  | CListPath _ _ | CCreateDirectory _ _ | CDeleteDirectory _ _ => true
  | _ => false
  end.

(** What the session of a host answers (a mock session). *)
Record Session : Type := mkSession {
  connect : result bool;
  listShares : result (list string);            (* the share names *)
  listPath : string -> string -> result unit;   (* the listing is not used *)
  createDirectory : string -> string -> result unit;
  deleteDirectory : string -> string -> result unit
}.

(** The dictionary returned for a host. *)
Record HostResult : Type := mkHostResult {
  host : string;
  status : string;
  shares : list (string * string)   (* name, permissions *)
}.

Section CheckHost.

(** [os.urandom(4).hex()], by the number of the draw. *)
Variable urandom_hex : nat -> string.
Variable sess : Session.

(** The READ probe of lines 44-49: the calls made, and what is appended
    to [perms_list]. *)
Definition probe_read (name : string) : list call * list string :=
  ([CListPath name "/"],
   match listPath sess name "/" with
   | Ok _ => ["READ"]
   | Raise _ => []
   end).

(** The WRITE probe of lines 50-57. *)
Definition probe_write (name : string) (draw : nat) : list call * list string :=
  let temp_dir := ("temp_check_" ++ urandom_hex draw)%string in
  let path := ("/" ++ temp_dir)%string in
  match createDirectory sess name path with
  | Raise _ => ([CCreateDirectory name path], [])
  | Ok _ =>
      match deleteDirectory sess name path with
      | Raise _ => ([CCreateDirectory name path; CDeleteDirectory name path], [])
      | Ok _ => ([CCreateDirectory name path; CDeleteDirectory name path], ["WRITE"])
      end
  end.

(** Lines 41-60: the permissions string of one kept share, the calls and
    the number of random draws used. *)
Definition share_permissions (quick_scan : bool) (name : string) (draw : nat)
  : list call * string * nat :=
  if negb quick_scan then
    let '(c1, p1) := probe_read name in
    let '(c2, p2) := probe_write name draw in
    let perms_list := p1 ++ p2 in
    (c1 ++ c2,
     match perms_list with
     | [] => "NO_ACCESS"
     | _ => PyStr.join ", " perms_list
     end,
     S draw)
  else ([], "N/A (Quick Scan)", draw).

(** The loop of lines 39-62. *)
Fixpoint scan_shares (quick_scan : bool) (names : list string) (draw : nat)
  : list call * list (string * string) :=
  match names with
  | [] => ([], [])
  | name :: rest =>
      if negb (PyStr.endswith name "$") then
        let '(c, permissions, draw') := share_permissions quick_scan name draw in
        let '(cs, share_info) := scan_shares quick_scan rest draw' in
        (c ++ cs, (name, permissions) :: share_info)
      else scan_shares quick_scan rest draw
  end.

(** [check_smb_host]: the new process-wide configuration, the calls made
    on the connection and the returned dictionary ([None] for
    Python's [None]). *)
Definition check_smb_host (h user password : string) (quick_scan use_proxy : bool)
    (proxy_port : Z) (g : ProcState) : ProcState * list call * option HostResult :=
  let g1 := if use_proxy then set_default_proxy (Some ("127.0.0.1", proxy_port)) g
            else set_default_proxy None g in
  let g2 := set_smb_structs_socket SocksSocket (set_socket_socket SocksSocket g1) in
  (* the client name takes draw 0 *)
  match connect sess with
  | Raise _ => (g2, [CConnect h; CClose], None)
  | Ok false => (g2, [CConnect h; CClose], None)
  | Ok true =>
      match listShares sess with
      | Raise _ => (g2, [CConnect h; CListShares; CClose], None)
      | Ok names =>
          let '(cs, share_info) := scan_shares quick_scan names 1 in
          (g2, [CConnect h; CListShares] ++ cs ++ [CClose],
           match share_info with
           | [] => None
           | _ => Some (mkHostResult h "success" share_info)
           end)
      end
  end.

End CheckHost.

End Scanner.

(* ------------------------------------------------------------------ *)
(** * concurrent.futures: the thread pool

    [ThreadPoolExecutor(max_workers)] runs at most [max_workers] submitted
    tasks at a time, the others wait in submission order.  [as_completed]
    yields the futures in the order they finish: at every step one of the
    running tasks finishes (which one is the scheduler's choice, an oracle),
    and the first waiting task takes its place. *)

Module Pool.
Section Pool.
Variable A : Type.

Fixpoint remove_nth (i : nat) (l : list A) : list A :=
  match l with
  | [] => []
  | x :: t => match i with
              | O => t
              | S i' => x :: remove_nth i' t
              end
  end.

Fixpoint completion_order (n : nat) (choose : nat -> nat) (step : nat)
    (running waiting : list A) : list A :=
  match n with
  | O => []
  | S n' =>
      let i := choose step mod List.length running in
      match nth_error running i with
      | None => []
      | Some t =>
          t :: completion_order n' choose (S step)
                 (remove_nth i running ++ firstn 1 waiting) (skipn 1 waiting)
      end
  end.

Definition as_completed (max_workers : nat) (choose : nat -> nat)
    (tasks : list A) : list A :=
  completion_order (List.length tasks) choose 0
    (firstn max_workers tasks) (skipn max_workers tasks).
End Pool.
End Pool.

(* ------------------------------------------------------------------ *)
(** * SMBOverSocksBrowser.py: BrowserWorker *)

Module Browser.

(** The [config] dictionary built by [start_connection]. *)
Record Config : Type := mkConfig {
  smb_host : string;
  smb_share : string;
  smb_user : string;
  smb_pass : string;
  use_proxy : bool;
  proxy_host : string;
  proxy_port : Z
}.

(** One item of [conn.listPath]. *)
Record SharedFile : Type := mkSharedFile {
  filename : string;
  isDirectory : bool;
  file_size : Z
}.

(** The file server as the indexer meets it.  Every listing task opens a
    session of its own; [connect] is what that session's [connect] does,
    by the path the task is about. *)
Record Remote : Type := mkRemote {
  connect : string -> result bool;
  listPath : string -> string -> result (list SharedFile)   (* share, path *)
}.

(** The session of the worker itself, [self.smb_connection]. *)
Record MainSession : Type := mkMainSession {
  main_connect : result bool;
  main_listPath : string -> string -> result (list SharedFile)   (* share, path *)
}.

(** One dictionary of [browse_path]: name, type ([dir] or [file]), size. *)
Record Row : Type := mkRow {
  row_name : string;
  row_is_dir : bool;
  row_size : Z
}.

(** Observable effects, in program order. *)
Inductive event : Type :=
| StatusUpdate (msg : string)                     (* status_update.emit *)
| SearchFinished (results : list (string * Z))    (* search_finished.emit *)
| ConnectionSuccess (rows : list Row)             (* connection_success.emit *)
| ConnectionFailed (msg : string)                 (* connection_failed.emit *)
| CallConnect (path : string)                     (* a task's conn.connect *)
| CallListPath (share path : string)              (* a task's conn.listPath *)
| CallClose (path : string)                       (* a task's conn.close *)
| CloseConnection                                 (* self.smb_connection.close *)
| Printed (msg : string).                         (* print *)

Record Worker : Type := mkWorker {
  config : Config;
  smb_connection : bool;            (* [self.smb_connection] is not [None] *)
  _is_running : bool;
  is_cached : bool;
  is_caching : bool;
  file_path_cache : list (string * Z)
}.

(** [BrowserWorker.__init__] *)
Definition init (cfg : Config) : Worker := mkWorker cfg false true false false [].

Definition set_smb_connection (b : bool) (w : Worker) : Worker :=
  mkWorker (config w) b (_is_running w) (is_cached w) (is_caching w) (file_path_cache w).
Definition set_is_running (b : bool) (w : Worker) : Worker :=
  mkWorker (config w) (smb_connection w) b (is_cached w) (is_caching w) (file_path_cache w).
Definition set_is_cached (b : bool) (w : Worker) : Worker :=
  mkWorker (config w) (smb_connection w) (_is_running w) b (is_caching w) (file_path_cache w).
Definition set_is_caching (b : bool) (w : Worker) : Worker :=
  mkWorker (config w) (smb_connection w) (_is_running w) (is_cached w) b (file_path_cache w).
Definition set_file_path_cache (c : list (string * Z)) (w : Worker) : Worker :=
  mkWorker (config w) (smb_connection w) (_is_running w) (is_cached w) (is_caching w) c.

(** How a method ends.  [Diverges] stands for a walk that outlives every
    bound (a remote tree without bottom). *)
Inductive outcome : Type :=
| Returns (self : Worker) (g : ProcState) (tr : list event)
| Raises (e : string) (self : Worker) (g : ProcState) (tr : list event)
| Diverges.

(** [o], with the trace [tr] before it. *)
Definition after (tr : list event) (o : outcome) : outcome :=
  match o with
  | Returns s g tr' => Returns s g (tr ++ tr')
  | Raises e s g tr' => Raises e s g (tr ++ tr')
  | Diverges => Diverges
  end.

(** [o], and when it returns, [next] from where it left. *)
Definition then_request (o : outcome) (next : Worker -> ProcState -> outcome) : outcome :=
  match o with
  | Returns s g tr => after tr (next s g)
  | other => other
  end.

(** ** os.path (POSIX flavour) *)

(** [os.path.join(a, b)] *)
Definition path_join (a b : string) : string :=
  if PyStr.startswith b "/" then b
  else if String.eqb a "" || PyStr.endswith a "/" then (a ++ b)%string
  else (a ++ "/" ++ b)%string.

(** [os.path.basename(p)]: what follows the last slash. *)
Fixpoint basename (p : string) : string :=
  match p with
  | EmptyString => EmptyString
  | String c p' =>
      if PyStr.mem_char slash p' then basename p'
      else if Ascii.eqb c slash then p' else p
  end.

(** [os.path.join(path, name).replace('\\', '/')] *)
Definition full_path (path name : string) : string :=
  PyStr.replace_char backslash slash (path_join path name).

(** ** _fetch_path_contents *)

(** The loop of lines 615-621 over the listing. *)
Fixpoint sort_items (path : string) (items : list SharedFile)
    (files_found : list (string * Z)) (subdirs_found : list string)
  : list (string * Z) * list string :=
  match items with
  | [] => (files_found, subdirs_found)
  | item :: rest =>
      if String.eqb (filename item) "." || String.eqb (filename item) ".."
      then sort_items path rest files_found subdirs_found
      else
        let fp := full_path path (filename item) in
        if isDirectory item
        then sort_items path rest files_found (subdirs_found ++ [fp])
        else sort_items path rest (files_found ++ [(fp, file_size item)]) subdirs_found
  end.

(** The configuration a worker writes to the process globals. *)
Definition proxy_of (cfg : Config) : option (string * Z) :=
  if use_proxy cfg then Some (proxy_host cfg, proxy_port cfg) else None.

Definition install_proxy (cfg : Config) (g : ProcState) : ProcState :=
  set_socket_socket SocksSocket (set_default_proxy (proxy_of cfg) g).

Section Indexer.

Variable remote : Remote.
(** [ThreadPoolExecutor(max_workers=20)] in the source. *)
Variable max_workers : nat.
(** The scheduler: for the level and the step, which running task ends. *)
Variable sched : nat -> nat -> nat.

(** [_fetch_path_contents(path)]: the task of one directory. *)
Definition _fetch_path_contents (self : Worker) (path : string) (g : ProcState)
  : ProcState * list event * result (list (string * Z) * list string) :=
  if negb (_is_running self) then (g, [], Ok ([], []))
  else
    let g' := install_proxy (config self) g in
    let started := [StatusUpdate ("Indexing: " ++ path); CallConnect path] in
    match connect remote path with
    | Raise e => (g', started, Raise e)
    | Ok _ =>
        match listPath remote (smb_share (config self)) path with
        | Raise e =>
            (g', started ++ [CallListPath (smb_share (config self)) path], Raise e)
        | Ok items =>
            (g', started ++ [CallListPath (smb_share (config self)) path; CallClose path],
             Ok (sort_items path items [] []))
        end
    end.

(** The [for future in as_completed(...)] loop of lines 591-598; a task's
    effects are recorded where its future is consumed. *)
Fixpoint drain_level (completed : list string) (self : Worker) (g : ProcState)
    (next_level_dirs : list string) : Worker * ProcState * list string * list event :=
  match completed with
  | [] => (self, g, next_level_dirs, [])
  | path :: rest =>
      if negb (_is_running self) then (self, g, next_level_dirs, [])
      else
        let '(g', ev, r) := _fetch_path_contents self path g in
        match r with
        | Ok (files, subdirs) =>
            let self' := set_file_path_cache (file_path_cache self ++ files) self in
            let '(s, g'', nxt, evs) :=
              drain_level rest self' g' (next_level_dirs ++ subdirs) in
            (s, g'', nxt, ev ++ evs)
        | Raise e =>
            let '(s, g'', nxt, evs) := drain_level rest self g' next_level_dirs in
            (s, g'', nxt,
             ev ++ Printed ("Error fetching path contents during cache build: " ++ e) :: evs)
        end
  end.

(** The [while dirs_to_scan] loop of lines 586-599; [fuel] bounds the
    number of levels. *)
Fixpoint build_loop (fuel level : nat) (dirs_to_scan : list string)
    (self : Worker) (g : ProcState) : option (Worker * ProcState * list event) :=
  match dirs_to_scan with
  | [] => Some (self, g, [])
  | _ :: _ =>
      if negb (_is_running self) then Some (self, g, [])
      else
        match fuel with
        | O => None
        | S fuel' =>
            let completed := Pool.as_completed max_workers (sched level) dirs_to_scan in
            let '(self', g', next_level_dirs, ev) := drain_level completed self g [] in
            match build_loop fuel' (S level) next_level_dirs self' g' with
            | Some (s, g'', evs) => Some (s, g'', ev ++ evs)
            | None => None
            end
        end
  end.

(** [_build_cache_parallel] *)
Definition _build_cache_parallel (fuel : nat) (self : Worker) (g : ProcState) : outcome :=
  match build_loop fuel 0 ["/"] self g with
  | Some (s, g', tr) => Returns s g' tr
  | None => Diverges
  end.

End Indexer.

(** The filter of line 572. *)
Definition search_cache (keyword : string) (cache : list (string * Z)) : list (string * Z) :=
  filter (fun '(path, size) =>
            PyStr.contains (PyStr.lower (basename path)) (PyStr.lower keyword)) cache.

Section Slots.

(** [self._build_cache_parallel()], as the slots call it. *)
Variable build : Worker -> ProcState -> outcome.

(** [start_background_caching] *)
Definition start_background_caching (self : Worker) (g : ProcState) : outcome :=
  if negb (smb_connection self) || is_cached self || is_caching self
     || negb (_is_running self)
  then Returns self g []
  else
    let self1 := set_is_caching true self in
    let ev1 := StatusUpdate "Starting background file indexing..." in
    let self2 := set_file_path_cache [] self1 in
    match build self2 g with
    | Returns s g' tr =>
        let s' := set_is_cached true s in
        Returns (set_is_caching false s') g'
          (ev1 :: tr ++
           [StatusUpdate "Background file indexing is complete. Search is now available."])
    | Raises e s g' tr =>
        Returns (set_is_caching false s) g'
          (ev1 :: tr ++ [StatusUpdate ("Error during background caching: " ++ e)])
    | Diverges => Diverges
    end.

(** Lines 562-568: the build on the first search. *)
Definition first_search_build (self : Worker) (g : ProcState) : outcome :=
  if negb (is_cached self) then
    let self1 := set_is_caching true self in
    let ev1 := StatusUpdate "First search: building file index... This may take a moment." in
    let self2 := set_file_path_cache [] self1 in
    match build self2 g with
    | Returns s g' tr => Returns (set_is_caching false (set_is_cached true s)) g' (ev1 :: tr)
    | Raises e s g' tr => Raises e s g' (ev1 :: tr)
    | Diverges => Diverges
    end
  else Returns self g [].

(** The [finally] clause of [do_search]. *)
Definition release (s : Worker) : Worker :=
  if is_caching s then set_is_caching false s else s.

(** [do_search(keyword)] *)
Definition do_search (keyword : string) (self : Worker) (g : ProcState) : outcome :=
  if negb (smb_connection self) then Returns self g []
  else if is_caching self then
    Returns self g
      [StatusUpdate "File indexing is in progress. Please wait a moment before searching.";
       SearchFinished []]
  else
    match first_search_build self g with
    | Returns s g' tr =>
        Returns (release s) g'
          (tr ++ [StatusUpdate ("Searching for '" ++ keyword ++ "' in cache...");
                  SearchFinished (search_cache keyword (file_path_cache s))])
    | Raises e s g' tr =>
        Returns (release s) g'
          (tr ++ [StatusUpdate ("Error during search: " ++ e); SearchFinished []])
    | Diverges => Diverges
    end.

End Slots.

(** What a call of [do_search] hands to [search_finished], if anything. *)
Definition search_results (o : outcome) : list (list (string * Z)) :=
  match o with
  | Returns _ _ tr =>
      flat_map (fun e => match e with SearchFinished r => [r] | _ => [] end) tr
  | _ => []
  end.

(** ** The other methods that write the worker *)

(** [sorted(l, key=...)]: a stable sort by code points. *)
Fixpoint insert_by {A : Type} (key : A -> string) (x : A) (l : list A) : list A :=
  match l with
  | [] => [x]
  | y :: t => if String.leb (key x) (key y) then x :: y :: t
              else y :: insert_by key x t
  end.

Definition sorted {A : Type} (key : A -> string) (l : list A) : list A :=
  fold_right (insert_by key) [] l.

Section Session.

Variable sess : MainSession.

(** [browse_path(path)] *)
Definition browse_path (self : Worker) (path : string) : result (list Row) :=
  if negb (smb_connection self) then Ok []
  else
    match main_listPath sess (smb_share (config self)) path with
    | Raise e => Raise e
    | Ok files =>
        let dirs :=
          sorted (fun n => n)
            (map filename
               (filter (fun f => isDirectory f
                                 && negb (String.eqb (filename f) "."
                                          || String.eqb (filename f) "..")) files)) in
        let regular_files := sorted filename (filter (fun f => negb (isDirectory f)) files) in
        Ok (map (fun d => mkRow d true 0) dirs
            ++ map (fun f => mkRow (filename f) false (file_size f)) regular_files)
    end.

(** [run_browser]: [self.smb_connection] is bound before [connect] is
    tried and stays bound when the connection fails. *)
Definition run_browser (self : Worker) (g : ProcState) : outcome :=
  if negb (_is_running self) then Returns self g []
  else
    let g' := install_proxy (config self) g in
    let started :=
      [StatusUpdate "Setting SOCKS proxy...";
       StatusUpdate ("Connecting to SMB host " ++ smb_host (config self) ++ "...")] in
    let self1 := set_smb_connection true self in
    match main_connect sess with
    | Raise e => Returns self1 g' (started ++ [ConnectionFailed e])
    | Ok false => Returns self1 g' (started ++ [ConnectionFailed "Connection returned False"])
    | Ok true =>
        match browse_path self1 "/" with
        | Ok rows => Returns self1 g' (started ++ [ConnectionSuccess rows])
        | Raise e => Returns self1 g' (started ++ [ConnectionFailed e])
        end
    end.

End Session.

(** [stop] *)
Definition stop (self : Worker) (g : ProcState) : outcome :=
  Returns (set_is_running false self) g
    (if smb_connection self then [CloseConnection] else []).

(** What the application asks of a worker.  The slots are queued on the
    worker's thread and run one after the other; [do_preview] and
    [do_download] only read the worker and are left out. *)
Inductive request : Type :=
| ReqRunBrowser
| ReqStartCaching
| ReqSearch (keyword : string)
| ReqStop.

Definition serve (build : Worker -> ProcState -> outcome) (sess : MainSession)
    (r : request) (self : Worker) (g : ProcState) : outcome :=
  match r with
  | ReqRunBrowser => run_browser sess self g
  | ReqStartCaching => start_background_caching build self g
  | ReqSearch keyword => do_search build keyword self g
  | ReqStop => stop self g
  end.

Fixpoint serve_all (build : Worker -> ProcState -> outcome) (sess : MainSession)
    (rs : list request) (self : Worker) (g : ProcState) : outcome :=
  match rs with
  | [] => Returns self g []
  | r :: rest => then_request (serve build sess r self g) (serve_all build sess rest)
  end.

End Browser.

(* ------------------------------------------------------------------ *)
(** * SMBOverSocksBrowser.py: the reader of the scanner's output *)

Module ScanProtocol.

(** The values [json.loads] produces.  An object keeps its members in
    the order read; a lookup takes the last member of that name, as the
    dictionary does. *)
Inductive json : Type :=
| JNull
| JBool (b : bool)
| JNum (n : Z)
| JStr (s : string)
| JArr (l : list json)
| JObj (members : list (string * json)).

Fixpoint dict_get (k : string) (members : list (string * json)) : option json :=
  match members with
  | [] => None
  | (k', v) :: rest =>
      match dict_get k rest with
      | Some v' => Some v'
      | None => if String.eqb k k' then Some v else None
      end
  end.

(** The rows of [scan_model]: a host and, under it, (share, permissions). *)
Definition ScanModel : Type := list (string * list (string * string)).

Record App : Type := mkApp {
  scanner_buffer : string;
  scan_model : ScanModel;
  status_bar : string
}.

(** What the handler does with a line. *)
Inductive line_event : Type :=
| StatusEvent (msg : string)                                   (* update_status *)
| ResultEvent (host : string) (shares : list (string * string)) (* rows added *)
| DroppedLine (msg : string).                                  (* print *)

(** [update_status] *)
Definition update_status (message : string) (app : App) : App :=
  mkApp (scanner_buffer app) (scan_model app) ("Status: " ++ message).

Definition set_buffer (b : string) (app : App) : App :=
  mkApp b (scan_model app) (status_bar app).
Definition set_model (m : ScanModel) (app : App) : App :=
  mkApp (scanner_buffer app) m (status_bar app).

(** [findItems(host)] is empty. *)
Definition no_row (h : string) (m : ScanModel) : bool :=
  negb (existsb (fun row => String.eqb (fst row) h) m).

(** [host_item.appendRow(...)] on the first row of that host. *)
Fixpoint append_child (h : string) (c : string * string) (m : ScanModel) : ScanModel :=
  match m with
  | [] => []
  | (h', cs) :: rest =>
      if String.eqb h' h then (h', cs ++ [c]) :: rest
      else (h', cs) :: append_child h c rest
  end.

(** What [for share in shares] iterates over. *)
Definition iterate (v : json) : result (list json) :=
  match v with
  | JArr l => Ok l
  | JStr s => Ok (map (fun c => JStr (String c "")) (list_ascii_of_string s))
  | JObj members => Ok (map (fun kv => JStr (fst kv)) members)
  | _ => Raise "TypeError"
  end.

(** Lines 1117-1119.  The Qt items take text: a name or a permission that
    is not a string is taken to raise. The rows added so far stay. *)
Fixpoint add_shares (h : string) (shares : list json) (m : ScanModel)
    (added : list (string * string)) : result (ScanModel * list (string * string)) * ScanModel :=
  match shares with
  | [] => (Ok (m, added), m)
  | share :: rest =>
      match share with
      | JObj members =>
          match dict_get "name" members, dict_get "permissions" members with
          | Some (JStr n), Some (JStr p) =>
              add_shares h rest (append_child h (n, p) m) (added ++ [(n, p)])
          | None, _ => (Raise "KeyError", m)
          | _, None => (Raise "KeyError", m)
          | _, _ => (Raise "TypeError", m)
          end
      | _ => (Raise "TypeError", m)
      end
  end.

(** Lines 1112-1119 after a successful [json.loads]: the outcome and
    the model left behind. *)
Definition show_result (v : json) (m : ScanModel)
  : result (string * list (string * string)) * ScanModel :=
  match v with
  | JObj members =>
      match dict_get "host" members with
      | Some (JStr h) =>
          let m1 := if no_row h m then m ++ [(h, [])] else m in
          let shares := match dict_get "shares" members with
                        | Some s => s
                        | None => JArr []
                        end in
          match iterate shares with
          | Raise e => (Raise e, m1)
          | Ok l =>
              match add_shares h l m1 [] with
              | (Ok (m2, added), _) => (Ok (h, added), m2)
              | (Raise e, m2) => (Raise e, m2)
              end
          end
      | _ => (Raise "TypeError", m)
      end
  | _ => (Raise "AttributeError", m)
  end.

Section Handler.

(** [json.loads]: [None] stands for [JSONDecodeError]. *)
Variable json_loads : string -> option json.

(** Lines 1108-1120: what the loop does with one stripped line.  The
    boolean tells whether the loop goes on ([false]: an exception other
    than [JSONDecodeError] left the slot). *)
Definition handle_line (line : string) (app : App) : App * list line_event * bool :=
  if String.eqb line "" then (app, [], true)
  else if PyStr.startswith line "STATUS:" then
    let msg := PyStr.strip (PyStr.remove_all "STATUS:" line) in
    (update_status msg app, [StatusEvent msg], true)
  else if PyStr.startswith line "RESULT:" then
    match json_loads (PyStr.strip (PyStr.remove_all "RESULT:" line)) with
    | None =>
        (app, [DroppedLine ("[GUI ERROR] Failed to parse JSON result: " ++ line)], true)
    | Some v =>
        match show_result v (scan_model app) with
        | (Ok (h, added), m) => (set_model m app, [ResultEvent h added], true)
        | (Raise _, m) => (set_model m app, [], false)
        end
    end
  else (app, [], true).

(** The [while '\n' in self.scanner_buffer] loop: the line before the
    first newline leaves the buffer and is handled. *)
Fixpoint process_lines (fuel : nat) (app : App) : App * list line_event * bool :=
  match fuel with
  | O => (app, [], true)
  | S fuel' =>
      match PyStr.split_at_char newline_char (scanner_buffer app) with
      | None => (app, [], true)
      | Some (before, rest) =>
          let '(app1, evs, go_on) :=
            handle_line (PyStr.strip before) (set_buffer rest app) in
          if go_on then
            let '(app2, evs', fin) := process_lines fuel' app1 in
            (app2, evs ++ evs', fin)
          else (app1, evs, false)
      end
  end.

(** [handle_scanner_output], [data] being what the process wrote since
    the last call.  Every turn of the loop removes a newline, so the
    length of the buffer bounds the turns. *)
Definition handle_scanner_output (data : string) (app : App)
  : App * list line_event * bool :=
  let app0 := set_buffer (scanner_buffer app ++ data) app in
  process_lines (String.length (scanner_buffer app0)) app0.

End Handler.

(** The application as [__init__] and [start_scan] leave it. *)
Definition fresh_app : App := mkApp "" [] "".

End ScanProtocol.

(* ------------------------------------------------------------------ *)
(** * Share trees: what a remote share holds at build time *)

Module ShareTree.
Import Browser.

(** A directory either lists (its entries in the order the server gives
    them, the entries [.] and [..] left out) or cannot be listed. *)
Inductive dir : Type :=
| Failed
| Listed (entries : list entry)
with entry : Type :=
| EFile (name : string) (size : Z)
| EDir (name : string) (content : dir).

Definition item_of (e : entry) : SharedFile :=
  match e with
  | EFile n sz => mkSharedFile n false sz
  | EDir n _ => mkSharedFile n true 0
  end.

Definition not_dot (item : SharedFile) : bool :=
  negb (String.eqb (filename item) "." || String.eqb (filename item) "..").

(** The listing agrees with the entries: same names, kinds and order, and
    the sizes of the files. *)
Definition same_item (item : SharedFile) (e : entry) : Prop :=
  filename item = filename (item_of e) /\
  isDirectory item = isDirectory (item_of e) /\
  (isDirectory item = false -> file_size item = file_size (item_of e)).

(** The files directly in a directory at [path], and its subdirectories
    with their paths. *)
Definition direct_files (path : string) (es : list entry) : list (string * Z) :=
  flat_map (fun e => match e with
                     | EFile n sz => [(full_path path n, sz)]
                     | EDir _ _ => []
                     end) es.

Definition subdirs (path : string) (es : list entry) : list (string * dir) :=
  flat_map (fun e => match e with
                     | EFile _ _ => []
                     | EDir n d => [(full_path path n, d)]
                     end) es.

(** [remote] serves the tree [d] at [path]: every directory of the tree
    answers as the tree says. *)
Fixpoint serves (remote : Remote) (share path : string) (d : dir) {struct d} : Prop :=
  match d with
  | Failed =>
      (exists e, connect remote path = Raise e) \/
      ((exists b, connect remote path = Ok b) /\
       exists e, listPath remote share path = Raise e)
  | Listed es =>
      (exists b, connect remote path = Ok b) /\
      (exists items, listPath remote share path = Ok items /\
                     Forall2 same_item (filter not_dot items) es) /\
      (fix all (l : list entry) : Prop :=
         match l with
         | [] => True
         | EFile _ _ :: l' => all l'
         | EDir n d' :: l' => serves remote share (full_path path n) d' /\ all l'
         end) es
  end.

(** Every file of the tree below [path], with the path the indexer gives
    it; nothing below a directory that cannot be listed. *)
Fixpoint files_of (path : string) (d : dir) {struct d} : list (string * Z) :=
  match d with
  | Failed => []
  | Listed es =>
      (fix go (l : list entry) : list (string * Z) :=
         match l with
         | [] => []
         | EFile n sz :: l' => (full_path path n, sz) :: go l'
         | EDir n d' :: l' => files_of (full_path path n) d' ++ go l'
         end) es
  end.

(** Every directory of the tree, [path] itself first. *)
Fixpoint dirs_of (path : string) (d : dir) {struct d} : list string :=
  match d with
  | Failed => [path]
  | Listed es =>
      path ::
      (fix go (l : list entry) : list string :=
         match l with
         | [] => []
         | EFile _ _ :: l' => go l'
         | EDir n d' :: l' => dirs_of (full_path path n) d' ++ go l'
         end) es
  end.

(** The number of levels of the tree. *)
Fixpoint depth (d : dir) {struct d} : nat :=
  match d with
  | Failed => 1
  | Listed es =>
      S ((fix go (l : list entry) : nat :=
            match l with
            | [] => 0
            | EFile _ _ :: l' => go l'
            | EDir _ d' :: l' => Nat.max (depth d') (go l')
            end) es)
  end.

(** No directory of the tree fails. *)
Fixpoint all_listed (d : dir) {struct d} : bool :=
  match d with
  | Failed => false
  | Listed es =>
      (fix go (l : list entry) : bool :=
         match l with
         | [] => true
         | EFile _ _ :: l' => go l'
         | EDir _ d' :: l' => all_listed d' && go l'
         end) es
  end.

(** ** The same files, named by position

    A file is found by the names on the way from the root; its path is
    those names, each after a slash.  This description does not use
    [os.path.join]. *)

Definition path_of (segments : list string) : string :=
  ("/" ++ String.concat "/" segments)%string.

Fixpoint located_files (above : list string) (d : dir) {struct d} : list (string * Z) :=
  match d with
  | Failed => []
  | Listed es =>
      (fix go (l : list entry) : list (string * Z) :=
         match l with
         | [] => []
         | EFile n sz :: l' => (path_of (above ++ [n]), sz) :: go l'
         | EDir n d' :: l' => located_files (above ++ [n]) d' ++ go l'
         end) es
  end.

(** A name a server can give: not empty, no slash, no backslash. *)
Definition good_name (n : string) : bool :=
  negb (String.eqb n "") && negb (PyStr.mem_char slash n)
  && negb (PyStr.mem_char backslash n).

Fixpoint good_names (d : dir) {struct d} : bool :=
  match d with
  | Failed => true
  | Listed es =>
      (fix go (l : list entry) : bool :=
         match l with
         | [] => true
         | EFile n _ :: l' => good_name n && go l'
         | EDir n d' :: l' => good_name n && good_names d' && go l'
         end) es
  end.

(** ** A server made from a tree (for running the indexer on examples) *)

(** The directory of the tree whose path is [target], searching from
    [path]. *)
Fixpoint find_dir (path : string) (d : dir) (target : string) {struct d} : option dir :=
  if String.eqb path target then Some d
  else
    match d with
    | Failed => None
    | Listed es =>
        (fix go (l : list entry) : option dir :=
           match l with
           | [] => None
           | EFile _ _ :: l' => go l'
           | EDir n d' :: l' =>
               match find_dir (full_path path n) d' target with
               | Some r => Some r
               | None => go l'
               end
           end) es
    end.

Definition dot_items : list SharedFile :=
  [mkSharedFile "." true 0; mkSharedFile ".." true 0].

Definition remote_of (root : dir) : Remote :=
  mkRemote
    (fun _ => Ok true)
    (fun _ path =>
       match find_dir "/" root path with
       | Some (Listed es) => Ok (dot_items ++ map item_of es)
       | _ => Raise "STATUS_ACCESS_DENIED"
       end).

End ShareTree.

(* ------------------------------------------------------------------ *)
(** * Vocabulary of the properties *)

Module ScannerSpec.
Import Scanner.

Definition succeeded {A : Type} (r : result A) : bool :=
  match r with
  | Ok _ => true
  | Raise _ => false
  end.

(** The text [check_smb_host] gives to the set of permissions found. *)
Definition label (can_read can_write : bool) : string :=
  match can_read, can_write with
  | true, true => "READ, WRITE"
  | true, false => "READ"
  | false, true => "WRITE"
  | false, false => "NO_ACCESS"
  end.

(** The permission classes of the specification. *)
Inductive permission : Type := READ | WRITE | READ_WRITE | NO_ACCESS | UNKNOWN.

(** The class of a share in the specification's words: [UNKNOWN] when the
    probing is skipped, otherwise the union of the permissions the two probes
    found. *)
Definition classify (quick can_read can_write : bool) : permission :=
  if quick then UNKNOWN
  else match can_read, can_write with
       | true, true => READ_WRITE
       | true, false => READ
       | false, true => WRITE
       | false, false => NO_ACCESS
       end.

(** The text in which [check_smb_host] writes a class (lines 58 and 60). *)
Definition rendered (p : permission) : string :=
  match p with
  | READ => "READ"
  | WRITE => "WRITE"
  | READ_WRITE => "READ, WRITE"
  | NO_ACCESS => "NO_ACCESS"
  | UNKNOWN => "N/A (Quick Scan)"
  end.

(** The shares that are not administrative. *)
Definition qualifying (names : list string) : list string :=
  filter (fun n => negb (PyStr.endswith n "$")) names.

(** The root listing of [name] succeeds. *)
Definition can_list (sess : Session) (name : string) : bool :=
  succeeded (listPath sess name "/").

(** The temporary directory [path] can be created and then deleted. *)
Definition can_create_delete (sess : Session) (name path : string) : bool :=
  succeeded (createDirectory sess name path) && succeeded (deleteDirectory sess name path).

Definition shares_found (r : option HostResult) : list (string * string) :=
  match r with
  | Some hr => shares hr
  | None => []
  end.

(** A session on which every probe of every share succeeds. *)
Definition open_session (names : list string) : Session :=
  mkSession (Ok true) (Ok names) (fun _ _ => Ok tt) (fun _ _ => Ok tt) (fun _ _ => Ok tt).

(** The mock sessions of the specification's example, on the share [S]:
    every probe succeeds; [createDirectory] throws; both probes throw. *)
Definition mock_read_only : Session :=
  mkSession (Ok true) (Ok ["S"%string]) (fun _ _ => Ok tt)
    (fun _ _ => Raise "denied") (fun _ _ => Ok tt).

Definition mock_no_access : Session :=
  mkSession (Ok true) (Ok ["S"%string]) (fun _ _ => Raise "denied")
    (fun _ _ => Raise "denied") (fun _ _ => Ok tt).

End ScannerSpec.

Module IndexSpec.
Import Browser ShareTree.

(** The directories a trace shows a task connecting for. *)
Definition connects (tr : list event) : list string :=
  flat_map (fun e => match e with CallConnect p => [p] | _ => [] end) tr.

(** A frontier: directories still to list, each with its path. *)
Definition forest : Type := list (string * dir).

(** What one level of the walk finds in a frontier: the files directly in
    its directories, and the next frontier. *)
Definition level_files (fr : forest) : list (string * Z) :=
  flat_map (fun pd => match snd pd with
                      | Failed => []
                      | Listed es => direct_files (fst pd) es
                      end) fr.

Definition level_next (fr : forest) : forest :=
  flat_map (fun pd => match snd pd with
                      | Failed => []
                      | Listed es => subdirs (fst pd) es
                      end) fr.

Definition forest_files (fr : forest) : list (string * Z) :=
  flat_map (fun pd => files_of (fst pd) (snd pd)) fr.

Definition forest_dirs (fr : forest) : list string :=
  flat_map (fun pd => dirs_of (fst pd) (snd pd)) fr.

(** The indexer has reached [Ready]. *)
Definition ready (w : Worker) : Prop :=
  is_cached w = true /\ is_caching w = false.

(** The indexer is [Idle]: connected, nothing built, nothing building. *)
Definition idle (w : Worker) : Prop :=
  smb_connection w = true /\ is_cached w = false /\ is_caching w = false.

(** The example tree of the specification: [f1] at the root, [b/f2],
    [b/c/f3]. *)
Definition example_tree : dir :=
  Listed [EFile "f1" 11;
          EDir "b" (Listed [EFile "f2" 22; EDir "c" (Listed [EFile "f3" 33])])].

(** The same share when [/b] cannot be listed and [/c] holds [f4]. *)
Definition example_tree_failing : dir :=
  Listed [EFile "f1" 11; EDir "b" Failed; EDir "c" (Listed [EFile "f4" 44])].

Definition example_config : Config :=
  mkConfig "10.0.0.5" "docs" "guest" "" true "127.0.0.1" 1080.

(** A worker after [run_browser] has connected. *)
Definition connected_worker : Worker :=
  mkWorker example_config true true false false [].

(** The source's pool width, and a scheduler that always lets the last
    running task finish first. *)
Definition source_max_workers : nat := 20.
Definition last_first : nat -> nat -> nat := fun _ _ => 19.

End IndexSpec.

Module SearchSpec.
Import Browser.








(** The cache of the specification's example, once built, and a worker
    that holds it. *)
Definition example_cache : list (string * Z) :=
  [("/f1", 11%Z); ("/b/f2", 22%Z); ("/b/c/f3", 33%Z)].


End SearchSpec.

Module SlotSpec.
Import Browser ShareTree IndexSpec.

(** A build during which, as the walk starts, a second request to build
    arrives and is served before the walk goes on. *)
Definition with_request_during (build : Worker -> ProcState -> outcome)
  : Worker -> ProcState -> outcome :=
  fun s g => then_request (start_background_caching build s g) build.

(** A session of the worker that connects and lists nothing. *)
Definition quiet_session : MainSession :=
  mkMainSession (Ok true) (fun _ _ => Ok []).

(** A build that fails at once. *)
Definition failing_build : Worker -> ProcState -> outcome :=
  fun s g => Raises "RuntimeError: can't start new thread" s g [].

(** A server on which [/b] cannot be listed although a file lies below
    it; [/] holds [f1], [b] and [c], and [/c] holds [f4]. *)
Definition remote_hiding : Remote :=
  mkRemote
    (fun _ => Ok true)
    (fun _ path =>
       if String.eqb path "/" then
         Ok [mkSharedFile "." true 0; mkSharedFile ".." true 0;
             mkSharedFile "f1" false 11; mkSharedFile "b" true 0;
             mkSharedFile "c" true 0]
       else if String.eqb path "/c" then
         Ok [mkSharedFile "." true 0; mkSharedFile ".." true 0;
             mkSharedFile "f4" false 44]
       else if String.eqb path "/b/x" then
         Ok [mkSharedFile "hidden" false 55]
       else Raise "STATUS_ACCESS_DENIED").

(** A worker of another configuration: no proxy. *)
Definition direct_config : Config :=
  mkConfig "10.0.0.9" "media" "guest" "" false "" 0.

End SlotSpec.

Module ProtocolSpec.
Import ScanProtocol.

(** The newlines of a buffer: the lines it holds in full. *)
Fixpoint count_newlines (s : string) : nat :=
  match s with
  | EmptyString => 0
  | String c s' => (if Ascii.eqb c newline_char then 1 else 0) + count_newlines s'
  end.

Definition parsed_results (evs : list line_event) : list line_event :=
  filter (fun e => match e with ResultEvent _ _ => true | _ => false end) evs.

(** The result line of the specification's example, and its value. *)
Definition example_payload : string :=
  ("{" ++ dquote ++ "host" ++ dquote ++ ":" ++ dquote ++ "h" ++ dquote ++ ","
       ++ dquote ++ "status" ++ dquote ++ ":" ++ dquote ++ "success" ++ dquote ++ ","
       ++ dquote ++ "shares" ++ dquote ++ ":[]}")%string.

Definition example_value : json :=
  JObj [("host"%string, JStr "h"); ("status"%string, JStr "success");
        ("shares"%string, JArr [])].

(** The two chunks in which the example arrives. *)
Definition example_chunk1 : string :=
  ("STATUS:a" ++ nl ++ "RESULT:{" ++ dquote ++ "host" ++ dquote ++ ":")%string.

Definition example_chunk2 : string :=
  (dquote ++ "h" ++ dquote ++ ","
     ++ dquote ++ "status" ++ dquote ++ ":" ++ dquote ++ "success" ++ dquote ++ ","
     ++ dquote ++ "shares" ++ dquote ++ ":[]}" ++ nl)%string.

(** A decoder that knows the payload of the example and rejects the
    rest. *)
Definition example_json_loads (s : string) : option json :=
  if String.eqb s example_payload then Some example_value else None.

End ProtocolSpec.

Module ProtocolRun.
Import ScanProtocol ProtocolSpec.

(** The loop with exactly the fuel the buffer asks for. *)
Definition run_lines (json_loads : string -> option json) (app : App)
  : App * list line_event * bool :=
  process_lines json_loads (count_newlines (scanner_buffer app)) app.

(** The application after the first chunk of the example. *)
Definition after_chunk1 : App :=
  mkApp ("RESULT:{" ++ dquote ++ "host" ++ dquote ++ ":") [] "Status: a".

End ProtocolRun.

(* ------------------------------------------------------------------ *)
(** * More of the two programs *)

Module PyNum.

Definition digit_char (d : nat) : ascii := ascii_of_nat (48 + d).

Fixpoint str_of_nat_fuel (fuel n : nat) (acc : string) : string :=
  match fuel with
  | O => acc
  | S fuel' =>
      let acc' := String (digit_char (n mod 10)) acc in
      if (n / 10 =? 0)%nat then acc' else str_of_nat_fuel fuel' (n / 10) acc'
  end.

(** [str(n)] for a natural number: its decimal digits. *)
Definition str_of_nat (n : nat) : string := str_of_nat_fuel (S n) n "".

End PyNum.

(** ** scanner_process.py: [port_check] and [main] *)

Module ScanRun.
Import Scanner.

(** The namespace [parse_args] returns. *)
Record Args : Type := mkArgs {
  subnet : string;
  user : string;
  password : string;
  proxy_port : option Z;
  no_proxy : bool;
  quick_scan : bool
}.

(** The network as one run of the scanner meets it. *)
Record Network : Type := mkNetwork {
  (* the host addresses of [ipaddress.ip_network(subnet, strict=False)],
     as text; [Raise] for [ValueError] *)
  hosts_of : string -> result (list string);
  (* connecting to port 445 of a host within the timeout, by the
     arguments of [port_check] *)
  tcp_connect : bool -> option Z -> string -> result unit;
  (* the SMB session a host answers with *)
  session_of : string -> Session;
  (* the random names drawn while a host is checked *)
  urandom_of : string -> nat -> string
}.

(** What a run does, in order: a printed line, a port check, the SMB
    calls made for a host. *)
Inductive effect : Type :=
| Print (line : string)
| PortChecked (host : string)
| SmbCalls (host : string) (calls : list call).

Definition prints (effs : list effect) : list string :=
  flat_map (fun e => match e with Print l => [l] | _ => [] end) effs.

Definition port_checked (effs : list effect) : list string :=
  flat_map (fun e => match e with PortChecked h => [h] | _ => [] end) effs.

Definition smb_hosts (effs : list effect) : list string :=
  flat_map (fun e => match e with SmbCalls h _ => [h] | _ => [] end) effs.

(** The value passed where the source passes [args.proxy_port]; it is
    read only when a proxy is used, and then it is set. *)
Definition port_value (p : option Z) : Z :=
  match p with
  | Some z => z
  | None => 0%Z
  end.

(** What [parser.parse_args()] makes of the command line: the namespace
    of the arguments; for [-h], the usage written to standard output before
    the process exits; for a command line it refuses, a message on standard
    error before the process exits. *)
Inductive command_line : Type :=
| Namespace (args : Args)
| Help (usage : list string)
| ArgumentError.

Section Main.

Variable net : Network.
(** [json.dumps] on the dictionary of a host. *)
Variable json_dumps : HostResult -> string.
(** The completion order of the two pools. *)
Variables sched1 sched2 : nat -> nat.

(** [port_check]: the host, or [None] on any exception.  The socket it
    uses is its own; nothing process-wide is written. *)
Definition port_check (h : string) (use_proxy : bool) (port : option Z) : option string :=
  match tcp_connect net use_proxy port h with
  | Ok _ => Some h
  | Raise _ => None
  end.

(** The loop of lines 108-110 over the completed port checks. *)
Fixpoint stage1 (completed : list string) (use_proxy : bool) (port : option Z)
  : list string * list effect :=
  match completed with
  | [] => ([], [])
  | h :: rest =>
      let '(open_hosts, effs) := stage1 rest use_proxy port in
      (match port_check h use_proxy port with
       | Some r => if String.eqb r "" then open_hosts else r :: open_hosts
       | None => open_hosts
       end,
       PortChecked h :: effs)
  end.

Definition progress_line (processed total : nat) : string :=
  ("STATUS:Enumerating... (" ++ PyNum.str_of_nat processed ++ "/"
     ++ PyNum.str_of_nat total ++ ")")%string.

(** The loop of lines 117-122 over the completed enumerations. *)
Fixpoint stage2 (completed : list string) (args : Args) (processed_count total : nat)
    (g : ProcState) : ProcState * list effect :=
  match completed with
  | [] => (g, [])
  | h :: rest =>
      let '(g1, calls, result) :=
        check_smb_host (urandom_of net h) (session_of net h) h (user args) (password args)
          (quick_scan args) (negb (no_proxy args)) (port_value (proxy_port args)) g in
      let processed := S processed_count in
      let '(g2, effs) := stage2 rest args processed total g1 in
      (g2,
       SmbCalls h calls :: Print (progress_line processed total)
         :: match result with
            | Some r => [Print ("RESULT:" ++ json_dumps r)]
            | None => []
            end ++ effs)
  end.

(** [main].  [parse_args] comes first: when it shows the usage or refuses
    the command line, nothing else is done. *)
Definition main (cmd : command_line) (g : ProcState) : ProcState * list effect :=
  match cmd with
  | Help usage => (g, map Print usage)
  | ArgumentError => (g, [])
  | Namespace args =>
      match no_proxy args, proxy_port args with
      | false, None => (g, [Print "STATUS:Error - Proxy port required but not provided."])
      | _, _ =>
          let g1 := if negb (no_proxy args)
                    then set_default_proxy (Some ("127.0.0.1"%string, port_value (proxy_port args))) g
                    else set_default_proxy None g in
          let g2 := set_socket_socket SocksSocket g1 in
          match hosts_of net (subnet args) with
          | Raise _ => (g2, [Print "STATUS:Invalid Subnet"])
          | Ok hosts_to_scan =>
              let '(open_hosts, effs1) :=
                stage1 (Pool.as_completed 100 sched1 hosts_to_scan)
                  (negb (no_proxy args)) (proxy_port args) in
              let '(g3, effs2) :=
                stage2 (Pool.as_completed 25 sched2 open_hosts) args 0 (List.length open_hosts) g2 in
              (g3,
               Print ("STATUS:Stage 1: Port scanning "
                      ++ PyNum.str_of_nat (List.length hosts_to_scan) ++ " hosts...")
                 :: effs1
                 ++ Print ("STATUS:Stage 2: Enumerating shares on "
                           ++ PyNum.str_of_nat (List.length open_hosts) ++ " live hosts...")
                 :: effs2
                 ++ [Print "STATUS:Scanner process finished."])
          end
      end
  end.

End Main.

(** Which share a probe call is about. *)
Definition probe_share (c : call) : string :=
  match c with
  | CListPath s _ | CCreateDirectory s _ | CDeleteDirectory s _ => s
  | _ => ""%string
  end.

(** A host passes stage 1. *)
Definition live (net : Network) (args : Args) (h : string) : bool :=
  match tcp_connect net (negb (no_proxy args)) (proxy_port args) h with
  | Ok _ => negb (String.eqb h "")
  | Raise _ => false
  end.

(** What stage 2 finds on a host (it does not depend on the process
    state). *)
Definition result_of (net : Network) (args : Args) (h : string) : option HostResult :=
  snd (check_smb_host (urandom_of net h) (session_of net h) h (user args) (password args)
         (quick_scan args) (negb (no_proxy args)) (port_value (proxy_port args))
         fresh_process).

Definition results_of (net : Network) (args : Args) (hosts : list string) : list HostResult :=
  flat_map (fun h => match result_of net args h with Some r => [r] | None => [] end) hosts.

(** The arguments are usable: a proxy port is given unless no proxy is
    asked for. *)
Definition usable (args : Args) : bool :=
  no_proxy args || match proxy_port args with Some _ => true | None => false end.

(** A small network: three addresses, the second closed, the third with
    administrative shares only. *)
Definition example_network : Network :=
  mkNetwork
    (fun s => if String.eqb s "10.0.0.0/30" then Ok ["10.0.0.1"; "10.0.0.2"; "10.0.0.3"]%string
              else Raise "ValueError")
    (fun _ _ h => if String.eqb h "10.0.0.2" then Raise "timed out" else Ok tt)
    (fun h => if String.eqb h "10.0.0.1"
              then mkSession (Ok true) (Ok ["docs"; "IPC$"]%string)
                     (fun _ _ => Ok tt) (fun _ _ => Raise "denied") (fun _ _ => Ok tt)
              else mkSession (Ok true) (Ok ["ADMIN$"; "C$"]%string)
                     (fun _ _ => Ok tt) (fun _ _ => Ok tt) (fun _ _ => Ok tt))
    (fun _ _ => "00c0ffee"%string).

Definition example_args : Args :=
  mkArgs "10.0.0.0/30" "guest" "" (Some 1080%Z) false false.

(** An encoder for the examples: the host name between braces. *)
Definition example_json_dumps (r : HostResult) : string :=
  ("{" ++ host r ++ "}")%string.

End ScanRun.

Module ScanRunSpec.
Import Scanner ScanRun.

(** The lines stage 2 prints for one host: its progress line and, when
    the host has a result, the result line. *)
Definition host_lines (json_dumps : HostResult -> string) (net : Network) (args : Args)
    (processed total : nat) (h : string) : list string :=
  progress_line processed total
    :: match result_of net args h with
       | Some r => [("RESULT:" ++ json_dumps r)%string]
       | None => []
       end.

Fixpoint lines_from (json_dumps : HostResult -> string) (net : Network) (args : Args)
    (completed : list string) (processed_count total : nat) : list string :=
  match completed with
  | [] => []
  | h :: rest =>
      host_lines json_dumps net args (S processed_count) total h
        ++ lines_from json_dumps net args rest (S processed_count) total
  end.

Definition is_progress (line : string) : bool :=
  PyStr.startswith line "STATUS:Enumerating".

Definition is_result (line : string) : bool :=
  PyStr.startswith line "RESULT:".

Definition is_status (line : string) : bool :=
  PyStr.startswith line "STATUS:".

End ScanRunSpec.

(** ** SMBOverSocksBrowser.py: the scan results in the window *)

Module ScanGui.
Import Scanner ScanProtocol.

(** The value [json.loads] gives for the dictionary of a host once
    [json.dumps] has written it: an object for the dictionary, an array for
    the list of shares, an object for each share. *)
Definition share_json (s : string * string) : json :=
  JObj [("name"%string, JStr (fst s)); ("permissions"%string, JStr (snd s))].

Definition json_of_result (r : HostResult) : json :=
  JObj [("host"%string, JStr (host r)); ("status"%string, JStr (status r));
        ("shares"%string, JArr (map share_json (shares r)))].

(** The model with the shares [cs] added under the first row of host [h],
    a row for [h] being added at the end when there is none. *)
Fixpoint extend_row (h : string) (cs : list (string * string)) (m : ScanModel) : ScanModel :=
  match m with
  | [] => []
  | (h', cs') :: rest =>
      if String.eqb h' h then (h', cs' ++ cs) :: rest
      else (h', cs') :: extend_row h cs rest
  end.

Definition shown (h : string) (cs : list (string * string)) (m : ScanModel) : ScanModel :=
  extend_row h cs (if no_row h m then m ++ [(h, [])] else m).

(** What the process writes for the lines it prints. *)
Fixpoint stdout_text (lines : list string) : string :=
  match lines with
  | [] => ""%string
  | l :: rest => (l ++ nl ++ stdout_text rest)%string
  end.

Fixpoint concat_chunks (chunks : list string) : string :=
  match chunks with
  | [] => ""%string
  | c :: rest => (c ++ concat_chunks rest)%string
  end.

Section Reader.

Variable json_loads : string -> option json.

(** [readyReadStandardOutput] fires for every chunk; a call that an
    exception left does not keep the later ones from running. *)
Fixpoint feed (chunks : list string) (app : App) : App * list line_event * bool :=
  match chunks with
  | [] => (app, [], true)
  | c :: rest =>
      let '(app1, ev1, fin1) := handle_scanner_output json_loads c app in
      let '(app2, ev2, fin2) := feed rest app1 in
      (app2, ev1 ++ ev2, fin1 && fin2)
  end.

(** [on_scanner_finished]: [data] is what the process wrote and was not yet
    read; the three booleans are whether [self.scanner_process] is still
    bound, whether the process exited normally and whether the cancel button
    is enabled. *)
Definition on_scanner_finished (data : string) (process_bound normal_exit cancel_enabled : bool)
    (app : App) : App * list line_event * bool :=
  let '(app1, evs, fin) :=
    if negb (String.eqb (PyStr.strip (scanner_buffer app)) "") then
      if process_bound then handle_scanner_output json_loads data app
      else (app, [], false)
    else (app, [], true) in
  if negb fin then (app1, evs, false)
  else if process_bound && normal_exit then
    let rows := List.length (scan_model app1) in
    let final_message :=
      if (0 <? rows)%nat
      then ("Scan finished. Found " ++ PyNum.str_of_nat rows ++ " host(s) with shares.")%string
      else "Scan finished. No accessible shares were found."%string in
    (update_status final_message app1, evs, true)
  else if cancel_enabled then (update_status "Scan cancelled or failed." app1, evs, true)
  else (app1, evs, true).

End Reader.

(** A line of the scanner, by kind. *)
Inductive pline : Type :=
| PStatus (text : string)
| PResult (r : HostResult).

Definition render (json_dumps : HostResult -> string) (l : pline) : string :=
  match l with
  | PStatus text => ("STATUS:" ++ text)%string
  | PResult r => ("RESULT:" ++ json_dumps r)%string
  end.

Definition pline_results (ls : list pline) : list HostResult :=
  flat_map (fun l => match l with PResult r => [r] | PStatus _ => [] end) ls.

(** What the handler hands to [json.loads] for the line of a result. *)
Definition handed_to_loads (json_dumps : HostResult -> string) (r : HostResult) : string :=
  PyStr.strip (PyStr.remove_all "RESULT:" (PyStr.strip ("RESULT:" ++ json_dumps r))).

(** A decoder for the examples: it knows the line of the one reported
    host of the example network. *)
Definition example_host_result : HostResult :=
  mkHostResult "10.0.0.1" "success" [("docs"%string, "READ"%string)].

Definition example_loads (s : string) : option json :=
  if String.eqb s "{10.0.0.1}" then Some (json_of_result example_host_result) else None.

(** A host with a share whose name holds [RESULT:], an encoder that writes
    the host and the names of the shares, and a decoder that reads back what
    the encoder writes for this host with the share [RESULT:s] and with the
    share [s]. *)
Definition marked_host_result : HostResult :=
  mkHostResult "10.0.0.9" "success" [("RESULT:s"%string, "READ"%string)].

Definition unmarked_host_result : HostResult :=
  mkHostResult "10.0.0.9" "success" [("s"%string, "READ"%string)].

Definition names_dumps (r : HostResult) : string :=
  ("{" ++ host r ++ "|" ++ String.concat "," (map fst (shares r)) ++ "}")%string.

Definition names_loads (s : string) : option json :=
  if String.eqb s (names_dumps marked_host_result)
  then Some (json_of_result marked_host_result)
  else if String.eqb s (names_dumps unmarked_host_result)
       then Some (json_of_result unmarked_host_result)
       else None.

End ScanGui.

Module ScanGuiSpec.
Import Scanner ScanProtocol ScanRun ScanGui.

(** What the status bar shows for a [STATUS:] line carrying [text]. *)
Definition status_text (text : string) : string :=
  PyStr.strip (PyStr.remove_all "STATUS:" (PyStr.strip ("STATUS:" ++ text))).

(** A line the reader can take: no newline inside, and for the line of a
    result [r], what the reader hands to [json.loads] decodes to the
    dictionary of [seen r]. *)
Definition readable (json_loads : string -> option json) (json_dumps : HostResult -> string)
    (seen : HostResult -> HostResult) (l : pline) : Prop :=
  match l with
  | PStatus text => PyStr.mem_char newline_char text = false
  | PResult r =>
      PyStr.mem_char newline_char (json_dumps r) = false
      /\ json_loads (handed_to_loads json_dumps r) = Some (json_of_result (seen r))
  end.

(** The text written for [r] passes the reader as it is: it is one line,
    has no blank at either end, and does not hold [RESULT:], which the reader
    takes out wherever it stands (line 1112). *)
Definition passes_unchanged (json_dumps : HostResult -> string) (r : HostResult) : Prop :=
  PyStr.mem_char newline_char (json_dumps r) = false
  /\ PyStr.strip (json_dumps r) = json_dumps r
  /\ PyStr.contains (json_dumps r) "RESULT:" = false.

Definition progress_text (processed total : nat) : string :=
  ("Enumerating... (" ++ PyNum.str_of_nat processed ++ "/"
     ++ PyNum.str_of_nat total ++ ")")%string.

(** The lines of stage 2, by kind. *)
Fixpoint plines_from (net : Network) (args : Args) (completed : list string)
    (processed_count total : nat) : list pline :=
  match completed with
  | [] => []
  | h :: rest =>
      PStatus (progress_text (S processed_count) total)
        :: match result_of net args h with
           | Some r => [PResult r]
           | None => []
           end
        ++ plines_from net args rest (S processed_count) total
  end.

(** The rows the window has after the results [rs], from the model [m]. *)
Definition rows_after (rs : list HostResult) (m : ScanModel) : ScanModel :=
  fold_left (fun m' r => shown (host r) (shares r) m') rs m.

Definition row_of (r : HostResult) : string * list (string * string) :=
  (host r, shares r).

Definition result_event (r : HostResult) : line_event :=
  ResultEvent (host r) (shares r).

(** What the status bar shows after the lines [ls]. *)
Definition bar_after (ls : list pline) (bar : string) : string :=
  fold_left (fun s l => match l with
                        | PStatus text => ("Status: " ++ status_text text)%string
                        | PResult _ => s
                        end) ls bar.

End ScanGuiSpec.

(** ** SMBOverSocksBrowser.py: what a listing and a stopped worker give *)

Module BrowserSpec.
Import Browser.

(** The entries [browse_path] leaves out: the directories [.] and [..]. *)
Definition is_dot (f : SharedFile) : bool :=
  isDirectory f && (String.eqb (filename f) "." || String.eqb (filename f) "..").

(** The dictionary of one entry of the listing. *)
Definition listed_row (f : SharedFile) : Row :=
  if isDirectory f then mkRow (filename f) true 0
  else mkRow (filename f) false (file_size f).

(** The order [sorted] leaves its keys in. *)
Definition key_le {A : Type} (key : A -> string) (a b : A) : Prop :=
  String.leb (key a) (key b) = true.

Definition name_le (a b : Row) : Prop :=
  String.leb (row_name a) (row_name b) = true.

(** An event that tells of a call to the server. *)
Definition is_contact (e : event) : bool :=
  match e with
  | CallConnect _ | CallListPath _ _ | CallClose _
  | ConnectionSuccess _ | ConnectionFailed _ => true
  | _ => false
  end.

Definition example_listing : list SharedFile :=
  [mkSharedFile "." true 0; mkSharedFile ".." true 0; mkSharedFile "zeta.txt" false 7;
   mkSharedFile "src" true 0; mkSharedFile "Alpha.txt" false 2048;
   mkSharedFile "docs" true 0].

Definition example_main_session : MainSession :=
  mkMainSession (Ok true) (fun _ _ => Ok example_listing).

End BrowserSpec.

(** ** SMBOverSocksBrowser.py: the paths and sizes of the browser tab *)

(** [str] methods that take a character. *)
Module PyText.

(** [s.lstrip(c)] for a one-character [c]. *)
Fixpoint lstrip_chars (c : ascii) (s : string) : string :=
  match s with
  | EmptyString => EmptyString
  | String d s' => if Ascii.eqb d c then lstrip_chars c s' else s
  end.

(** [s.rstrip(c)] *)
Fixpoint rstrip_chars (c : ascii) (s : string) : string :=
  match s with
  | EmptyString => EmptyString
  | String d s' =>
      match rstrip_chars c s' with
      | EmptyString => if Ascii.eqb d c then EmptyString else String d EmptyString
      | r => String d r
      end
  end.

(** [s.strip(c)] *)
Definition strip_chars (c : ascii) (s : string) : string :=
  rstrip_chars c (lstrip_chars c s).

(** [s.split(c)]: the empty string gives one empty part. *)
Fixpoint split (c : ascii) (s : string) : list string :=
  match s with
  | EmptyString => [EmptyString]
  | String d s' =>
      if Ascii.eqb d c then EmptyString :: split c s'
      else match split c s' with
           | h :: t => String d h :: t
           | [] => [String d EmptyString]
           end
  end.

End PyText.

Module BrowserGui.
Import Browser.

(** [item.data(Qt.UserRole)]: ["file"], ["dir"], [".."], or nothing (the
    row telling that a search found nothing). *)
Inductive item_data : Type := DataFile | DataDir | DataUp | DataNone.

(** The f-string of lines 1198 and 1246. *)
Definition child_path (current_smb_path item_text : string) : string :=
  if negb (String.eqb current_smb_path "/")
  then (PyText.rstrip_chars slash current_smb_path ++ "/" ++ item_text)%string
  else ("/" ++ item_text)%string.

(** Line 1244. *)
Definition parent_path (current_smb_path : string) : string :=
  let parts := PyText.split slash (PyText.strip_chars slash current_smb_path) in
  if (1 <? List.length parts)%nat
  then ("/" ++ PyStr.join "/" (removelast parts))%string
  else "/"%string.

(** [get_selected_file_path]: whether the browser tab is shown, the first
    selected item if any (its text and data), the search mode and the
    current path. *)
Definition get_selected_file_path (on_browser_tab : bool)
    (selected : option (string * item_data)) (is_in_search_mode : bool)
    (current_smb_path : string) : option string :=
  if negb on_browser_tab then None
  else
    match selected with
    | None => None
    | Some (item_text, data) =>
        if is_in_search_mode then
          if negb (String.eqb item_text "")
             && negb (PyStr.contains item_text "No matching files found.")
          then Some item_text else None
        else
          match data with
          | DataFile => Some (child_path current_smb_path item_text)
          | _ => None
          end
    end.

(** What a double click leads to. *)
Inductive click : Type :=
| StartPreview                       (* self.start_preview() *)
| BrowsePath (new_path : string)     (* self.browse_path(new_path) *)
| Ignored.

(** [on_item_double_clicked]; [connected] is
    [self.browser_worker and self.browser_worker.smb_connection]. *)
Definition on_item_double_clicked (is_in_search_mode connected : bool)
    (item_type : item_data) (item_text current_smb_path : string) : click :=
  if is_in_search_mode then StartPreview
  else if negb connected then Ignored
  else
    match item_type with
    | DataUp =>
        BrowsePath (if negb (String.eqb current_smb_path "/")
                    then parent_path current_smb_path else ""%string)
    | DataDir => BrowsePath (child_path current_smb_path item_text)
    | _ => StartPreview
    end.

(** [remote_path.split('/')[-1]], the name [start_download] proposes. *)
Definition download_name (remote_path : string) : string :=
  last (PyText.split slash remote_path) ""%string.

(** ** format_file_size *)

(** [round] on the quotient [num / den] of two positive integers: to the
    nearest integer, a tie going to the even one. *)
Definition round_half_even (num den : Z) : Z :=
  let q := (num / den)%Z in
  let r := (num mod den)%Z in
  if (2 * r <? den)%Z then q
  else if (den <? 2 * r)%Z then (q + 1)%Z
  else if Z.even q then q else (q + 1)%Z.

(** The [while] loop of lines 1008-1010.  [size_bytes] is the size over
    [den], a power of 1024: a size below 2^53 is a float without rounding and
    so is each of its quotients by 1024, so the loop is followed on exact
    values.  At most four turns are taken, [n] being below 4 at each. *)
Fixpoint scale_loop (turns : nat) (size den : Z) (n : nat) : Z * nat :=
  match turns with
  | O => (den, n)
  | S turns' =>
      if (1024 * den <=? size)%Z && (n <? 4)%nat
      then scale_loop turns' size (1024 * den)%Z (S n)
      else (den, n)
  end.

(** [power_labels.get(n, 'B')] *)
Definition power_label (n : nat) : string :=
  match n with
  | 0 => "B" | 1 => "KB" | 2 => "MB" | 3 => "GB" | 4 => "TB"
  | _ => "B"
  end.

(** [format_file_size(size_bytes)] for [None] or an integer. *)
Definition format_file_size (size_bytes : option Z) : string :=
  match size_bytes with
  | None => ""%string
  | Some size =>
      if (size <=? 0)%Z then ""%string
      else
        let '(den, n) := scale_loop 4 size 1 0 in
        (PyNum.str_of_nat (Z.to_nat (round_half_even size den)) ++ " " ++ power_label n)%string
  end.

End BrowserGui.

(** ** SMBOverSocksBrowser.py: the settings *)

Module Settings.
Import ScanProtocol.

(** [default_config] of [load_config]. *)
Definition default_proxies : json :=
  JObj [("example1"%string, JNum 1337); ("example2"%string, JNum 1338);
        ("example3"%string, JNum 1339)].

Definition default_config : list (string * json) :=
  [("proxies"%string, default_proxies); ("theme"%string, JStr "dark");
   ("auto_index"%string, JBool true)].

(** What [load_config] finds where [config.json] should be. *)
Inductive config_file : Type :=
| Absent                     (* os.path.exists is false *)
| Unreadable (e : string)    (* IOError *)
| Undecodable (e : string)   (* UnicodeDecodeError: bytes that are not text *)
| Malformed (e : string)     (* json.JSONDecodeError *)
| Holds (v : json).          (* what json.load returns *)

Inductive settings_event : Type :=
| Saved (config : json)      (* save_config: json.dump(self.config, f, indent=4) *)
| Warned (e : string).       (* QMessageBox.warning *)

(** [key in v] *)
Definition py_in (key : string) (v : json) : result bool :=
  match v with
  | JObj members => Ok (existsb (fun kv => String.eqb (fst kv) key) members)
  | JArr l => Ok (existsb (fun x => match x with
                                    | JStr s => String.eqb s key
                                    | _ => false
                                    end) l)
  | JStr s => Ok (PyStr.contains s key)
  | _ => Raise "TypeError"
  end.

(** The truth value of [v]. *)
Definition truthy (v : json) : bool :=
  match v with
  | JNull => false
  | JBool b => b
  | JNum n => negb (n =? 0)%Z
  | JStr s => negb (String.eqb s "")
  | JArr l => match l with [] => false | _ => true end
  | JObj members => match members with [] => false | _ => true end
  end.

(** [d[key] = value] on a dictionary: the value of a key that is there is
    replaced (every member of that name, so that the lookup gives it), a new
    key goes to the end. *)
Fixpoint dict_replace (key : string) (value : json) (members : list (string * json))
  : list (string * json) :=
  match members with
  | [] => []
  | (k, v) :: rest =>
      (k, if String.eqb k key then value else v) :: dict_replace key value rest
  end.

Definition dict_set (key : string) (value : json) (members : list (string * json))
  : list (string * json) :=
  if existsb (fun kv => String.eqb (fst kv) key) members
  then dict_replace key value members
  else members ++ [(key, value)].

(** [v[key] = value]: only a dictionary takes a string key. *)
Definition py_setitem (key : string) (value : json) (v : json) : result json :=
  match v with
  | JObj members => Ok (JObj (dict_set key value members))
  | _ => Raise "TypeError"
  end.

(** Lines 694-696: the loop over the default keys. *)
Fixpoint ensure_defaults (defaults : list (string * json)) (config : json) : result json :=
  match defaults with
  | [] => Ok config
  | (key, value) :: rest =>
      match py_in key config with
      | Raise e => Raise e
      | Ok true => ensure_defaults rest config
      | Ok false =>
          match py_setitem key value config with
          | Raise e => Raise e
          | Ok config' => ensure_defaults rest config'
          end
      end
  end.

(** The test of line 687, [and] stopping at the first false operand. *)
Definition is_old_format (loaded_config : json) : result bool :=
  match py_in "proxies" loaded_config with
  | Raise e => Raise e
  | Ok true => Ok false
  | Ok false =>
      match py_in "theme" loaded_config with
      | Raise e => Raise e
      | Ok true => Ok false
      | Ok false => Ok (truthy loaded_config)
      end
  end.

(** [load_config]: the configuration and what was saved or shown; an
    exception other than the two that are caught (line 698) leaves the method. *)
Definition load_config (file : config_file) : result (json * list settings_event) :=
  match file with
  | Absent => Ok (JObj default_config, [Saved (JObj default_config)])
  | Unreadable e | Malformed e =>
      Ok (JObj default_config, [Warned e; Saved (JObj default_config)])
  | Undecodable _ => Raise "UnicodeDecodeError"
  | Holds loaded_config =>
      match is_old_format loaded_config with
      | Raise e => Raise e
      | Ok true =>
          let config := JObj [("proxies"%string, loaded_config); ("theme"%string, JStr "dark");
                              ("auto_index"%string, JBool true)] in
          match ensure_defaults default_config config with
          | Raise e => Raise e
          | Ok config' => Ok (config', [Saved config])
          end
      | Ok false =>
          match ensure_defaults default_config loaded_config with
          | Raise e => Raise e
          | Ok config' => Ok (config', [])
          end
      end
  end.

(** ** The proxies *)

(** [self.config['proxies']] as a dictionary from names to ports. *)
Definition Proxies : Type := list (string * Z).

Definition has_proxy (name : string) (proxies : Proxies) : bool :=
  existsb (fun kv => String.eqb (fst kv) name) proxies.

Fixpoint proxy_port_of (name : string) (proxies : Proxies) : option Z :=
  match proxies with
  | [] => None
  | (k, v) :: rest => if String.eqb k name then Some v else proxy_port_of name rest
  end.

(** [proxies[name] = port] *)
Definition set_proxy (name : string) (port : Z) (proxies : Proxies) : Proxies :=
  if has_proxy name proxies
  then map (fun kv => if String.eqb (fst kv) name then (fst kv, port) else kv) proxies
  else proxies ++ [(name, port)].

(** [del proxies[name]] *)
Definition del_proxy (name : string) (proxies : Proxies) : result Proxies :=
  if has_proxy name proxies
  then Ok (filter (fun kv => negb (String.eqb (fst kv) name)) proxies)
  else Raise "KeyError".

Section Dialog.

(** [str.strip] on the text of the name field, which may hold any
    character. *)
Variable strip : string -> string.

(** [ProxyDialog.get_data]: the text of the name field and the number in
    the port field, [None] when that field is empty. *)
Definition get_data (name_text : string) (port_input : option Z) : option (string * Z) :=
  match port_input with
  | Some port => if negb (String.eqb name_text "") then Some (strip name_text, port)
                 else None
  | None => None
  end.

(** [if name and port:] on what [get_data] returned. *)
Definition entered (data : option (string * Z)) : option (string * Z) :=
  match data with
  | Some (name, port) =>
      if negb (String.eqb name "") && negb (port =? 0)%Z then Some (name, port) else None
  | None => None
  end.

Inductive proxy_outcome : Type :=
| Unchanged                  (* nothing entered, or the dialog was left *)
| Refused (msg : string)     (* a message box, the proxies as they were *)
| Updated (proxies : Proxies).

(** [add_proxy] *)
Definition add_proxy (accepted : bool) (name_text : string) (port_input : option Z)
    (proxies : Proxies) : proxy_outcome :=
  if negb accepted then Unchanged
  else
    match entered (get_data name_text port_input) with
    | None => Unchanged
    | Some (name, port) =>
        if has_proxy name proxies
        then Refused ("A proxy with the name '" ++ name ++ "' already exists.")
        else Updated (set_proxy name port proxies)
    end.

(** [edit_proxy]; [selected] is the name in the selected row. *)
Definition edit_proxy (selected : option string) (accepted : bool) (name_text : string)
    (port_input : option Z) (proxies : Proxies) : result proxy_outcome :=
  match selected with
  | None => Ok (Refused "Please select a proxy to edit.")
  | Some old_name =>
      if negb accepted then Ok Unchanged
      else
        match entered (get_data name_text port_input) with
        | None => Ok Unchanged
        | Some (new_name, new_port) =>
            match del_proxy old_name proxies with
            | Raise e => Raise e
            | Ok proxies' => Ok (Updated (set_proxy new_name new_port proxies'))
            end
        end
  end.

End Dialog.

(** [remove_proxy]; [reply_yes] is the answer to the question. *)
Definition remove_proxy (selected : option string) (reply_yes : bool) (proxies : Proxies)
  : proxy_outcome :=
  match selected with
  | None => Refused "Please select a proxy to remove."
  | Some name_to_remove =>
      if reply_yes && has_proxy name_to_remove proxies
      then Updated (filter (fun kv => negb (String.eqb (fst kv) name_to_remove)) proxies)
      else Unchanged
  end.

Definition proxy_names (proxies : Proxies) : list string := map fst proxies.

Definition example_proxies : Proxies :=
  [("example1"%string, 1337%Z); ("example2"%string, 1338%Z); ("example3"%string, 1339%Z)].

End Settings.

Module SettingsSpec.
Import ScanProtocol Settings.

(** [key in d] for a dictionary. *)
Definition has_key (key : string) (members : list (string * json)) : bool :=
  existsb (fun kv => String.eqb (fst kv) key) members.

(** The first value a list of defaults has for a key. *)
Fixpoint first_value (k : string) (defaults : list (string * json)) : option json :=
  match defaults with
  | [] => None
  | (key, value) :: rest => if String.eqb k key then Some value else first_value k rest
  end.

End SettingsSpec.

Module ScanStateSpec.
Import ScanRun.

(** The default proxy [main] installs for its arguments. *)
Definition scanner_proxy (args : Args) : option (string * Z) :=
  if no_proxy args then None
  else Some ("127.0.0.1"%string, port_value (proxy_port args)).

(** The process-wide configuration is the one [main] installed. *)
Definition installed (args : Args) (g : ProcState) : Prop :=
  default_proxy g = scanner_proxy args /\ socket_socket g = SocksSocket.

End ScanStateSpec.

(* ================================================================== *)
(** * Properties *)

Unset Implicit Arguments.

(* ------------------------------------------------------------------ *)
(** ** Stage 2 of the scan: the permissions of a share *)

Module ScannerFacts.
Import Scanner ScannerSpec.

Section WithSession.
Variable urandom_hex : nat -> string.
Variable sess : Session.

Lemma share_permissions_quick (name : string) (draw : nat) :
  share_permissions urandom_hex sess true name draw = ([], "N/A (Quick Scan)", draw).
Proof. reflexivity. Qed.

Lemma share_permissions_full (name : string) (draw : nat) :
  exists calls,
    share_permissions urandom_hex sess false name draw =
      (calls,
       label (can_list sess name)
             (can_create_delete sess name ("/temp_check_" ++ urandom_hex draw)),
       S draw).
Proof.
  unfold share_permissions, probe_read, probe_write, can_list, can_create_delete.
  cbn [negb].
  destruct (listPath sess name "/");
    destruct (createDirectory sess name _);
    try destruct (deleteDirectory sess name _);
    cbn; eexists; reflexivity.
Qed.

(** What [scan_shares] keeps: the non-administrative names, in order,
    each with the text of its permissions. *)
Lemma scan_shares_entries (quick : bool) (names : list string) :
  forall draw,
    Forall2
      (fun name entry =>
         fst entry = name /\
         if quick then snd entry = "N/A (Quick Scan)"
         else exists d,
             snd entry =
               label (can_list sess name)
                     (can_create_delete sess name ("/temp_check_" ++ urandom_hex d)))
      (qualifying names)
      (snd (scan_shares urandom_hex sess quick names draw)).
Proof.
  induction names as [|name rest IH]; intro draw; cbn [scan_shares qualifying filter].
  - constructor.
  - destruct (negb (PyStr.endswith name "$")) eqn:E.
    + destruct quick.
      * rewrite share_permissions_quick.
        specialize (IH draw).
        destruct (scan_shares urandom_hex sess true rest draw) as [cs info].
        cbn in *. constructor; [split; reflexivity | exact IH].
      * destruct (share_permissions_full name draw) as [calls Hp]. rewrite Hp.
        specialize (IH (S draw)).
        destruct (scan_shares urandom_hex sess false rest (S draw)) as [cs info].
        cbn in *. constructor; [split; [reflexivity | eexists; reflexivity] | exact IH].
    + apply IH.
Qed.

Lemma scan_shares_quick_no_call (names : list string) :
  forall draw, fst (scan_shares urandom_hex sess true names draw) = [].
Proof.
  induction names as [|name rest IH]; intro draw; cbn [scan_shares]; [reflexivity|].
  destruct (negb (PyStr.endswith name "$")).
  - rewrite share_permissions_quick. specialize (IH draw).
    destruct (scan_shares urandom_hex sess true rest draw) as [cs info].
    cbn in *. now subst.
  - apply IH.
Qed.

End WithSession.

Lemma rendered_injective (p q : permission) : rendered p = rendered q -> p = q.
Proof. destruct p, q; cbn; intro H; try reflexivity; discriminate H. Qed.

Lemma label_rendered (can_read can_write : bool) :
  label can_read can_write = rendered (classify false can_read can_write).
Proof. now destruct can_read, can_write. Qed.

(** C1.  On a host that connects and lists its shares, [check_smb_host]
    keeps exactly the non-administrative shares, in order, and classifies
    each.  In full mode the class is READ_WRITE when the root listing and the
    create-then-delete probe of a temporary directory both succeed, READ when
    only the listing succeeds, WRITE when only the create-then-delete probe
    succeeds and NO_ACCESS when both throw, an exception in a probe counting
    as the permission being absent.  In quick mode the class is UNKNOWN and
    no probe call is made on the session.  The class is written as the text
    [rendered] gives, and the text tells the class. *)
Theorem check_smb_host_permissions :
  forall urandom_hex sess h user password quick use_proxy proxy_port g names,
    connect sess = Ok true ->
    listShares sess = Ok names ->
    exists g' calls found,
      check_smb_host urandom_hex sess h user password quick use_proxy proxy_port g
        = (g', calls, found) /\
      Forall2
        (fun name entry =>
           fst entry = name /\
           exists d,
             snd entry =
               rendered
                 (classify quick (can_list sess name)
                    (can_create_delete sess name ("/temp_check_" ++ urandom_hex d))))
        (qualifying names) (shares_found found) /\
      (quick = true -> filter is_probe calls = []) /\
      (forall p q, rendered p = rendered q -> p = q).
Proof.
  intros rnd sess h user password quick use_proxy port g names Hc Hl.
  unfold check_smb_host. rewrite Hc, Hl.
  pose proof (scan_shares_entries rnd sess quick names 1) as HE.
  pose proof (scan_shares_quick_no_call rnd sess names 1) as HQ.
  destruct (scan_shares rnd sess quick names 1) as [cs info] eqn:ES.
  do 3 eexists. split; [reflexivity|]. split; [|split].
  - assert (HE' : Forall2
                    (fun name entry =>
                       fst entry = name /\
                       exists d,
                         snd entry =
                           rendered
                             (classify quick (can_list sess name)
                                (can_create_delete sess name
                                   ("/temp_check_" ++ rnd d))))
                    (qualifying names) info).
    { cbn [snd] in HE. clear -HE. induction HE as [|name entry l l' [Hn Ht] _ IH];
        constructor; [|exact IH].
      split; [exact Hn|]. destruct quick.
      - exists 0. exact Ht.
      - destruct Ht as [d Ht]. exists d. now rewrite Ht, label_rendered. }
    destruct info; cbn [shares_found shares]; exact HE'.
  - intros ->. rewrite ES in HQ. cbn in HQ. subst cs. reflexivity.
  - exact rendered_injective.
Qed.

Lemma check_smb_host_permissions_witness :
  connect (open_session ["docs"; "C$"]) = Ok true /\
  listShares (open_session ["docs"; "C$"]) = Ok ["docs"; "C$"] /\
  exists g' calls found,
    check_smb_host (fun _ => "00c0ffee") (open_session ["docs"; "C$"])
      "10.0.0.5" "guest" "" false true 1080 fresh_process = (g', calls, found) /\
    Forall2
      (fun name entry =>
         fst entry = name /\
         exists d,
           snd entry =
             rendered
               (classify false (can_list (open_session ["docs"; "C$"]) name)
                  (can_create_delete (open_session ["docs"; "C$"]) name
                     ("/temp_check_" ++ (fun _ : nat => "00c0ffee") d))))
      (qualifying ["docs"; "C$"]) (shares_found found) /\
    (false = true -> filter is_probe calls = []) /\
    (forall p q, rendered p = rendered q -> p = q).
Proof.
  split; [reflexivity|]. split; [reflexivity|].
  apply (check_smb_host_permissions (fun _ => "00c0ffee") (open_session ["docs"; "C$"])
           "10.0.0.5" "guest" "" false true 1080%Z fresh_process ["docs"; "C$"]);
    reflexivity.
Defined.

(** The four sessions of the specification's example, on the share [S]:
    the classes READ_WRITE, READ and NO_ACCESS in full mode, and UNKNOWN in
    quick mode with no probe among the calls. *)
Example classification_examples :
  snd (check_smb_host (fun _ => "00c0ffee") (open_session ["S"]) "10.0.0.5" "guest" ""
         false true 1080 fresh_process)
  = Some (mkHostResult "10.0.0.5" "success" [("S", rendered READ_WRITE)])
  /\ snd (check_smb_host (fun _ => "00c0ffee") mock_read_only "10.0.0.5" "guest" ""
            false true 1080 fresh_process)
     = Some (mkHostResult "10.0.0.5" "success" [("S", rendered READ)])
  /\ snd (check_smb_host (fun _ => "00c0ffee") mock_no_access "10.0.0.5" "guest" ""
            false true 1080 fresh_process)
     = Some (mkHostResult "10.0.0.5" "success" [("S", rendered NO_ACCESS)])
  /\ check_smb_host (fun _ => "00c0ffee") (open_session ["S"]) "10.0.0.5" "guest" ""
       true true 1080 fresh_process
     = (mkProc (Some ("127.0.0.1", 1080%Z)) SocksSocket SocksSocket,
        [CConnect "10.0.0.5"; CListShares; CClose],
        Some (mkHostResult "10.0.0.5" "success" [("S", rendered UNKNOWN)])).
Proof. repeat split. Qed.

End ScannerFacts.

(* ------------------------------------------------------------------ *)
(** ** The thread pool hands back every task once *)

Module PoolFacts.
Import Pool.

Section Order.
Variable A : Type.

Lemma remove_nth_perm (l : list A) :
  forall i x, nth_error l i = Some x -> Permutation l (x :: remove_nth i l).
Proof.
  induction l as [|a l IH]; intros [|i] x H; cbn in *; try discriminate.
  - injection H as ->. apply Permutation_refl.
  - apply IH in H. rewrite perm_swap. now constructor.
Qed.

Lemma remove_nth_length (l : list A) :
  forall i x, nth_error l i = Some x -> S (List.length (remove_nth i l)) = List.length l.
Proof.
  intros i x H. apply remove_nth_perm in H.
  apply Permutation_length in H. cbn in H. congruence.
Qed.

Lemma completion_order_perm (choose : nat -> nat) :
  forall n step (running waiting : list A),
    n = List.length running + List.length waiting ->
    (running = [] -> waiting = []) ->
    Permutation (completion_order n choose step running waiting) (running ++ waiting).
Proof.
  induction n as [|n IH]; intros step running waiting Hn He.
  - destruct running; [|discriminate]. rewrite (He eq_refl). constructor.
  - cbn [completion_order].
    destruct running as [|r0 running'] eqn:ER.
    { rewrite (He eq_refl) in Hn. discriminate. }
    rewrite <- ER in *.
    assert (Hlt : choose step mod List.length running < List.length running).
    { apply Nat.mod_upper_bound. subst running. discriminate. }
    destruct (nth_error running (choose step mod List.length running)) as [t|] eqn:Et.
    2:{ apply nth_error_None in Et. lia. }
    pose proof (remove_nth_perm _ _ _ Et) as Hp.
    pose proof (remove_nth_length _ _ _ Et) as Hl.
    eapply Permutation_trans;
      [|apply Permutation_app_tail; apply Permutation_sym; exact Hp].
    cbn [app]. constructor.
    replace (remove_nth (choose step mod List.length running) running ++ waiting)
      with ((remove_nth (choose step mod List.length running) running
             ++ firstn 1 waiting) ++ skipn 1 waiting)
      by (rewrite <- app_assoc, firstn_skipn; reflexivity).
    apply IH.
    + rewrite length_app.
      assert (List.length (firstn 1 waiting) + List.length (skipn 1 waiting)
              = List.length waiting).
      { rewrite <- length_app, firstn_skipn. reflexivity. }
      lia.
    + intro Hnil. apply app_eq_nil in Hnil as [_ Hf].
      destruct waiting; [reflexivity | discriminate].
Qed.

(** [as_completed] yields every submitted task exactly once, whatever
    the width of the pool and the scheduler's choices. *)
Lemma as_completed_perm (max_workers : nat) (choose : nat -> nat) (tasks : list A) :
  0 < max_workers -> Permutation (as_completed max_workers choose tasks) tasks.
Proof.
  intro Hw. unfold as_completed.
  pose proof (@completion_order_perm choose (List.length tasks) 0
                (firstn max_workers tasks) (skipn max_workers tasks)) as H.
  rewrite firstn_skipn in H. apply H.
  - rewrite <- length_app, firstn_skipn. reflexivity.
  - intro Hf. destruct max_workers; [lia|]. destruct tasks; [reflexivity | discriminate].
Qed.
End Order.

Section Natural.
Variables A B : Type.
Variable f : A -> B.

Lemma remove_nth_map (l : list A) :
  forall i, remove_nth i (map f l) = map f (remove_nth i l).
Proof.
  induction l as [|a l IH]; intros [|i]; cbn; try reflexivity. now rewrite IH.
Qed.

Lemma completion_order_map (choose : nat -> nat) :
  forall n step (running waiting : list A),
    completion_order n choose step (map f running) (map f waiting)
    = map f (completion_order n choose step running waiting).
Proof.
  induction n as [|n IH]; intros step running waiting; cbn [completion_order]; [reflexivity|].
  rewrite length_map, nth_error_map.
  destruct (nth_error running (choose step mod List.length running)) as [t|]; cbn;
    [|reflexivity].
  rewrite remove_nth_map. f_equal.
  destruct waiting as [|w ws]; cbn; rewrite <- IH, map_app; reflexivity.
Qed.

(** The order of completion does not look at what the tasks are. *)
Lemma as_completed_map (max_workers : nat) (choose : nat -> nat) (tasks : list A) :
  as_completed max_workers choose (map f tasks)
  = map f (as_completed max_workers choose tasks).
Proof.
  unfold as_completed.
  rewrite length_map, firstn_map, skipn_map. apply completion_order_map.
Qed.
End Natural.

End PoolFacts.

(* ------------------------------------------------------------------ *)
(** ** The walk of the indexer over a share tree *)

Module IndexerFacts.
Import Browser ShareTree IndexSpec.

Lemma set_cache_same (w : Worker) : set_file_path_cache (file_path_cache w) w = w.
Proof. now destruct w. Qed.

Lemma install_proxy_idem (cfg : Config) (g : ProcState) :
  install_proxy cfg (install_proxy cfg g) = install_proxy cfg g.
Proof. reflexivity. Qed.

(** *** One listing *)

Lemma sort_items_entries (path : string) (items : list SharedFile) :
  forall es files_found subdirs_found,
    Forall2 same_item (filter not_dot items) es ->
    sort_items path items files_found subdirs_found
    = (files_found ++ direct_files path es,
       subdirs_found ++ map fst (subdirs path es)).
Proof.
  induction items as [|item rest IH]; intros es fs ds H; cbn [sort_items filter] in *.
  - inversion H; subst. cbn. now rewrite !app_nil_r.
  - unfold not_dot in H at 1.
    destruct (String.eqb (filename item) "." || String.eqb (filename item) "..");
      cbn [negb] in H.
    + now apply IH.
    + inversion H as [|? e ? es' [Hn [Hd Hs]] Hrest]; subst.
      destruct e as [n sz | n d]; cbn in Hn, Hd, Hs.
      * rewrite Hd, Hn, (Hs Hd). rewrite (IH es' _ _ Hrest).
        cbn. now rewrite <- app_assoc.
      * rewrite Hd, Hn. rewrite (IH es' _ _ Hrest).
        cbn. now rewrite <- app_assoc.
Qed.

(** *** The tree, level by level *)

Lemma serves_subdirs (remote : Remote) (share path : string) (es : list entry) :
  serves remote share path (Listed es) ->
  Forall (fun pd => serves remote share (fst pd) (snd pd)) (subdirs path es).
Proof.
  intros [_ [_ H]]. induction es as [|[n sz | n d] es IH]; cbn in *.
  - constructor.
  - now apply IH.
  - destruct H as [H1 H2]. constructor; [exact H1 | now apply IH].
Qed.

Lemma depth_subdirs (path : string) (es : list entry) (n : nat) :
  depth (Listed es) <= S n ->
  Forall (fun pd => depth (snd pd) <= n) (subdirs path es).
Proof.
  cbn [depth]. intro H. apply le_S_n in H.
  induction es as [|[m sz | m d] es IH]; cbn [subdirs flat_map app snd fst] in *.
  - constructor.
  - now apply IH.
  - constructor; [cbn; lia | apply IH; lia].
Qed.

Lemma depth_pos (d : dir) : 0 < depth d.
Proof. destruct d; cbn; lia. Qed.

Lemma files_of_listed (path : string) (es : list entry) :
  Permutation (files_of path (Listed es))
              (direct_files path es ++ forest_files (subdirs path es)).
Proof.
  cbn [files_of].
  induction es as [|[n sz | n d] es IH]; cbn.
  - constructor.
  - now constructor.
  - unfold forest_files in *. cbn.
    eapply Permutation_trans; [apply Permutation_app_head, IH|].
    apply Permutation_app_swap_app.
Qed.

Lemma dirs_of_listed (path : string) (es : list entry) :
  dirs_of path (Listed es) = path :: forest_dirs (subdirs path es).
Proof.
  cbn [dirs_of]. f_equal.
  induction es as [|[n sz | n d] es IH]; cbn.
  - reflexivity.
  - exact IH.
  - unfold forest_dirs in *. cbn. f_equal. exact IH.
Qed.

(** The files of a frontier are those of its first level and those of
    the next frontier. *)
Lemma forest_files_level (fr : forest) :
  Permutation (forest_files fr) (level_files fr ++ forest_files (level_next fr)).
Proof.
  induction fr as [|[p d] fr IH]; cbn.
  - constructor.
  - unfold forest_files, level_files, level_next in *. cbn [flat_map fst snd].
    rewrite flat_map_app.
    destruct d as [|es].
    + cbn. exact IH.
    + eapply Permutation_trans;
        [apply Permutation_app; [apply files_of_listed | exact IH]|].
      unfold forest_files.
      rewrite <- !app_assoc. apply Permutation_app_head.
      rewrite !app_assoc. apply Permutation_app_tail, Permutation_app_comm.
Qed.

Lemma forest_dirs_level (fr : forest) :
  Permutation (forest_dirs fr) (map fst fr ++ forest_dirs (level_next fr)).
Proof.
  induction fr as [|[p d] fr IH]; cbn.
  - constructor.
  - unfold forest_dirs, level_next in *. cbn [flat_map fst snd].
    rewrite flat_map_app.
    destruct d as [|es].
    + cbn. now constructor.
    + rewrite dirs_of_listed. cbn. constructor. unfold forest_dirs.
      eapply Permutation_trans; [apply Permutation_app_head, IH|].
      rewrite !app_assoc. apply Permutation_app_tail, Permutation_app_comm.
Qed.

(** *** The tasks and the loops *)

Section Walk.
Variable remote : Remote.
Variable max_workers : nat.
Variable sched : nat -> nat -> nat.
Hypothesis pool_not_empty : 0 < max_workers.

Lemma fetch_listed (self : Worker) (path : string) (es : list entry) (g : ProcState) :
  _is_running self = true ->
  serves remote (smb_share (config self)) path (Listed es) ->
  exists evs,
    _fetch_path_contents remote self path g
    = (install_proxy (config self) g, evs,
       Ok (direct_files path es, map fst (subdirs path es)))
    /\ connects evs = [path].
Proof.
  intros Hrun [[b Hc] [[items [Hl Hf]] _]].
  unfold _fetch_path_contents. rewrite Hrun, Hc, Hl. cbn [negb].
  rewrite (sort_items_entries path items es [] [] Hf). cbn [app].
  eexists. split; reflexivity.
Qed.

Lemma fetch_failed (self : Worker) (path : string) (g : ProcState) :
  _is_running self = true ->
  serves remote (smb_share (config self)) path Failed ->
  exists evs e,
    _fetch_path_contents remote self path g
    = (install_proxy (config self) g, evs, Raise e)
    /\ connects evs = [path].
Proof.
  intros Hrun [[e Hc] | [[b Hc] [e Hl]]];
    unfold _fetch_path_contents; rewrite Hrun, Hc; try rewrite Hl; cbn [negb];
    do 2 eexists; split; reflexivity.
Qed.

(** One level: the futures of a frontier, consumed in any order. *)
Lemma drain_level_forest (fr : forest) :
  forall self g next,
    _is_running self = true ->
    Forall (fun pd => serves remote (smb_share (config self)) (fst pd) (snd pd)) fr ->
    exists g' evs,
      drain_level remote (map fst fr) self g next
      = (set_file_path_cache (file_path_cache self ++ level_files fr) self,
         g', next ++ map fst (level_next fr), evs)
      /\ connects evs = map fst fr
      /\ (g' = g \/ g' = install_proxy (config self) g).
Proof.
  induction fr as [|[p d] fr IH]; intros self g next Hrun Hs; cbn [map drain_level fst].
  - exists g, []. cbn. rewrite !app_nil_r, set_cache_same. auto.
  - rewrite Hrun. cbn [negb].
    inversion Hs as [|? ? Hd Hrest]; subst. cbn [fst snd] in Hd.
    unfold level_files, level_next. cbn [flat_map fst snd].
    destruct d as [|es].
    + destruct (fetch_failed self p g Hrun Hd) as [ev [e [Hf Hc]]]. rewrite Hf.
      destruct (IH self (install_proxy (config self) g) next Hrun Hrest)
        as [g' [evs [Hdr [Hcs Hg]]]].
      rewrite Hdr. do 2 eexists. split; [reflexivity|]. split.
      * unfold connects in *. rewrite flat_map_app. cbn [flat_map]. rewrite Hc.
        cbn. now rewrite Hcs.
      * right. destruct Hg as [-> | ->]; reflexivity.
    + destruct (fetch_listed self p es g Hrun Hd) as [ev [Hf Hc]]. rewrite Hf.
      set (self' := set_file_path_cache (file_path_cache self ++ direct_files p es) self).
      destruct (IH self' (install_proxy (config self) g)
                   (next ++ map fst (subdirs p es)) Hrun Hrest)
        as [g' [evs [Hdr [Hcs Hg]]]].
      rewrite Hdr. do 2 eexists. split; [|split].
      * subst self'. cbn [file_path_cache set_file_path_cache config smb_connection
                            _is_running is_cached is_caching].
        unfold level_files, level_next.
        rewrite map_app, <- !app_assoc. reflexivity.
      * unfold connects in *. rewrite flat_map_app, Hc. cbn. now rewrite Hcs.
      * right. destruct Hg as [-> | ->]; reflexivity.
Qed.

(** The whole walk from a frontier whose trees are served. *)
Lemma build_loop_forest :
  forall fuel level (fr : forest) self g,
    _is_running self = true ->
    Forall (fun pd => serves remote (smb_share (config self)) (fst pd) (snd pd)) fr ->
    Forall (fun pd => depth (snd pd) <= fuel) fr ->
    exists cache g' tr,
      build_loop remote max_workers sched fuel level (map fst fr) self g
      = Some (set_file_path_cache cache self, g', tr)
      /\ Permutation cache (file_path_cache self ++ forest_files fr)
      /\ Permutation (connects tr) (forest_dirs fr)
      /\ (g' = g \/ g' = install_proxy (config self) g).
Proof.
  induction fuel as [|fuel IH]; intros level fr self g Hrun Hs Hd.
  - destruct fr as [|[p d] fr].
    + exists (file_path_cache self), g, []. cbn. rewrite set_cache_same, app_nil_r.
      repeat split; auto.
    + inversion Hd as [|? ? H0 _]; subst. cbn in H0.
      pose proof (depth_pos d). lia.
  - destruct fr as [|pd0 fr0] eqn:Efr.
    + exists (file_path_cache self), g, []. cbn. rewrite set_cache_same, app_nil_r.
      repeat split; auto.
    + rewrite <- Efr in *.
      assert (Hne : map fst fr <> []) by (subst fr; discriminate).
      cbn [build_loop].
      destruct (map fst fr) as [|q qs] eqn:Em; [contradiction|].
      rewrite <- Em. rewrite Hrun. cbn [negb].
      rewrite PoolFacts.as_completed_map.
      set (frp := Pool.as_completed max_workers (sched level) fr).
      assert (Hperm : Permutation frp fr)
        by (apply PoolFacts.as_completed_perm, pool_not_empty).
      assert (Hs' : Forall (fun pd => serves remote (smb_share (config self))
                                        (fst pd) (snd pd)) frp)
        by (eapply Permutation_Forall; [apply Permutation_sym, Hperm | exact Hs]).
      assert (Hd' : Forall (fun pd => depth (snd pd) <= S fuel) frp)
        by (eapply Permutation_Forall; [apply Permutation_sym, Hperm | exact Hd]).
      destruct (drain_level_forest frp self g [] Hrun Hs')
        as [g1 [ev [Hdr [Hc1 Hg1]]]].
      rewrite Hdr. cbn [app].
      set (self1 := set_file_path_cache (file_path_cache self ++ level_files frp) self).
      assert (Hs1 : Forall (fun pd => serves remote (smb_share (config self1))
                                        (fst pd) (snd pd)) (level_next frp)).
      { unfold level_next. apply Forall_flat_map.
        clear - Hs'. induction Hs' as [|[p d] l H1 _ IHl]; constructor; [|exact IHl].
        destruct d as [|es]; cbn [snd fst] in *; [constructor|].
        now apply serves_subdirs. }
      assert (Hd1 : Forall (fun pd => depth (snd pd) <= fuel) (level_next frp)).
      { unfold level_next. apply Forall_flat_map.
        clear - Hd'. induction Hd' as [|[p d] l H1 _ IHl]; constructor; [|exact IHl].
        destruct d as [|es]; cbn [snd fst] in *; [constructor|].
        now apply depth_subdirs. }
      destruct (IH (S level) (level_next frp) self1 g1 Hrun Hs1 Hd1)
        as [cache [g2 [tr [Hb [Hp [Hc2 Hg2]]]]]].
      rewrite Hb. exists cache, g2, (ev ++ tr). split; [reflexivity|]. split; [|split].
      * eapply Permutation_trans; [exact Hp|].
        subst self1. cbn [file_path_cache set_file_path_cache].
        rewrite <- app_assoc. apply Permutation_app_head.
        eapply Permutation_trans; [apply Permutation_sym, forest_files_level|].
        unfold forest_files. now apply Permutation_flat_map.
      * unfold connects in *. rewrite flat_map_app, Hc1.
        eapply Permutation_trans;
          [apply Permutation_app_head, Hc2|].
        eapply Permutation_trans; [apply Permutation_sym, forest_dirs_level|].
        unfold forest_dirs. now apply Permutation_flat_map.
      * subst self1. cbn [config set_file_path_cache] in Hg2.
        destruct Hg1 as [-> | ->], Hg2 as [-> | ->]; auto.
Qed.

End Walk.

End IndexerFacts.

(* ------------------------------------------------------------------ *)
(** ** Paths: [os.path.join] against the names on the way *)

Module PathFacts.
Import Browser ShareTree.

Lemma str_app_assoc (a b c : string) : ((a ++ b) ++ c = a ++ (b ++ c))%string.
Proof. induction a as [|x a IH]; cbn; [reflexivity | now rewrite IH]. Qed.

Lemma str_app_nil_r (a : string) : (a ++ "")%string = a.
Proof. induction a as [|x a IH]; cbn; [reflexivity | now rewrite IH]. Qed.

Lemma mem_char_app (c : ascii) (a b : string) :
  PyStr.mem_char c (a ++ b) = PyStr.mem_char c a || PyStr.mem_char c b.
Proof.
  induction a as [|x a IH]; cbn; [reflexivity|]. now rewrite IH, orb_assoc.
Qed.

Lemma replace_char_absent (a b : ascii) (s : string) :
  PyStr.mem_char a s = false -> PyStr.replace_char a b s = s.
Proof.
  induction s as [|x s IH]; cbn; [reflexivity|].
  intro H. apply orb_false_elim in H as [H1 H2].
  rewrite Ascii.eqb_sym, H1, (IH H2). reflexivity.
Qed.

Lemma startswith_slash (n : string) :
  PyStr.mem_char slash n = false -> PyStr.startswith n "/" = false.
Proof.
  destruct n as [|c n]; [reflexivity|].
  unfold PyStr.startswith. cbn [String.prefix PyStr.mem_char].
  intro H. apply orb_false_elim in H as [H _].
  destruct (ascii_dec "/" c) as [E|E]; [|reflexivity].
  subst c. unfold slash in H. rewrite Ascii.eqb_refl in H. discriminate H.
Qed.

Lemma endswith_no_slash (n : string) :
  PyStr.mem_char slash n = false -> PyStr.endswith n "/" = false.
Proof.
  induction n as [|c n IH]; cbn [PyStr.endswith PyStr.mem_char]; [reflexivity|].
  intro H. apply orb_false_elim in H as [H1 H2]. rewrite (IH H2), orb_false_r.
  apply String.eqb_neq. intro E. injection E as -> _. discriminate H1.
Qed.

Lemma endswith_app_name (x n : string) :
  n <> ""%string -> PyStr.mem_char slash n = false ->
  PyStr.endswith (x ++ n) "/" = false.
Proof.
  intros Hne Hs. induction x as [|c x IH]; cbn [append PyStr.endswith].
  - now apply endswith_no_slash.
  - rewrite IH, orb_false_r. apply String.eqb_neq. intro E. injection E as _ E.
    destruct x; cbn in E; [contradiction | discriminate].
Qed.

Lemma concat_snoc (sep : string) (l : list string) (n : string) :
  String.concat sep (l ++ [n])
  = match l with
    | [] => n
    | _ :: _ => (String.concat sep l ++ sep ++ n)%string
    end.
Proof.
  induction l as [|a l IH]; [reflexivity|].
  cbn [app]. destruct l as [|b l]; [reflexivity|].
  change (String.concat sep (a :: (b :: l) ++ [n]))
    with (a ++ sep ++ String.concat sep ((b :: l) ++ [n]))%string.
  rewrite IH.
  change (String.concat sep (a :: b :: l))
    with (a ++ sep ++ String.concat sep (b :: l))%string.
  now rewrite !str_app_assoc.
Qed.

Lemma good_name_parts (n : string) :
  good_name n = true ->
  n <> ""%string /\ PyStr.mem_char slash n = false /\ PyStr.mem_char backslash n = false.
Proof.
  unfold good_name. intro H.
  apply andb_prop in H as [H H3]. apply andb_prop in H as [H1 H2].
  apply negb_true_iff in H1, H2, H3. apply String.eqb_neq in H1. auto.
Qed.

Lemma path_of_no_backslash (segments : list string) :
  Forall (fun n => good_name n = true) segments ->
  PyStr.mem_char backslash (path_of segments) = false.
Proof.
  unfold path_of. intro H. cbn [append PyStr.mem_char]. cbn [Ascii.eqb orb].
  change (PyStr.mem_char backslash (String.concat "/" segments) = false).
  induction H as [|n l Hn Hl IH]; [reflexivity|].
  apply good_name_parts in Hn as [_ [_ Hb]].
  destruct l as [|m l]; [exact Hb|].
  change (String.concat "/" (n :: m :: l))
    with (n ++ "/" ++ String.concat "/" (m :: l))%string.
  rewrite !mem_char_app, Hb, IH. reflexivity.
Qed.

Lemma path_of_rooted (segments : list string) :
  PyStr.startswith (path_of segments) "/" = true.
Proof.
  unfold path_of, PyStr.startswith. cbn [append String.prefix].
  destruct (ascii_dec "/" "/") as [_|E]; [|contradiction].
  now destruct (String.concat "/" segments).
Qed.

(** The path the indexer builds for a name met in a directory is the
    directory's names and that name, each after a slash. *)
Lemma full_path_located (above : list string) (n : string) :
  Forall (fun m => good_name m = true) above ->
  good_name n = true ->
  full_path (path_of above) n = path_of (above ++ [n]).
Proof.
  intros Ha Hn.
  assert (Hall : Forall (fun m => good_name m = true) (above ++ [n]))
    by (apply Forall_app; split; [exact Ha | now constructor]).
  unfold full_path.
  replace (path_join (path_of above) n) with (path_of (above ++ [n])).
  { apply replace_char_absent. now apply path_of_no_backslash. }
  destruct (good_name_parts n Hn) as [Hne [Hs _]].
  unfold path_join. rewrite (startswith_slash n Hs).
  unfold path_of at 2. cbn [append String.eqb]. cbn [orb].
  destruct above as [|a0 above0] eqn:Ea.
  - reflexivity.
  - rewrite <- Ea in *.
    assert (Hnil : above <> []) by (subst above; discriminate).
    destruct (exists_last Hnil) as [l' [a El]].
    assert (Hga : good_name a = true).
    { rewrite El in Ha. apply Forall_app in Ha as [_ Ha]. now inversion Ha. }
    destruct (good_name_parts a Hga) as [Hane [Has _]].
    assert (Hend : PyStr.endswith (path_of above) "/" = false).
    { unfold path_of. rewrite El, concat_snoc.
      destruct l'.
      - now apply endswith_app_name.
      - rewrite <- !str_app_assoc. now apply endswith_app_name. }
    rewrite Hend. unfold path_of. rewrite concat_snoc, Ea. cbn [append].
    reflexivity.
Qed.

Lemma dir_induction (P : dir -> Prop) :
  P Failed ->
  (forall es,
      Forall (fun e => match e with
                       | EFile _ _ => True
                       | EDir _ d => P d
                       end) es ->
      P (Listed es)) ->
  forall d, P d.
Proof.
  intros HF HL. fix IH 1. intros [|es]; [exact HF|].
  apply HL. induction es as [|e es IHes]; constructor; [|exact IHes].
  destruct e as [n sz | n d]; [exact I | apply IH].
Qed.

(** On a tree of good names the indexer's paths are the located ones. *)
Lemma files_of_located (d : dir) :
  forall above,
    Forall (fun m => good_name m = true) above ->
    good_names d = true ->
    files_of (path_of above) d = located_files above d.
Proof.
  induction d as [|es IH] using dir_induction; intros above Ha Hg; [reflexivity|].
  cbn [files_of located_files good_names] in *.
  induction IH as [|[n sz | n d] es Hd _ IHes]; [reflexivity| |].
  - apply andb_prop in Hg as [Hn Hg].
    rewrite (full_path_located above n Ha Hn), (IHes Hg). reflexivity.
  - apply andb_prop in Hg as [Hg Hg']. apply andb_prop in Hg as [Hn Hgd].
    rewrite (full_path_located above n Ha Hn), (IHes Hg').
    rewrite Hd; [reflexivity | | exact Hgd].
    apply Forall_app; split; [exact Ha | now constructor].
Qed.

(** Located paths start at the root and use forward slashes only. *)
Lemma located_files_rooted (d : dir) :
  forall above,
    Forall (fun m => good_name m = true) above ->
    good_names d = true ->
    Forall (fun rec => PyStr.startswith (fst rec) "/" = true
                       /\ PyStr.mem_char backslash (fst rec) = false)
           (located_files above d).
Proof.
  induction d as [|es IH] using dir_induction; intros above Ha Hg; [constructor|].
  cbn [located_files good_names] in *.
  induction IH as [|[n sz | n d] es Hd _ IHes]; [constructor| |].
  - apply andb_prop in Hg as [Hn Hg].
    constructor; [|now apply IHes].
    cbn [fst]. split; [apply path_of_rooted|].
    apply path_of_no_backslash, Forall_app; split; [exact Ha | now constructor].
  - apply andb_prop in Hg as [Hg Hg']. apply andb_prop in Hg as [Hn Hgd].
    apply Forall_app; split; [|now apply IHes].
    apply Hd; [|exact Hgd].
    apply Forall_app; split; [exact Ha | now constructor].
Qed.

End PathFacts.

(* ------------------------------------------------------------------ *)
(** ** The index a build produces *)

Module IndexFacts.
Import Browser ShareTree IndexSpec.

(** The walk from the root of a served tree ends, whatever the tree's
    directories answer, with the files of the tree in the cache. *)
Lemma build_cache_of_tree :
  forall remote max_workers sched root self g fuel,
    0 < max_workers ->
    _is_running self = true ->
    serves remote (smb_share (config self)) "/" root ->
    depth root <= fuel ->
    exists cache g' tr,
      _build_cache_parallel remote max_workers sched fuel self g
      = Returns (set_file_path_cache cache self) g' tr
      /\ Permutation cache (file_path_cache self ++ files_of "/" root)
      /\ Permutation (connects tr) (dirs_of "/" root)
      /\ (g' = g \/ g' = install_proxy (config self) g).
Proof.
  intros remote w sched root self g fuel Hw Hrun Hs Hd.
  destruct (IndexerFacts.build_loop_forest remote w sched Hw fuel 0 [("/", root)] self g
              Hrun) as [cache [g' [tr [Hb [Hp [Hc Hg]]]]]].
  - constructor; [exact Hs | constructor].
  - constructor; [exact Hd | constructor].
  - unfold _build_cache_parallel. cbn [map fst] in Hb. rewrite Hb.
    exists cache, g', tr. unfold forest_files, forest_dirs in *.
    cbn [flat_map fst snd] in *. rewrite !app_nil_r in *. auto.
Qed.

(** C3.  For a share tree whose directories all list and whose names are
    names a server can give, a build started on an emptied cache ends, for
    every positive width of the pool and every order in which the listing
    tasks complete, and leaves in the cache exactly one record per file of
    the tree: the file's path (the names from the root, each after a forward
    slash) with its size.  Every recorded path starts with [/] and holds no
    backslash; directories have no record. *)
Theorem build_cache_complete :
  forall remote max_workers sched root self g fuel,
    0 < max_workers ->
    _is_running self = true ->
    file_path_cache self = [] ->
    serves remote (smb_share (config self)) "/" root ->
    all_listed root = true ->
    good_names root = true ->
    depth root <= fuel ->
    exists cache g' tr,
      _build_cache_parallel remote max_workers sched fuel self g
      = Returns (set_file_path_cache cache self) g' tr
      /\ Permutation cache (located_files [] root)
      /\ Forall (fun rec => PyStr.startswith (fst rec) "/" = true
                            /\ PyStr.mem_char backslash (fst rec) = false) cache.
Proof.
  intros remote w sched root self g fuel Hw Hrun Hempty Hs _ Hgood Hd.
  destruct (build_cache_of_tree remote w sched root self g fuel Hw Hrun Hs Hd)
    as [cache [g' [tr [Hb [Hp _]]]]].
  rewrite Hempty in Hp. cbn [app] in Hp.
  change "/"%string with (path_of []) in Hp.
  rewrite (PathFacts.files_of_located root [] (Forall_nil _) Hgood) in Hp.
  exists cache, g', tr. repeat split; [exact Hb | exact Hp |].
  eapply Permutation_Forall; [apply Permutation_sym, Hp|].
  apply PathFacts.located_files_rooted; [constructor | exact Hgood].
Qed.

Ltac serve :=
  cbn; repeat (first [ split | eexists | reflexivity
                     | apply Forall2_cons | apply Forall2_nil | intro ]).

Lemma example_tree_served :
  serves (remote_of example_tree) "docs" "/" example_tree.
Proof. serve. Qed.

Lemma example_tree_failing_served :
  serves (remote_of example_tree_failing) "docs" "/" example_tree_failing.
Proof.
  cbn. split; [eexists; reflexivity|]. split.
  - eexists. split; [reflexivity|]. cbn.
    repeat constructor.
  - split; [right; split; eexists; reflexivity|].
    split; [|exact I]. serve.
Qed.

Lemma build_cache_complete_witness :
  0 < source_max_workers /\
  _is_running connected_worker = true /\
  file_path_cache connected_worker = [] /\
  serves (remote_of example_tree) (smb_share (config connected_worker)) "/" example_tree /\
  all_listed example_tree = true /\
  good_names example_tree = true /\
  depth example_tree <= 3 /\
  exists cache g' tr,
    _build_cache_parallel (remote_of example_tree) source_max_workers last_first 3
      connected_worker browser_process
    = Returns (set_file_path_cache cache connected_worker) g' tr
    /\ Permutation cache (located_files [] example_tree)
    /\ Forall (fun rec => PyStr.startswith (fst rec) "/" = true
                          /\ PyStr.mem_char backslash (fst rec) = false) cache.
Proof.
  assert (H1 : 0 < source_max_workers) by (unfold source_max_workers; lia).
  assert (H7 : depth example_tree <= 3) by (vm_compute; lia).
  repeat (split; [first [exact H1 | exact H7 | reflexivity | exact example_tree_served]|]).
  exact (build_cache_complete (remote_of example_tree) source_max_workers last_first
           example_tree connected_worker browser_process 3
           H1 eq_refl eq_refl example_tree_served eq_refl eq_refl H7).
Defined.

(** The index of the specification's example, as the source's pool
    builds it when the last running task always ends first. *)
Example build_cache_example :
  _build_cache_parallel (remote_of example_tree) source_max_workers last_first 3
    connected_worker browser_process
  = Returns
      (set_file_path_cache [("/f1", 11%Z); ("/b/f2", 22%Z); ("/b/c/f3", 33%Z)]
         connected_worker)
      (install_proxy example_config browser_process)
      [StatusUpdate "Indexing: /"; CallConnect "/"; CallListPath "docs" "/";
       CallClose "/";
       StatusUpdate "Indexing: /b"; CallConnect "/b"; CallListPath "docs" "/b";
       CallClose "/b";
       StatusUpdate "Indexing: /b/c"; CallConnect "/b/c"; CallListPath "docs" "/b/c";
       CallClose "/b/c"].
Proof. vm_compute. reflexivity. Qed.

End IndexFacts.

(* ------------------------------------------------------------------ *)
(** ** The slots of the worker: building and the guard *)

Module SlotFacts.
Import Browser ShareTree IndexSpec SlotSpec.

Lemma after_nil (o : outcome) : after [] o = o.
Proof. now destruct o. Qed.

Lemma example_failing_served_hiding :
  serves remote_hiding "docs" "/" example_tree_failing.
Proof.
  cbn. split; [eexists; reflexivity|]. split.
  - eexists. split; [reflexivity|]. cbn. repeat constructor.
  - split; [right; split; eexists; reflexivity|].
    split; [|exact I]. cbn.
    split; [eexists; reflexivity|]. split; [|exact I].
    eexists. split; [reflexivity|]. cbn. repeat constructor.
Qed.

(** C7.  When some directories of the share cannot be listed (their task
    raises) and the others list, [start_background_caching] on an idle,
    running worker still returns with the indexer [Ready].  The cache then
    holds exactly the files of the directories that listed; a directory that
    failed gives no file, and nothing below it is visited: the directories a
    task connected for are the directories of the tree, a failed one being
    a leaf. *)
Theorem build_contains_failed_listing :
  forall remote max_workers sched root self g fuel,
    0 < max_workers ->
    idle self ->
    _is_running self = true ->
    serves remote (smb_share (config self)) "/" root ->
    depth root <= fuel ->
    exists self' g' tr,
      start_background_caching (_build_cache_parallel remote max_workers sched fuel) self g
      = Returns self' g' tr
      /\ ready self'
      /\ Permutation (file_path_cache self') (files_of "/" root)
      /\ Permutation (connects tr) (dirs_of "/" root).
Proof.
  intros remote w sched root self g fuel Hw [Hconn [Hcached Hcaching]] Hrun Hs Hd.
  unfold start_background_caching. rewrite Hconn, Hcached, Hcaching, Hrun. cbn [negb orb].
  set (self2 := set_file_path_cache [] (set_is_caching true self)).
  destruct (IndexFacts.build_cache_of_tree remote w sched root self2 g fuel Hw Hrun Hs Hd)
    as [cache [g' [tr [Hb [Hp [Hc _]]]]]].
  rewrite Hb. do 3 eexists. split; [reflexivity|]. split; [split; reflexivity|]. split.
  - exact Hp.
  - unfold connects in *. cbn [flat_map app]. rewrite flat_map_app. cbn [flat_map app].
    now rewrite app_nil_r.
Qed.

Lemma build_contains_failed_listing_witness :
  0 < source_max_workers /\
  idle connected_worker /\
  _is_running connected_worker = true /\
  serves remote_hiding (smb_share (config connected_worker)) "/" example_tree_failing /\
  depth example_tree_failing <= 2 /\
  exists self' g' tr,
    start_background_caching
      (_build_cache_parallel remote_hiding source_max_workers last_first 2)
      connected_worker browser_process
    = Returns self' g' tr
    /\ ready self'
    /\ Permutation (file_path_cache self') (files_of "/" example_tree_failing)
    /\ Permutation (connects tr) (dirs_of "/" example_tree_failing).
Proof.
  assert (H1 : 0 < source_max_workers) by (unfold source_max_workers; lia).
  assert (H2 : idle connected_worker) by (repeat split).
  assert (H5 : depth example_tree_failing <= 2) by (vm_compute; lia).
  split; [exact H1|]. split; [exact H2|]. split; [reflexivity|].
  split; [exact example_failing_served_hiding|]. split; [exact H5|].
  exact (build_contains_failed_listing remote_hiding source_max_workers last_first
           example_tree_failing connected_worker browser_process 2
           H1 H2 eq_refl example_failing_served_hiding H5).
Defined.

(** The specification's example: [/b] fails, [/] and [/c] list.  The
    task of [/c] ends before that of [/b]; the file below [/b] is never
    asked for. *)
Example failed_listing_example :
  start_background_caching
    (_build_cache_parallel remote_hiding source_max_workers last_first 2)
    connected_worker browser_process
  = Returns
      (mkWorker example_config true true true false [("/f1", 11%Z); ("/c/f4", 44%Z)])
      (install_proxy example_config browser_process)
      [StatusUpdate "Starting background file indexing...";
       StatusUpdate "Indexing: /"; CallConnect "/"; CallListPath "docs" "/";
       CallClose "/";
       StatusUpdate "Indexing: /c"; CallConnect "/c"; CallListPath "docs" "/c";
       CallClose "/c";
       StatusUpdate "Indexing: /b"; CallConnect "/b"; CallListPath "docs" "/b";
       Printed "Error fetching path contents during cache build: STATUS_ACCESS_DENIED";
       StatusUpdate "Background file indexing is complete. Search is now available."].
Proof. vm_compute. reflexivity. Qed.

Lemma build_never_raises (remote : Remote) (max_workers : nat) (sched : nat -> nat -> nat)
    (fuel : nat) (s : Worker) (g : ProcState) :
  forall e s' g' tr,
    _build_cache_parallel remote max_workers sched fuel s g <> Raises e s' g' tr.
Proof.
  intros e s' g' tr. unfold _build_cache_parallel.
  destruct (build_loop remote max_workers sched fuel 0 ["/"%string] s g) as [[[s1 g1] tr1]|];
    discriminate.
Qed.

(** C6.  A request to build that arrives while a build is in progress
    does nothing: with [is_caching] set, [start_background_caching] returns
    the worker as it was (the cache is not cleared) and has no effect at all
    (no listing, no signal).  So a build during which a second request is
    served as the walk starts is the build alone, one walk; and so is a build
    followed by the second request, served from the queue once the first has
    returned. *)
Theorem second_build_request_is_noop :
  forall build self g,
    (is_caching self = true -> start_background_caching build self g = Returns self g [])
    /\ start_background_caching (with_request_during build) self g
       = start_background_caching build self g
    /\ (forall remote max_workers sched fuel,
           then_request
             (start_background_caching
                (_build_cache_parallel remote max_workers sched fuel) self g)
             (start_background_caching
                (_build_cache_parallel remote max_workers sched fuel))
           = start_background_caching
               (_build_cache_parallel remote max_workers sched fuel) self g).
Proof.
  intros build self g. split; [|split].
  - intro H. unfold start_background_caching. rewrite H.
    now rewrite orb_true_r.
  - unfold start_background_caching at 1 2.
    destruct (negb (smb_connection self) || is_cached self || is_caching self
              || negb (_is_running self)); [reflexivity|].
    unfold with_request_during, then_request, start_background_caching.
    cbn [is_caching set_file_path_cache set_is_caching].
    rewrite orb_true_r. cbn [orb]. now rewrite after_nil.
  - intros remote w sched fuel.
    unfold start_background_caching at 1 3.
    destruct (negb (smb_connection self) || is_cached self || is_caching self
              || negb (_is_running self)) eqn:Eg.
    + unfold then_request, start_background_caching. rewrite Eg. cbn [after].
      now rewrite app_nil_r.
    + destruct (_build_cache_parallel remote w sched fuel _ g)
        as [s g' tr | e s g' tr |] eqn:Eb.
      * unfold then_request, start_background_caching.
        cbn [is_cached is_caching set_is_cached set_is_caching smb_connection _is_running].
        rewrite orb_true_r. cbn [orb after]. now rewrite app_nil_r.
      * now apply build_never_raises in Eb.
      * reflexivity.
Qed.

Lemma second_build_request_is_noop_witness :
  is_caching (set_is_caching true connected_worker) = true /\
  start_background_caching
    (_build_cache_parallel (remote_of example_tree) source_max_workers last_first 3)
    (set_is_caching true connected_worker) browser_process
  = Returns (set_is_caching true connected_worker) browser_process [].
Proof.
  split; [reflexivity|].
  exact (proj1 (second_build_request_is_noop
                  (_build_cache_parallel (remote_of example_tree) source_max_workers
                     last_first 3)
                  (set_is_caching true connected_worker) browser_process) eq_refl).
Defined.

(** Two requests, the second during the first: every directory of the
    example is connected for once. *)
Example one_walk_example :
  match start_background_caching
          (with_request_during
             (_build_cache_parallel (remote_of example_tree) source_max_workers
                last_first 3))
          connected_worker browser_process with
  | Returns _ _ tr => connects tr = ["/"; "/b"; "/b/c"]
  | _ => False
  end.
Proof. vm_compute. reflexivity. Qed.

Lemma release_clears (s : Worker) : is_caching (release s) = false.
Proof. unfold release. destruct (is_caching s) eqn:E; [reflexivity | exact E]. Qed.

(** Entered with the guard clear, either slot returns with it clear. *)
Lemma slots_clear_guard (build : Worker -> ProcState -> outcome) :
  (forall s g0, build s g0 <> Diverges) ->
  forall self g,
    is_caching self = false ->
    (exists s' g' tr,
        start_background_caching build self g = Returns s' g' tr
        /\ is_caching s' = false)
    /\ (forall keyword,
           exists s' g' tr,
             do_search build keyword self g = Returns s' g' tr
             /\ is_caching s' = false).
Proof.
  intros Hterm self g Hflag. split.
  - unfold start_background_caching.
    destruct (negb (smb_connection self) || is_cached self || is_caching self
              || negb (_is_running self)).
    + now exists self, g, [].
    + destruct (build _ g) as [s g' tr | e s g' tr |] eqn:Eb.
      * do 3 eexists. split; reflexivity.
      * do 3 eexists. split; reflexivity.
      * now apply Hterm in Eb.
  - intro keyword. unfold do_search.
    destruct (negb (smb_connection self)); [now exists self, g, []|].
    rewrite Hflag. unfold first_search_build.
    destruct (negb (is_cached self)).
    + destruct (build _ g) as [s g' tr | e s g' tr |] eqn:Eb.
      * do 3 eexists. split; [reflexivity | apply release_clears].
      * do 3 eexists. split; [reflexivity | apply release_clears].
      * now apply Hterm in Eb.
    + do 3 eexists. split; [reflexivity | apply release_clears].
Qed.

(** Every request served from a worker whose guard is clear returns and
    leaves it clear. *)
Lemma serve_clears_guard (build : Worker -> ProcState -> outcome) (sess : MainSession) :
  (forall s g0, build s g0 <> Diverges) ->
  forall r self g,
    is_caching self = false ->
    exists s' g' tr, serve build sess r self g = Returns s' g' tr /\ is_caching s' = false.
Proof.
  intros Hterm r self g Hflag.
  destruct (slots_clear_guard build Hterm self g Hflag) as [Hstart Hsearch].
  destruct r as [| |keyword|]; cbn [serve].
  - unfold run_browser.
    destruct (negb (_is_running self)); [now exists self, g, []|].
    destruct (main_connect sess) as [[|]|e].
    + destruct (browse_path sess (set_smb_connection true self) "/");
        do 3 eexists; (split; [reflexivity | exact Hflag]).
    + do 3 eexists. split; [reflexivity | exact Hflag].
    + do 3 eexists. split; [reflexivity | exact Hflag].
  - exact Hstart.
  - apply Hsearch.
  - unfold stop. do 3 eexists. split; [reflexivity | exact Hflag].
Qed.

(** C10.  Whatever the build does short of running for ever (returning or
    raising, with any state), a call of [start_background_caching] or of
    [do_search] that starts with the guard clear returns (no exception leaves
    the slot) with [is_caching] false.  Every call starts so: from a new
    worker, whatever requests the worker's thread has served, they all
    returned and [is_caching] is false. *)
Theorem guard_cleared_on_return :
  forall build,
    (forall s g0, build s g0 <> Diverges) ->
    (forall self g,
        is_caching self = false ->
        (exists s' g' tr,
            start_background_caching build self g = Returns s' g' tr
            /\ is_caching s' = false)
        /\ (forall keyword,
               exists s' g' tr,
                 do_search build keyword self g = Returns s' g' tr
                 /\ is_caching s' = false))
    /\ (forall sess cfg g requests,
           exists s' g' tr,
             serve_all build sess requests (init cfg) g = Returns s' g' tr
             /\ is_caching s' = false).
Proof.
  intros build Hterm. split; [exact (slots_clear_guard build Hterm)|].
  intros sess cfg g requests.
  assert (Hgen : forall rs self g0,
             is_caching self = false ->
             exists s' g' tr,
               serve_all build sess rs self g0 = Returns s' g' tr /\ is_caching s' = false).
  { induction rs as [|r rs IH]; intros self g0 Hflag; cbn [serve_all].
    - now exists self, g0, [].
    - destruct (serve_clears_guard build sess Hterm r self g0 Hflag)
        as [s1 [g1 [tr1 [E1 H1]]]].
      rewrite E1. cbn [then_request].
      destruct (IH s1 g1 H1) as [s2 [g2 [tr2 [E2 H2]]]].
      rewrite E2. cbn [after]. do 3 eexists. split; [reflexivity | exact H2]. }
  apply Hgen. reflexivity.
Qed.

Lemma guard_cleared_on_return_witness :
  (forall s g0, failing_build s g0 <> Diverges) /\
  (forall self g,
      is_caching self = false ->
      (exists s' g' tr,
          start_background_caching failing_build self g = Returns s' g' tr
          /\ is_caching s' = false)
      /\ (forall keyword,
             exists s' g' tr,
               do_search failing_build keyword self g = Returns s' g' tr
               /\ is_caching s' = false))
  /\ (forall sess cfg g requests,
         exists s' g' tr,
           serve_all failing_build sess requests (init cfg) g = Returns s' g' tr
           /\ is_caching s' = false).
Proof.
  assert (H : forall s g0, failing_build s g0 <> Diverges) by (intros s g0; discriminate).
  split; [exact H|].
  exact (guard_cleared_on_return failing_build H).
Defined.

(** A worker that connects, fails to build twice (on request and on the
    first search) and is stopped: the guard is clear at the end. *)
Example failed_builds_queue_example :
  serve_all failing_build quiet_session
    [ReqRunBrowser; ReqStartCaching; ReqSearch "f2"; ReqStop]
    (init example_config) browser_process
  = Returns (mkWorker example_config true false false false [])
      (install_proxy example_config browser_process)
      [StatusUpdate "Setting SOCKS proxy...";
       StatusUpdate "Connecting to SMB host 10.0.0.5...";
       ConnectionSuccess [];
       StatusUpdate "Starting background file indexing...";
       StatusUpdate "Error during background caching: RuntimeError: can't start new thread";
       StatusUpdate "First search: building file index... This may take a moment.";
       StatusUpdate "Error during search: RuntimeError: can't start new thread";
       SearchFinished [];
       CloseConnection].
Proof. vm_compute. reflexivity. Qed.

(** A build that raises: both slots return with the flag clear. *)
Example failed_build_example :
  start_background_caching failing_build connected_worker browser_process
  = Returns connected_worker browser_process
      [StatusUpdate "Starting background file indexing...";
       StatusUpdate "Error during background caching: RuntimeError: can't start new thread"]
  /\ do_search failing_build "f2" connected_worker browser_process
     = Returns connected_worker browser_process
         [StatusUpdate "First search: building file index... This may take a moment.";
          StatusUpdate "Error during search: RuntimeError: can't start new thread";
          SearchFinished []].
Proof. split; reflexivity. Qed.

End SlotFacts.

(* ------------------------------------------------------------------ *)
(** ** Search over the cache *)

Module SearchFacts.
Import Browser ShareTree IndexSpec SearchSpec SlotSpec.
Import PathFacts.

(** *** Strings *)

Lemma prefix_iff (k s : string) :
  String.prefix k s = true <-> exists rest, s = (k ++ rest)%string.
Proof.
  revert s. induction k as [|c k IH]; intro s.
  - split; [intros _; now exists s | intros _; now destruct s].
  - destruct s as [|d s].
    + split; [discriminate | intros [rest H]; discriminate].
    + simpl. destruct (ascii_dec c d) as [<-|Hne].
      * rewrite IH. split; intros [rest H]; exists rest; congruence.
      * split; [discriminate | intros [rest H]; congruence].
Qed.















(** The searches of the specification's example. *)
Example search_examples :
  search_cache "f2" example_cache = [("/b/f2", 22%Z)]
  /\ search_cache "F2" example_cache = [("/b/f2", 22%Z)]
  /\ search_cache "zzz" example_cache = []
  /\ search_cache "b" example_cache = [].
Proof. vm_compute. repeat split. Qed.

End SearchFacts.

(* ------------------------------------------------------------------ *)
(** ** The first search, and the process-wide proxy *)

Module SessionFacts.
Import Browser ShareTree IndexSpec SearchSpec SlotSpec.

(** C2, as the code has it.  A search on an idle, running worker builds
    the cache before it answers: every directory of the share is listed
    during the call, the call returns with the indexer [Ready], and its last
    signal hands over the matches found in the cache just built; the search
    need not be issued again. *)
Theorem first_search_builds_then_answers :
  forall remote max_workers sched root self g fuel keyword,
    0 < max_workers ->
    idle self ->
    _is_running self = true ->
    serves remote (smb_share (config self)) "/" root ->
    depth root <= fuel ->
    exists self' g' tr,
      do_search (_build_cache_parallel remote max_workers sched fuel) keyword self g
      = Returns self' g'
          (tr ++ [StatusUpdate ("Searching for '" ++ keyword ++ "' in cache...");
                  SearchFinished (search_cache keyword (file_path_cache self'))])
      /\ ready self'
      /\ Permutation (file_path_cache self') (files_of "/" root)
      /\ Permutation (connects tr) (dirs_of "/" root).
Proof.
  intros remote w sched root self g fuel keyword Hw [Hconn [Hcached Hcaching]] Hrun Hs Hd.
  unfold do_search, first_search_build. rewrite Hconn, Hcaching, Hcached. cbn [negb].
  set (self2 := set_file_path_cache [] (set_is_caching true self)).
  destruct (IndexFacts.build_cache_of_tree remote w sched root self2 g fuel Hw Hrun Hs Hd)
    as [cache [g' [tr [Hb [Hp [Hc _]]]]]].
  rewrite Hb. do 3 eexists. split; [reflexivity|].
  split; [split; reflexivity|]. split; [exact Hp|].
  exact Hc.
Qed.

Lemma first_search_builds_then_answers_witness :
  0 < source_max_workers /\
  idle connected_worker /\
  _is_running connected_worker = true /\
  serves (remote_of example_tree) (smb_share (config connected_worker)) "/" example_tree /\
  depth example_tree <= 3 /\
  exists self' g' tr,
    do_search (_build_cache_parallel (remote_of example_tree) source_max_workers
                 last_first 3) "f2" connected_worker browser_process
    = Returns self' g'
        (tr ++ [StatusUpdate ("Searching for '" ++ "f2" ++ "' in cache...");
                SearchFinished (search_cache "f2" (file_path_cache self'))])
    /\ ready self'
    /\ Permutation (file_path_cache self') (files_of "/" example_tree)
    /\ Permutation (connects tr) (dirs_of "/" example_tree).
Proof.
  assert (H1 : 0 < source_max_workers) by (unfold source_max_workers; lia).
  assert (H2 : idle connected_worker) by (repeat split).
  assert (H5 : depth example_tree <= 3) by (vm_compute; lia).
  split; [exact H1|]. split; [exact H2|]. split; [reflexivity|].
  split; [exact IndexFacts.example_tree_served|]. split; [exact H5|].
  exact (first_search_builds_then_answers (remote_of example_tree) source_max_workers
           last_first example_tree connected_worker browser_process 3 "f2"
           H1 H2 eq_refl IndexFacts.example_tree_served H5).
Defined.

(** C2 as stated does not hold: the first search on the idle worker of
    the example hands over the match, not the empty list. *)
Lemma first_search_is_not_empty :
  ~ (forall remote max_workers sched fuel keyword self g,
        idle self ->
        search_results
          (do_search (_build_cache_parallel remote max_workers sched fuel) keyword self g)
        = [[]]).
Proof.
  intro H.
  specialize (H (remote_of example_tree) source_max_workers last_first 3 "f2"
                connected_worker browser_process).
  assert (Hi : idle connected_worker) by (repeat split).
  apply H in Hi. vm_compute in Hi. discriminate Hi.
Qed.

Example first_search_example :
  search_results
    (do_search (_build_cache_parallel (remote_of example_tree) source_max_workers
                  last_first 3) "f2" connected_worker browser_process)
  = [[("/b/f2", 22%Z)]].
Proof. vm_compute. reflexivity. Qed.

(** C5, as the code has it.  A listing task of the indexer that runs
    writes the process-wide configuration: whatever it was, the default
    proxy becomes the one of the task's worker and [socket.socket] the SOCKS
    class.  The process is left as it was found exactly when it already held
    that configuration, as after an earlier task of the same worker.
    [check_smb_host] writes it likewise, with the proxy at 127.0.0.1. *)
Theorem listing_task_writes_process_proxy :
  forall remote self path g,
    _is_running self = true ->
    let g' := fst (fst (_fetch_path_contents remote self path g)) in
    default_proxy g' = proxy_of (config self)
    /\ socket_socket g' = SocksSocket
    /\ (g' = g <-> g = install_proxy (config self) g)
    /\ fst (fst (_fetch_path_contents remote self path g')) = g'
    /\ (forall urandom_hex sess h user password quick use_proxy port,
           fst (fst (Scanner.check_smb_host urandom_hex sess h user password quick
                       use_proxy port g))
           = mkProc (if use_proxy then Some ("127.0.0.1"%string, port) else None)
                    SocksSocket SocksSocket).
Proof.
  intros remote self path g Hrun.
  assert (Hf : forall g0, fst (fst (_fetch_path_contents remote self path g0))
                          = install_proxy (config self) g0).
  { intro g0. unfold _fetch_path_contents. rewrite Hrun. cbn [negb].
    destruct (connect remote path); [|reflexivity].
    destruct (listPath remote _ path); reflexivity. }
  cbn zeta. rewrite !Hf. repeat split.
  - intro H. now rewrite H.
  - intro H. now rewrite <- H.
  - intros rnd sess h user password quick use_proxy port.
    unfold Scanner.check_smb_host.
    destruct (Scanner.connect sess) as [[|]|]; [|destruct use_proxy; reflexivity ..].
    destruct (Scanner.listShares sess) as [names|]; [|destruct use_proxy; reflexivity].
    destruct (Scanner.scan_shares rnd sess quick names 1).
    destruct use_proxy; reflexivity.
Qed.

Lemma listing_task_writes_process_proxy_witness :
  _is_running connected_worker = true /\
  default_proxy
    (fst (fst (_fetch_path_contents (remote_of example_tree) connected_worker "/"
                 browser_process)))
  = proxy_of (config connected_worker).
Proof.
  split; [reflexivity|].
  exact (proj1 (listing_task_writes_process_proxy (remote_of example_tree)
                  connected_worker "/" browser_process eq_refl)).
Defined.

(** C5 as stated does not hold: a listing task does not leave the
    process-wide configuration as it found it.  In a fresh process the task
    of the example's worker installs its proxy; and where a worker without
    proxy has set the process up, the task replaces that configuration. *)
Lemma listing_task_changes_process_state :
  ~ (forall remote self path g,
        fst (fst (_fetch_path_contents remote self path g)) = g).
Proof.
  intro H.
  specialize (H (remote_of example_tree) connected_worker "/"%string
                (install_proxy direct_config browser_process)).
  vm_compute in H. discriminate H.
Qed.

End SessionFacts.

(* ------------------------------------------------------------------ *)
(** ** The scanner's output: lines across chunks *)

Module ProtocolFacts.
Import ScanProtocol ProtocolSpec ProtocolRun.
Import PathFacts.

Lemma split_some (c : ascii) (s : string) :
  forall l r,
    PyStr.split_at_char c s = Some (l, r) ->
    s = (l ++ String c r)%string /\ PyStr.mem_char c l = false.
Proof.
  induction s as [|d s IH]; intros l r H; cbn [PyStr.split_at_char] in H; [discriminate|].
  destruct (Ascii.eqb d c) eqn:E.
  - injection H as <- <-. apply Ascii.eqb_eq in E. subst d. now split.
  - destruct (PyStr.split_at_char c s) as [[l' r']|]; [|discriminate].
    injection H as <- <-. destruct (IH l' r' eq_refl) as [-> Hm].
    split; [reflexivity|]. cbn [PyStr.mem_char]. now rewrite Ascii.eqb_sym, E, Hm.
Qed.

Lemma split_first (c : ascii) (l r : string) :
  PyStr.mem_char c l = false ->
  PyStr.split_at_char c (l ++ String c r) = Some (l, r).
Proof.
  induction l as [|d l IH]; cbn [append PyStr.split_at_char PyStr.mem_char]; intro H.
  - now rewrite Ascii.eqb_refl.
  - apply orb_false_elim in H as [H1 H2].
    rewrite Ascii.eqb_sym, H1, (IH H2). reflexivity.
Qed.

Lemma split_app (c : ascii) (s l r more : string) :
  PyStr.split_at_char c s = Some (l, r) ->
  PyStr.split_at_char c (s ++ more) = Some (l, (r ++ more)%string).
Proof.
  intro H. apply split_some in H as [-> Hm].
  rewrite str_app_assoc. cbn [append]. now apply split_first.
Qed.

Lemma count_newlines_app (a b : string) :
  count_newlines (a ++ b) = count_newlines a + count_newlines b.
Proof.
  induction a as [|c a IH]; cbn [append count_newlines]; [reflexivity|].
  rewrite IH. lia.
Qed.

Lemma count_no_newline (l : string) :
  PyStr.mem_char newline_char l = false -> count_newlines l = 0.
Proof.
  induction l as [|c l IH]; cbn [PyStr.mem_char count_newlines]; [reflexivity|].
  intro H. apply orb_false_elim in H as [H1 H2].
  rewrite Ascii.eqb_sym, H1, (IH H2). reflexivity.
Qed.

Lemma split_count (s l r : string) :
  PyStr.split_at_char newline_char s = Some (l, r) ->
  count_newlines s = S (count_newlines r).
Proof.
  intro H. apply split_some in H as [-> Hm].
  rewrite count_newlines_app, (count_no_newline l Hm). cbn [count_newlines].
  now rewrite Ascii.eqb_refl.
Qed.

Lemma split_none_count (s : string) :
  PyStr.split_at_char newline_char s = None -> count_newlines s = 0.
Proof.
  induction s as [|d s IH]; cbn [PyStr.split_at_char count_newlines]; [reflexivity|].
  destruct (Ascii.eqb d newline_char); [discriminate|].
  destruct (PyStr.split_at_char newline_char s) as [[l r]|]; [discriminate|].
  intros _. now rewrite IH.
Qed.

Lemma count_le_length (s : string) : count_newlines s <= String.length s.
Proof.
  induction s as [|c s IH]; cbn [count_newlines String.length]; [lia|].
  destruct (Ascii.eqb c newline_char); lia.
Qed.

Section WithDecoder.
Variable json_loads : string -> option json.

(** Handling a line does not look at the buffer nor touch it. *)
Lemma handle_line_set_buffer (line b : string) (app : App) :
  handle_line json_loads line (set_buffer b app)
  = let '(a, evs, go_on) := handle_line json_loads line app in
    (set_buffer b a, evs, go_on).
Proof.
  unfold handle_line.
  destruct (String.eqb line ""); [reflexivity|].
  destruct (PyStr.startswith line "STATUS:"); [reflexivity|].
  destruct (PyStr.startswith line "RESULT:"); [|reflexivity].
  destruct (json_loads _) as [v|]; [|reflexivity].
  cbn [scan_model set_buffer].
  destruct (show_result v (scan_model app)) as [[[h added]|e] m]; reflexivity.
Qed.

Lemma handle_line_buffer (line : string) (app : App) :
  scanner_buffer (fst (fst (handle_line json_loads line app))) = scanner_buffer app.
Proof.
  unfold handle_line.
  destruct (String.eqb line ""); [reflexivity|].
  destruct (PyStr.startswith line "STATUS:"); [reflexivity|].
  destruct (PyStr.startswith line "RESULT:"); [|reflexivity].
  destruct (json_loads _) as [v|]; [|reflexivity].
  destruct (show_result v (scan_model app)) as [[[h added]|e] m]; reflexivity.
Qed.

Lemma process_lines_S (fuel : nat) (app : App) (before rest : string) :
  PyStr.split_at_char newline_char (scanner_buffer app) = Some (before, rest) ->
  process_lines json_loads (S fuel) app
  = let '(app1, evs, go_on) :=
      handle_line json_loads (PyStr.strip before) (set_buffer rest app) in
    if go_on then
      let '(app2, evs', fin) := process_lines json_loads fuel app1 in
      (app2, evs ++ evs', fin)
    else (app1, evs, false).
Proof. intro H. cbn [process_lines]. now rewrite H. Qed.

(** Fuel beyond the newlines of the buffer changes nothing. *)
Lemma process_lines_fuel (fuel : nat) :
  forall app,
    count_newlines (scanner_buffer app) <= fuel ->
    process_lines json_loads fuel app = run_lines json_loads app.
Proof.
  unfold run_lines.
  induction fuel as [|fuel IH]; intros app Hle.
  - replace (count_newlines (scanner_buffer app)) with 0 by lia. reflexivity.
  - destruct (PyStr.split_at_char newline_char (scanner_buffer app))
      as [[before rest]|] eqn:Es.
    + rewrite (split_count _ _ _ Es) in *.
      rewrite !(process_lines_S _ app before rest Es).
      pose proof (handle_line_buffer (PyStr.strip before) (set_buffer rest app)) as Hb.
      destruct (handle_line json_loads (PyStr.strip before) (set_buffer rest app))
        as [[app1 evs] go_on].
      cbn [fst scanner_buffer set_buffer] in Hb.
      destruct go_on; [|reflexivity].
      rewrite IH by (rewrite Hb; lia). now rewrite Hb.
    + rewrite (split_none_count _ Es). cbn [process_lines]. now rewrite Es.
Qed.

Lemma handle_scanner_output_run (data : string) (app : App) :
  handle_scanner_output json_loads data app
  = run_lines json_loads (set_buffer (scanner_buffer app ++ data) app).
Proof.
  unfold handle_scanner_output. cbn zeta.
  apply process_lines_fuel, count_le_length.
Qed.

(** A chunk that arrives later is handled as if it had arrived with the
    buffer: what the first run leaves is the start of the next line. *)
Lemma run_lines_more (more : string) (k : nat) :
  forall app app1 ev1,
    count_newlines (scanner_buffer app) = k ->
    run_lines json_loads app = (app1, ev1, true) ->
    run_lines json_loads (set_buffer (scanner_buffer app ++ more) app)
    = let '(app2, ev2, fin) :=
        run_lines json_loads (set_buffer (scanner_buffer app1 ++ more) app1) in
      (app2, ev1 ++ ev2, fin).
Proof.
  induction k as [|k IH]; intros app app1 ev1 Hk Hrun.
  - unfold run_lines in Hrun. rewrite Hk in Hrun. cbn [process_lines] in Hrun.
    injection Hrun as <- <-.
    destruct (run_lines json_loads (set_buffer (scanner_buffer app ++ more) app))
      as [[app2 ev2] fin]. reflexivity.
  - destruct (PyStr.split_at_char newline_char (scanner_buffer app))
      as [[before rest]|] eqn:Es.
    2:{ rewrite (split_none_count _ Es) in Hk. discriminate. }
    pose proof (split_count _ _ _ Es) as Hc.
    unfold run_lines in Hrun. rewrite Hk in Hrun.
    rewrite (process_lines_S _ app before rest Es) in Hrun.
    pose proof (split_app _ _ _ _ more Es) as Es'.
    unfold run_lines at 1. cbn [scanner_buffer set_buffer].
    rewrite (split_count _ _ _ Es').
    rewrite (process_lines_S _ (set_buffer (scanner_buffer app ++ more) app)
               before (rest ++ more)%string Es').
    change (set_buffer (rest ++ more) (set_buffer (scanner_buffer app ++ more) app))
      with (set_buffer (rest ++ more) (set_buffer rest app)).
    rewrite handle_line_set_buffer.
    pose proof (handle_line_buffer (PyStr.strip before) (set_buffer rest app)) as Hb.
    destruct (handle_line json_loads (PyStr.strip before) (set_buffer rest app))
      as [[a evs] go_on].
    cbn [fst scanner_buffer set_buffer] in Hb.
    destruct go_on; [|discriminate Hrun].
    assert (Hka : count_newlines (scanner_buffer a) = k) by (rewrite Hb; lia).
    rewrite <- Hka in Hrun. fold (run_lines json_loads a) in Hrun.
    destruct (run_lines json_loads a) as [[a1 e1] f1] eqn:Ea.
    injection Hrun as <- <- ->.
    specialize (IH a a1 e1 Hka Ea).
    rewrite <- Hb.
    change (process_lines json_loads (count_newlines (scanner_buffer a ++ more))
              (set_buffer (scanner_buffer a ++ more) a))
      with (run_lines json_loads (set_buffer (scanner_buffer a ++ more) a)).
    rewrite IH.
    destruct (run_lines json_loads (set_buffer (scanner_buffer a1 ++ more) a1))
      as [[app2 ev2] fin].
    now rewrite app_assoc.
Qed.

(** A result line that does not decode: one log entry, nothing else. *)
Lemma handle_line_malformed (line : string) (app : App) :
  PyStr.startswith line "RESULT:" = true ->
  json_loads (PyStr.strip (PyStr.remove_all "RESULT:" line)) = None ->
  handle_line json_loads line app
  = (app, [DroppedLine ("[GUI ERROR] Failed to parse JSON result: " ++ line)], true).
Proof.
  intros Hp Hj. unfold handle_line. rewrite Hp, Hj.
  unfold PyStr.startswith in Hp. apply SearchFacts.prefix_iff in Hp as [x ->].
  reflexivity.
Qed.

End WithDecoder.

(** C8.  The reader keeps what follows the last newline and handles only
    whole lines: a chunk handled after another that the slot ran through
    gives the events, in order, and the state that the two chunks give when
    they arrive as one.  On the example, the first chunk gives the one
    STATUS event and leaves the started RESULT line in the buffer, with no
    event for it; the second chunk completes the line and gives the one
    RESULT event, decoded, for host [h] with no share. *)
Theorem partial_lines_are_buffered :
  forall json_loads,
    (forall app c1 c2 app1 ev1,
        handle_scanner_output json_loads c1 app = (app1, ev1, true) ->
        handle_scanner_output json_loads (c1 ++ c2) app
        = let '(app2, ev2, fin) := handle_scanner_output json_loads c2 app1 in
          (app2, ev1 ++ ev2, fin))
    /\ (json_loads example_payload = Some example_value ->
        handle_scanner_output json_loads example_chunk1 fresh_app
        = (after_chunk1, [StatusEvent "a"], true)
        /\ handle_scanner_output json_loads example_chunk2 after_chunk1
           = (mkApp "" [("h"%string, [])] "Status: a", [ResultEvent "h" []], true)).
Proof.
  intro json_loads. split.
  - intros app c1 c2 app1 ev1 H1.
    rewrite handle_scanner_output_run in *.
    rewrite handle_scanner_output_run.
    rewrite <- str_app_assoc.
    change (set_buffer ((scanner_buffer app ++ c1) ++ c2) app)
      with (set_buffer
              (scanner_buffer (set_buffer (scanner_buffer app ++ c1) app) ++ c2)
              (set_buffer (scanner_buffer app ++ c1) app)).
    now rewrite (run_lines_more json_loads c2 _ _ app1 ev1 eq_refl H1).
  - intro Hj. split; [vm_compute; reflexivity|].
    rewrite handle_scanner_output_run. unfold run_lines.
    set (app0 := set_buffer (scanner_buffer after_chunk1 ++ example_chunk2) after_chunk1).
    assert (Es : PyStr.split_at_char newline_char (scanner_buffer app0)
                 = Some (("RESULT:" ++ example_payload)%string, ""%string))
      by (vm_compute; reflexivity).
    rewrite (split_count _ _ _ Es).
    rewrite (process_lines_S json_loads _ app0 _ _ Es).
    unfold handle_line.
    replace (PyStr.strip ("RESULT:" ++ example_payload))
      with ("RESULT:" ++ example_payload)%string by (vm_compute; reflexivity).
    replace (String.eqb ("RESULT:" ++ example_payload) "") with false
      by (vm_compute; reflexivity).
    replace (PyStr.startswith ("RESULT:" ++ example_payload) "STATUS:") with false
      by (vm_compute; reflexivity).
    replace (PyStr.startswith ("RESULT:" ++ example_payload) "RESULT:") with true
      by (vm_compute; reflexivity).
    replace (PyStr.strip (PyStr.remove_all "RESULT:" ("RESULT:" ++ example_payload)))
      with example_payload by (vm_compute; reflexivity).
    rewrite Hj. vm_compute. reflexivity.
Qed.

Lemma example_decoder_knows_payload :
  example_json_loads example_payload = Some example_value.
Proof. vm_compute. reflexivity. Qed.

Lemma partial_lines_are_buffered_witness :
  handle_scanner_output example_json_loads example_chunk1 fresh_app
  = (after_chunk1, [StatusEvent "a"], true)
  /\ example_json_loads example_payload = Some example_value
  /\ handle_scanner_output example_json_loads (example_chunk1 ++ example_chunk2) fresh_app
     = (let '(app2, ev2, fin) :=
          handle_scanner_output example_json_loads example_chunk2 after_chunk1 in
        (app2, [StatusEvent "a"] ++ ev2, fin))
  /\ handle_scanner_output example_json_loads example_chunk2 after_chunk1
     = (mkApp "" [("h"%string, [])] "Status: a", [ResultEvent "h" []], true).
Proof.
  pose proof (partial_lines_are_buffered example_json_loads) as [Hchunks Hexample].
  destruct (Hexample example_decoder_knows_payload) as [H1 H2].
  split; [exact H1|]. split; [exact example_decoder_knows_payload|].
  split; [exact (Hchunks fresh_app example_chunk1 example_chunk2 after_chunk1 _ H1)|].
  exact H2.
Defined.

(** C9.  A RESULT line that does not decode adds nothing to the results:
    it is printed and dropped, and what follows it in the stream is handled
    as if the line had not been there (same state, same events, after the
    one log entry). *)
Theorem malformed_result_is_dropped :
  forall json_loads app l rest,
    scanner_buffer app = ""%string ->
    PyStr.mem_char newline_char l = false ->
    PyStr.startswith (PyStr.strip l) "RESULT:" = true ->
    json_loads (PyStr.strip (PyStr.remove_all "RESULT:" (PyStr.strip l))) = None ->
    handle_scanner_output json_loads (l ++ nl ++ rest) app
    = let '(app', evs, fin) := handle_scanner_output json_loads rest app in
      (app',
       DroppedLine ("[GUI ERROR] Failed to parse JSON result: " ++ PyStr.strip l) :: evs,
       fin).
Proof.
  intros json_loads app l rest Hbuf Hl Hp Hj.
  rewrite !handle_scanner_output_run, Hbuf. cbn [append].
  assert (Es : PyStr.split_at_char newline_char
                 (scanner_buffer (set_buffer (l ++ nl ++ rest) app))
               = Some (l, rest))
    by (cbn [scanner_buffer set_buffer]; now apply split_first).
  unfold run_lines at 1. rewrite (split_count _ _ _ Es).
  rewrite (process_lines_S json_loads _ _ _ _ Es).
  rewrite (handle_line_malformed json_loads _ _ Hp Hj).
  change (set_buffer rest (set_buffer (l ++ nl ++ rest) app)) with (set_buffer rest app).
  change (process_lines json_loads (count_newlines rest) (set_buffer rest app))
    with (run_lines json_loads (set_buffer rest app)).
  destruct (run_lines json_loads (set_buffer rest app)) as [[app' evs] fin].
  reflexivity.
Qed.

Lemma malformed_result_is_dropped_witness :
  scanner_buffer fresh_app = ""%string /\
  PyStr.mem_char newline_char "RESULT:{not json}" = false /\
  PyStr.startswith (PyStr.strip "RESULT:{not json}") "RESULT:" = true /\
  example_json_loads
    (PyStr.strip (PyStr.remove_all "RESULT:" (PyStr.strip "RESULT:{not json}"))) = None /\
  handle_scanner_output example_json_loads
    ("RESULT:{not json}" ++ nl ++ "STATUS:b" ++ nl) fresh_app
  = let '(app', evs, fin) :=
      handle_scanner_output example_json_loads ("STATUS:b" ++ nl) fresh_app in
    (app',
     DroppedLine ("[GUI ERROR] Failed to parse JSON result: "
                  ++ PyStr.strip "RESULT:{not json}") :: evs,
     fin).
Proof.
  assert (H2 : PyStr.mem_char newline_char "RESULT:{not json}" = false)
    by (vm_compute; reflexivity).
  assert (H3 : PyStr.startswith (PyStr.strip "RESULT:{not json}") "RESULT:" = true)
    by (vm_compute; reflexivity).
  assert (H4 : example_json_loads
                 (PyStr.strip (PyStr.remove_all "RESULT:" (PyStr.strip "RESULT:{not json}")))
               = None)
    by (vm_compute; reflexivity).
  split; [reflexivity|]. split; [exact H2|]. split; [exact H3|]. split; [exact H4|].
  exact (malformed_result_is_dropped example_json_loads fresh_app "RESULT:{not json}"
           ("STATUS:b" ++ nl) eq_refl H2 H3 H4).
Defined.

(** The specification's malformed line, followed by two good lines. *)
Example malformed_result_example :
  handle_scanner_output example_json_loads
    ("RESULT:{not json}" ++ nl ++ "STATUS:b" ++ nl ++ "RESULT:" ++ example_payload ++ nl)
    fresh_app
  = (mkApp "" [("h"%string, [])] "Status: b",
     [DroppedLine "[GUI ERROR] Failed to parse JSON result: RESULT:{not json}";
      StatusEvent "b"; ResultEvent "h" []],
     true)
  /\ parsed_results
       (snd (fst (handle_scanner_output example_json_loads
                    ("RESULT:{not json}" ++ nl) fresh_app))) = [].
Proof. split; vm_compute; reflexivity. Qed.

End ProtocolFacts.

(* ------------------------------------------------------------------ *)
(** ** One host of stage 2: the connection and what is reported *)

Module HostFacts.
Import Scanner ScannerSpec ScanRun.

Section WithSession.
Variable urandom_hex : nat -> string.
Variable sess : Session.

(** The calls of the share loop are probes, made in full mode, on shares
    that are not administrative. *)
Lemma scan_shares_calls (quick : bool) (names : list string) :
  forall draw,
    Forall (fun c => is_probe c = true /\ quick = false
                     /\ In (probe_share c) (qualifying names))
           (fst (scan_shares urandom_hex sess quick names draw)).
Proof.
  induction names as [|name rest IH]; intro draw; cbn [scan_shares qualifying filter].
  - constructor.
  - destruct (negb (PyStr.endswith name "$")) eqn:E.
    + destruct quick.
      * rewrite ScannerFacts.share_permissions_quick.
        specialize (IH draw).
        destruct (scan_shares urandom_hex sess true rest draw) as [cs info].
        cbn [fst app] in *.
        eapply Forall_impl; [|exact IH]. intros c [H1 [H2 H3]]. discriminate H2.
      * unfold share_permissions, probe_read, probe_write. cbn [negb].
        specialize (IH (S draw)).
        destruct (listPath sess name "/");
          (destruct (createDirectory sess name _);
           [destruct (deleteDirectory sess name _)|]);
          cbn [fst snd app];
          destruct (scan_shares urandom_hex sess false rest (S draw)) as [cs info];
          cbn [fst snd app] in *;
          repeat (apply Forall_cons; [repeat split; now left|]);
          (eapply Forall_impl; [|exact IH]);
          intros c [H1 [H2 H3]]; (repeat split; [exact H1 | now right]).
    + apply IH.
Qed.

Lemma scan_shares_names (quick : bool) (names : list string) :
  forall draw,
    map fst (snd (scan_shares urandom_hex sess quick names draw)) = qualifying names.
Proof.
  induction names as [|name rest IH]; intro draw; cbn [scan_shares qualifying filter].
  - reflexivity.
  - destruct (negb (PyStr.endswith name "$")).
    + destruct (share_permissions urandom_hex sess quick name draw) as [[c p] d'].
      specialize (IH d').
      destruct (scan_shares urandom_hex sess quick rest d') as [cs info].
      cbn [snd map fst] in *. now rewrite IH.
    + apply IH.
Qed.

End WithSession.

(** The process state a host is checked in changes neither the calls nor
    the result. *)
Lemma check_smb_host_state_free :
  forall urandom_hex sess h user password quick use_proxy port g g',
    snd (fst (check_smb_host urandom_hex sess h user password quick use_proxy port g))
    = snd (fst (check_smb_host urandom_hex sess h user password quick use_proxy port g'))
    /\ snd (check_smb_host urandom_hex sess h user password quick use_proxy port g)
       = snd (check_smb_host urandom_hex sess h user password quick use_proxy port g').
Proof.
  intros rnd sess h user password quick up port g g'. unfold check_smb_host.
  destruct (connect sess) as [[|]|]; [|split; reflexivity ..].
  destruct (listShares sess) as [names|]; [|split; reflexivity].
  destruct (scan_shares rnd sess quick names 1). split; reflexivity.
Qed.

(** X1.  Whatever the host answers, [check_smb_host] connects first and
    closes the connection last: the calls are one [connect], then calls that
    are neither, then one [close], on every path (failed connection, failed
    share listing, any probe outcome). *)
Theorem check_smb_host_closes :
  forall urandom_hex sess h user password quick use_proxy port g,
    exists middle,
      snd (fst (check_smb_host urandom_hex sess h user password quick use_proxy port g))
      = CConnect h :: middle ++ [CClose]
      /\ Forall (fun c => c <> CClose /\ forall h', c <> CConnect h') middle.
Proof.
  intros rnd sess h user password quick up port g. unfold check_smb_host.
  destruct (connect sess) as [[|]|].
  - destruct (listShares sess) as [names|].
    + pose proof (scan_shares_calls rnd sess quick names 1) as Hc.
      destruct (scan_shares rnd sess quick names 1) as [cs info]. cbn [fst snd] in *.
      exists (CListShares :: cs). split; [reflexivity|].
      constructor; [split; [discriminate | intro; discriminate]|].
      eapply Forall_impl; [|exact Hc].
      intros c [Hp _]. split; [|intro h']; intro E; subst c; discriminate Hp.
    + exists [CListShares]. split; [reflexivity|].
      constructor; [split; [discriminate | intro; discriminate] | constructor].
  - exists []. split; [reflexivity | constructor].
  - exists []. split; [reflexivity | constructor].
Qed.

(** X2.  A probe call (listing, creating or deleting a directory) is made
    only in full mode, only after the connection and the share listing
    succeeded, and only on a share that is not administrative. *)
Theorem check_smb_host_probes_only_listed :
  forall urandom_hex sess h user password quick use_proxy port g c,
    In c (snd (fst (check_smb_host urandom_hex sess h user password quick use_proxy port g))) ->
    is_probe c = true ->
    quick = false
    /\ connect sess = Ok true
    /\ exists names, listShares sess = Ok names /\ In (probe_share c) (qualifying names).
Proof.
  intros rnd sess h user password quick up port g c. unfold check_smb_host.
  destruct (connect sess) as [[|]|].
  - destruct (listShares sess) as [names|].
    + pose proof (scan_shares_calls rnd sess quick names 1) as Hc.
      destruct (scan_shares rnd sess quick names 1) as [cs info]. cbn [fst snd] in *.
      intros Hin Hp. cbn [app In] in Hin.
      destruct Hin as [<-|[<-|Hin]]; try discriminate Hp.
      apply in_app_or in Hin as [Hin|[<-|[]]]; [|discriminate Hp].
      rewrite Forall_forall in Hc. destruct (Hc c Hin) as [_ [Hq Hn]].
      split; [exact Hq|]. split; [reflexivity|]. now exists names.
    + cbn. intros [<-|[<-|[<-|[]]]] Hp; discriminate Hp.
  - cbn. intros [<-|[<-|[]]] Hp; discriminate Hp.
  - cbn. intros [<-|[<-|[]]] Hp; discriminate Hp.
Qed.

Lemma check_smb_host_probes_only_listed_witness :
  In (CCreateDirectory "docs" "/temp_check_00c0ffee")
     (snd (fst (check_smb_host (fun _ => "00c0ffee"%string) (open_session ["docs"; "C$"]%string)
                  "10.0.0.5" "guest" "" false true 1080%Z fresh_process)))
  /\ is_probe (CCreateDirectory "docs" "/temp_check_00c0ffee") = true
  /\ false = false
  /\ connect (open_session ["docs"; "C$"]%string) = Ok true
  /\ exists names,
      listShares (open_session ["docs"; "C$"]%string) = Ok names
      /\ In (probe_share (CCreateDirectory "docs" "/temp_check_00c0ffee")) (qualifying names).
Proof.
  assert (H1 : In (CCreateDirectory "docs" "/temp_check_00c0ffee")
                 (snd (fst (check_smb_host (fun _ => "00c0ffee"%string)
                              (open_session ["docs"; "C$"]%string)
                              "10.0.0.5" "guest" "" false true 1080%Z fresh_process))))
    by (vm_compute; tauto).
  split; [exact H1|]. split; [reflexivity|].
  exact (check_smb_host_probes_only_listed (fun _ => "00c0ffee"%string)
           (open_session ["docs"; "C$"]%string) "10.0.0.5" "guest" "" false true 1080%Z
           fresh_process _ H1 eq_refl).
Defined.

(** X3.  A host is reported exactly when it has a share that is not
    administrative: with the connection and the share listing succeeding,
    the result is [None] if and only if every share is administrative; and any
    result returned names the host, has status ["success"] and lists exactly
    the non-administrative shares, in the server's order. *)
Theorem check_smb_host_reports_qualifying :
  forall urandom_hex sess h user password quick use_proxy port g,
    let found :=
      snd (check_smb_host urandom_hex sess h user password quick use_proxy port g) in
    (forall names,
        connect sess = Ok true -> listShares sess = Ok names ->
        (found = None <-> qualifying names = []))
    /\ (forall r,
           found = Some r ->
           host r = h /\ status r = "success"%string
           /\ exists names, listShares sess = Ok names
                            /\ qualifying names <> []
                            /\ map fst (shares r) = qualifying names).
Proof.
  intros rnd sess h user password quick up port g. cbn zeta. unfold check_smb_host. split.
  - intros names Hc Hl. rewrite Hc, Hl.
    pose proof (scan_shares_names rnd sess quick names 1) as Hn.
    destruct (scan_shares rnd sess quick names 1) as [cs info]. cbn [snd] in *.
    rewrite <- Hn. destruct info; cbn; split; intro H; try reflexivity; discriminate.
  - intros r.
    destruct (connect sess) as [[|]|]; try discriminate.
    destruct (listShares sess) as [names|]; try discriminate.
    pose proof (scan_shares_names rnd sess quick names 1) as Hn.
    destruct (scan_shares rnd sess quick names 1) as [cs info]. cbn [snd] in *.
    destruct info as [|i info]; [discriminate|].
    intro E. injection E as <-. cbn [host status shares].
    split; [reflexivity|]. split; [reflexivity|].
    exists names. split; [reflexivity|]. rewrite <- Hn. split; [discriminate | reflexivity].
Qed.

Lemma check_smb_host_reports_qualifying_witness :
  connect (open_session ["ADMIN$"; "C$"]%string) = Ok true
  /\ listShares (open_session ["ADMIN$"; "C$"]%string) = Ok ["ADMIN$"; "C$"]%string
  /\ (snd (check_smb_host (fun _ => "00c0ffee"%string) (open_session ["ADMIN$"; "C$"]%string)
             "10.0.0.5" "guest" "" false true 1080%Z fresh_process) = None
      <-> qualifying ["ADMIN$"; "C$"]%string = [])
  /\ snd (check_smb_host (fun _ => "00c0ffee"%string) (open_session ["docs"; "C$"]%string)
            "10.0.0.5" "guest" "" true true 1080%Z fresh_process)
     = Some (mkHostResult "10.0.0.5" "success" [("docs"%string, "N/A (Quick Scan)"%string)])
  /\ exists names,
      listShares (open_session ["docs"; "C$"]%string) = Ok names
      /\ qualifying names <> []
      /\ map fst [("docs"%string, "N/A (Quick Scan)"%string)] = qualifying names.
Proof.
  split; [reflexivity|]. split; [reflexivity|]. split.
  - exact (proj1 (check_smb_host_reports_qualifying (fun _ => "00c0ffee"%string)
                    (open_session ["ADMIN$"; "C$"]%string) "10.0.0.5" "guest" "" false true
                    1080%Z fresh_process) ["ADMIN$"; "C$"]%string eq_refl eq_refl).
  - assert (E : snd (check_smb_host (fun _ => "00c0ffee"%string)
                       (open_session ["docs"; "C$"]%string)
                       "10.0.0.5" "guest" "" true true 1080%Z fresh_process)
                = Some (mkHostResult "10.0.0.5" "success"
                          [("docs"%string, "N/A (Quick Scan)"%string)]))
      by (vm_compute; reflexivity).
    split; [exact E|].
    exact (proj2 (proj2 (proj2 (check_smb_host_reports_qualifying (fun _ => "00c0ffee"%string)
                                  (open_session ["docs"; "C$"]%string) "10.0.0.5" "guest" ""
                                  true true 1080%Z fresh_process) _ E))).
Defined.

End HostFacts.

(* ------------------------------------------------------------------ *)
(** ** The scanner's run: what [main] prints and whom it contacts *)

Module ScanRunFacts.
Import Scanner ScannerSpec ScanRun ScanRunSpec.

Section WithNetwork.
Variable net : Network.
Variable json_dumps : HostResult -> string.
Variables sched1 sched2 : nat -> nat.

Lemma stage1_open (completed : list string) (args : Args) :
  fst (stage1 net completed (negb (no_proxy args)) (proxy_port args))
  = filter (live net args) completed.
Proof.
  induction completed as [|h rest IH]; [reflexivity|].
  cbn [stage1 filter].
  destruct (stage1 net rest (negb (no_proxy args)) (proxy_port args)) as [open_hosts effs].
  cbn [fst] in *. unfold port_check, live.
  destruct (tcp_connect net (negb (no_proxy args)) (proxy_port args) h); [|exact IH].
  destruct (String.eqb h ""); cbn [negb]; [exact IH | now rewrite IH].
Qed.

Lemma stage1_effects (completed : list string) (use_proxy : bool) (port : option Z) :
  port_checked (snd (stage1 net completed use_proxy port)) = completed
  /\ smb_hosts (snd (stage1 net completed use_proxy port)) = []
  /\ prints (snd (stage1 net completed use_proxy port)) = [].
Proof.
  induction completed as [|h rest [IH1 [IH2 IH3]]]; [repeat split|].
  cbn [stage1]. destruct (stage1 net rest use_proxy port) as [open_hosts effs].
  cbn [snd] in *. unfold port_checked, smb_hosts, prints in *. cbn [flat_map app].
  now rewrite IH1, IH2, IH3.
Qed.

Lemma stage2_effects (completed : list string) (args : Args) :
  forall processed_count total g,
    smb_hosts (snd (stage2 net json_dumps completed args processed_count total g)) = completed
    /\ port_checked (snd (stage2 net json_dumps completed args processed_count total g)) = []
    /\ prints (snd (stage2 net json_dumps completed args processed_count total g))
       = lines_from json_dumps net args completed processed_count total.
Proof.
  induction completed as [|h rest IH]; intros k n g; [repeat split|].
  cbn [stage2 lines_from].
  pose proof (HostFacts.check_smb_host_state_free (urandom_of net h) (session_of net h) h
                (user args) (password args) (quick_scan args) (negb (no_proxy args))
                (port_value (proxy_port args)) g fresh_process) as [_ Hr].
  unfold host_lines, result_of. rewrite <- Hr.
  destruct (check_smb_host (urandom_of net h) (session_of net h) h (user args)
              (password args) (quick_scan args) (negb (no_proxy args))
              (port_value (proxy_port args)) g) as [[g1 calls] result].
  destruct (IH (S k) n g1) as [IH1 [IH2 IH3]].
  destruct (stage2 net json_dumps rest args (S k) n g1) as [g2 effs].
  cbn [snd] in *. unfold smb_hosts, port_checked, prints in *.
  cbn [flat_map app]. rewrite !flat_map_app, IH1, IH2, IH3.
  destruct result; cbn [flat_map app]; repeat split; reflexivity.
Qed.

Lemma progress_line_is_progress (k n : nat) : is_progress (progress_line k n) = true.
Proof. reflexivity. Qed.

Lemma lines_from_progress (completed : list string) (args : Args) :
  forall processed_count total,
    filter is_progress (lines_from json_dumps net args completed processed_count total)
    = map (fun k => progress_line k total) (seq (S processed_count) (List.length completed)).
Proof.
  induction completed as [|h rest IH]; intros k n; [reflexivity|].
  cbn [lines_from host_lines List.length seq map app filter].
  rewrite progress_line_is_progress. f_equal.
  rewrite filter_app, IH.
  destruct (result_of net args h); reflexivity.
Qed.

Lemma lines_from_results (completed : list string) (args : Args) :
  forall processed_count total,
    filter is_result (lines_from json_dumps net args completed processed_count total)
    = map (fun r => ("RESULT:" ++ json_dumps r)%string) (results_of net args completed).
Proof.
  induction completed as [|h rest IH]; intros k n; [reflexivity|].
  cbn [lines_from host_lines app filter].
  replace (is_result (progress_line (S k) n)) with false by reflexivity.
  unfold results_of in *. cbn [flat_map]. rewrite filter_app, map_app, IH.
  destruct (result_of net args h) as [r|]; [|reflexivity].
  cbn [filter map app].
  assert (E : is_result ("RESULT:" ++ json_dumps r) = true)
    by (apply SearchFacts.prefix_iff; now exists (json_dumps r)).
  now rewrite E.
Qed.

Lemma lines_from_protocol (completed : list string) (args : Args) :
  forall processed_count total,
    Forall (fun l => is_status l = true \/ is_result l = true)
           (lines_from json_dumps net args completed processed_count total).
Proof.
  induction completed as [|h rest IH]; intros k n; [constructor|].
  cbn [lines_from host_lines app].
  constructor; [now left|]. apply Forall_app. split; [|apply IH].
  destruct (result_of net args h) as [r|]; constructor; [|constructor].
  right. apply SearchFacts.prefix_iff. now exists (json_dumps r).
Qed.

(** What a run with usable arguments and a valid subnet prints. *)
Lemma main_prints (args : Args) (g : ProcState) (hosts : list string) :
  usable args = true ->
  hosts_of net (subnet args) = Ok hosts ->
  let open_hosts := filter (live net args) (Pool.as_completed 100 sched1 hosts) in
  prints (snd (main net json_dumps sched1 sched2 (Namespace args) g))
  = ("STATUS:Stage 1: Port scanning " ++ PyNum.str_of_nat (List.length hosts)
       ++ " hosts...")%string
      :: ("STATUS:Stage 2: Enumerating shares on "
            ++ PyNum.str_of_nat (List.length open_hosts) ++ " live hosts...")%string
      :: lines_from json_dumps net args (Pool.as_completed 25 sched2 open_hosts) 0
           (List.length open_hosts)
      ++ ["STATUS:Scanner process finished."%string]
  /\ port_checked (snd (main net json_dumps sched1 sched2 (Namespace args) g))
     = Pool.as_completed 100 sched1 hosts
  /\ smb_hosts (snd (main net json_dumps sched1 sched2 (Namespace args) g))
     = Pool.as_completed 25 sched2 open_hosts.
Proof.
  intros Hu Hh. cbn zeta. unfold main. rewrite Hh.
  pose proof (stage1_open (Pool.as_completed 100 sched1 hosts) args) as Ho.
  pose proof (stage1_effects (Pool.as_completed 100 sched1 hosts)
                (negb (no_proxy args)) (proxy_port args)) as [H1 [H2 H3]].
  destruct (stage1 net (Pool.as_completed 100 sched1 hosts) (negb (no_proxy args))
              (proxy_port args)) as [open_hosts effs1].
  cbn [fst snd] in *. subst open_hosts.
  set (open_hosts := filter (live net args) (Pool.as_completed 100 sched1 hosts)).
  assert (Hmain : forall g2,
             let r := stage2 net json_dumps (Pool.as_completed 25 sched2 open_hosts) args 0
                        (List.length open_hosts) g2 in
             smb_hosts (snd r) = Pool.as_completed 25 sched2 open_hosts
             /\ port_checked (snd r) = []
             /\ prints (snd r)
                = lines_from json_dumps net args (Pool.as_completed 25 sched2 open_hosts) 0
                    (List.length open_hosts))
    by (intro g2; apply stage2_effects).
  unfold usable in Hu.
  destruct (no_proxy args) eqn:En; destruct (proxy_port args) as [p|] eqn:Ep;
    try discriminate Hu;
    cbn [negb];
    match goal with
    | |- context [stage2 net json_dumps ?l args 0 ?n ?g2] =>
        destruct (Hmain g2) as [Hs [Hp Hl]];
        destruct (stage2 net json_dumps l args 0 n g2) as [g3 effs2]
    end;
    cbn [snd] in *; unfold prints, port_checked, smb_hosts in *;
    cbn [flat_map app]; rewrite !flat_map_app; cbn [flat_map app];
    rewrite !flat_map_app; cbn [flat_map app];
    rewrite ?H1, ?H2, ?H3, ?Hs, ?Hp, ?Hl, ?app_nil_r; cbn [app];
    repeat split; reflexivity.
Qed.

End WithNetwork.

Lemma Permutation_filter {A : Type} (f : A -> bool) (l l' : list A) :
  Permutation l l' -> Permutation (filter f l) (filter f l').
Proof.
  induction 1 as [|x l l' _ IH|x y l|l l' l'' _ IH1 _ IH2]; cbn [filter].
  - constructor.
  - destruct (f x); [now constructor | exact IH].
  - destruct (f x), (f y); try apply Permutation_refl. apply perm_swap.
  - eapply Permutation_trans; eassumption.
Qed.

Lemma usage_effects (usage : list string) :
  prints (map Print usage) = usage
  /\ port_checked (map Print usage) = []
  /\ smb_hosts (map Print usage) = [].
Proof.
  unfold prints, port_checked, smb_hosts.
  induction usage as [|l usage [IH1 [IH2 IH3]]]; [repeat split|].
  cbn [map flat_map List.app]. now rewrite IH1, IH2, IH3.
Qed.

(** X4.  When [parse_args] accepts the command line, whatever the
    arguments and the network, everything the scanner prints on standard
    output is a [STATUS:] or a [RESULT:] line and the first line printed is a
    [STATUS:] line; when the proxy port is missing or the subnet is not
    valid, exactly one line is printed and no host is contacted, neither for
    a port check nor over SMB.  When [parse_args] refuses the command line,
    nothing is printed on standard output and no host is contacted; for [-h]
    the usage is all that is printed, and no host is contacted. *)
Theorem main_speaks_protocol :
  forall net json_dumps sched1 sched2 cmd g,
    let effs := snd (main net json_dumps sched1 sched2 cmd g) in
    match cmd with
    | Namespace args =>
        Forall (fun l => is_status l = true \/ is_result l = true) (prints effs)
        /\ (exists first rest, prints effs = first :: rest /\ is_status first = true)
        /\ (usable args = false \/ (exists e, hosts_of net (subnet args) = Raise e) ->
            List.length (prints effs) = 1 /\ port_checked effs = [] /\ smb_hosts effs = [])
    | Help usage => prints effs = usage /\ port_checked effs = [] /\ smb_hosts effs = []
    | ArgumentError => effs = []
    end.
Proof.
  intros net dumps s1 s2 cmd g. cbn zeta.
  destruct cmd as [args|usage|]; [|apply usage_effects | reflexivity].
  destruct (usable args) eqn:Hu.
  - destruct (hosts_of net (subnet args)) as [hosts|e] eqn:Hh.
    + destruct (main_prints net dumps s1 s2 args g hosts Hu Hh) as [Hp _].
      cbn zeta in Hp. rewrite Hp. split; [|split].
      * constructor; [now left|]. constructor; [now left|].
        apply Forall_app. split; [apply lines_from_protocol|].
        constructor; [now left | constructor].
      * do 2 eexists. split; reflexivity.
      * intros [H|[e H]]; discriminate H.
    + assert (E : snd (main net dumps s1 s2 (Namespace args) g)
                  = [Print "STATUS:Invalid Subnet"]).
      { unfold main, usable in *. rewrite Hh.
        destruct (no_proxy args); destruct (proxy_port args); try discriminate Hu;
          reflexivity. }
      rewrite E. split; [|split].
      * constructor; [now left | constructor].
      * do 2 eexists. split; reflexivity.
      * intros _. repeat split.
  - assert (E : snd (main net dumps s1 s2 (Namespace args) g)
                = [Print "STATUS:Error - Proxy port required but not provided."]).
    { unfold main, usable in *.
      destruct (no_proxy args); destruct (proxy_port args); try discriminate Hu;
        reflexivity. }
    rewrite E. split; [|split].
    + constructor; [now left | constructor].
    + do 2 eexists. split; reflexivity.
    + intros _. repeat split.
Qed.

Lemma main_speaks_protocol_witness :
  usable (mkArgs "10.0.0.0/30" "guest" "" None false false) = false /\
  List.length
    (prints (snd (main example_network example_json_dumps (fun _ => 0) (fun _ => 0)
                    (Namespace (mkArgs "10.0.0.0/30" "guest" "" None false false)) fresh_process))) = 1 /\
  port_checked (snd (main example_network example_json_dumps (fun _ => 0) (fun _ => 0)
                       (Namespace (mkArgs "10.0.0.0/30" "guest" "" None false false)) fresh_process)) = [] /\
  smb_hosts (snd (main example_network example_json_dumps (fun _ => 0) (fun _ => 0)
                    (Namespace (mkArgs "10.0.0.0/30" "guest" "" None false false)) fresh_process)) = [].
Proof.
  split; [reflexivity|].
  exact (proj2 (proj2 (main_speaks_protocol example_network example_json_dumps
                         (fun _ => 0) (fun _ => 0)
                         (Namespace (mkArgs "10.0.0.0/30" "guest" "" None false false))
                         fresh_process))
           (or_introl eq_refl)).
Defined.

(** X5.  In a run with usable arguments and a valid subnet, the progress
    lines are, in this order, [Enumerating... (1/n)] to [Enumerating...
    (n/n)] where [n] is the number of hosts that passed the port check, in
    whatever order the port checks and the enumerations complete. *)
Theorem main_counts_progress :
  forall net json_dumps sched1 sched2 args g hosts,
    usable args = true ->
    hosts_of net (subnet args) = Ok hosts ->
    let n := List.length (filter (live net args) hosts) in
    filter is_progress (prints (snd (main net json_dumps sched1 sched2 (Namespace args) g)))
    = map (fun k => progress_line k n) (seq 1 n).
Proof.
  intros net dumps s1 s2 args g hosts Hu Hh. cbn zeta.
  destruct (main_prints net dumps s1 s2 args g hosts Hu Hh) as [Hp _].
  cbn zeta in Hp. rewrite Hp. clear Hp.
  set (open_hosts := filter (live net args) (Pool.as_completed 100 s1 hosts)).
  assert (Hn : List.length open_hosts = List.length (filter (live net args) hosts)).
  { apply Permutation_length, Permutation_filter, PoolFacts.as_completed_perm. lia. }
  assert (Hc : List.length (Pool.as_completed 25 s2 open_hosts) = List.length open_hosts).
  { apply Permutation_length, PoolFacts.as_completed_perm. lia. }
  cbn [filter].
  replace (is_progress ("STATUS:Stage 1: Port scanning "
                        ++ PyNum.str_of_nat (List.length hosts) ++ " hosts...")) with false
    by reflexivity.
  replace (is_progress ("STATUS:Stage 2: Enumerating shares on "
                        ++ PyNum.str_of_nat (List.length open_hosts) ++ " live hosts..."))
    with false by reflexivity.
  rewrite filter_app, lines_from_progress. cbn [filter].
  replace (is_progress "STATUS:Scanner process finished.") with false by reflexivity.
  now rewrite app_nil_r, Hc, Hn.
Qed.

Lemma main_counts_progress_witness :
  usable example_args = true /\
  hosts_of example_network (subnet example_args)
  = Ok ["10.0.0.1"; "10.0.0.2"; "10.0.0.3"]%string /\
  filter is_progress
    (prints (snd (main example_network example_json_dumps (fun _ => 1) (fun _ => 1)
                    (Namespace example_args) fresh_process)))
  = map (fun k => progress_line k
                    (List.length (filter (live example_network example_args)
                                    ["10.0.0.1"; "10.0.0.2"; "10.0.0.3"]%string)))
        (seq 1 (List.length (filter (live example_network example_args)
                               ["10.0.0.1"; "10.0.0.2"; "10.0.0.3"]%string))).
Proof.
  split; [reflexivity|]. split; [reflexivity|].
  exact (main_counts_progress example_network example_json_dumps (fun _ => 1) (fun _ => 1)
           example_args fresh_process _ eq_refl eq_refl).
Defined.

(** X6.  In such a run every host of the subnet gets exactly one port
    check, the hosts contacted over SMB are exactly those whose port check
    succeeded (a host found closed is never contacted in stage 2), and the
    [RESULT:] lines printed are exactly those of the live hosts that have a
    result, one each. *)
Theorem main_contacts_live_hosts :
  forall net json_dumps sched1 sched2 args g hosts,
    usable args = true ->
    hosts_of net (subnet args) = Ok hosts ->
    let effs := snd (main net json_dumps sched1 sched2 (Namespace args) g) in
    Permutation (port_checked effs) hosts
    /\ Permutation (smb_hosts effs) (filter (live net args) hosts)
    /\ (forall h, In h (smb_hosts effs) -> In h hosts /\ live net args h = true)
    /\ Permutation (filter is_result (prints effs))
                   (map (fun r => ("RESULT:" ++ json_dumps r)%string)
                        (results_of net args (filter (live net args) hosts))).
Proof.
  intros net dumps s1 s2 args g hosts Hu Hh. cbn zeta.
  destruct (main_prints net dumps s1 s2 args g hosts Hu Hh) as [Hp [Hc Hs]].
  cbn zeta in *. rewrite Hp, Hc, Hs. clear Hp Hc Hs.
  set (open_hosts := filter (live net args) (Pool.as_completed 100 s1 hosts)).
  assert (H100 : Permutation (Pool.as_completed 100 s1 hosts) hosts)
    by (apply PoolFacts.as_completed_perm; lia).
  assert (Hopen : Permutation open_hosts (filter (live net args) hosts))
    by (apply Permutation_filter, H100).
  assert (H25 : Permutation (Pool.as_completed 25 s2 open_hosts) open_hosts)
    by (apply PoolFacts.as_completed_perm; lia).
  split; [exact H100|]. split; [eapply Permutation_trans; eassumption|]. split.
  - intros h Hin.
    apply (Permutation_in _ (Permutation_trans H25 Hopen)) in Hin.
    apply filter_In in Hin. exact Hin.
  - cbn [filter].
    replace (is_result ("STATUS:Stage 1: Port scanning "
                        ++ PyNum.str_of_nat (List.length hosts) ++ " hosts...")) with false
      by reflexivity.
    replace (is_result ("STATUS:Stage 2: Enumerating shares on "
                        ++ PyNum.str_of_nat (List.length open_hosts) ++ " live hosts..."))
      with false by reflexivity.
    rewrite filter_app, lines_from_results. cbn [filter].
    replace (is_result "STATUS:Scanner process finished.") with false by reflexivity.
    rewrite app_nil_r. apply Permutation_map. unfold results_of.
    apply Permutation_flat_map. eapply Permutation_trans; eassumption.
Qed.

Lemma main_contacts_live_hosts_witness :
  usable example_args = true /\
  hosts_of example_network (subnet example_args)
  = Ok ["10.0.0.1"; "10.0.0.2"; "10.0.0.3"]%string /\
  Permutation
    (smb_hosts (snd (main example_network example_json_dumps (fun _ => 1) (fun _ => 1)
                       (Namespace example_args) fresh_process)))
    (filter (live example_network example_args) ["10.0.0.1"; "10.0.0.2"; "10.0.0.3"]%string).
Proof.
  split; [reflexivity|]. split; [reflexivity|].
  exact (proj1 (proj2 (main_contacts_live_hosts example_network example_json_dumps
                         (fun _ => 1) (fun _ => 1) example_args fresh_process _
                         eq_refl eq_refl))).
Defined.

(** The run of the example: the second address is closed, the third has
    administrative shares only. *)
Example main_example :
  snd (main example_network example_json_dumps (fun _ => 1) (fun _ => 1)
         (Namespace example_args) fresh_process)
  = [Print "STATUS:Stage 1: Port scanning 3 hosts...";
     PortChecked "10.0.0.2"; PortChecked "10.0.0.3"; PortChecked "10.0.0.1";
     Print "STATUS:Stage 2: Enumerating shares on 2 live hosts...";
     SmbCalls "10.0.0.1"
       [CConnect "10.0.0.1"; CListShares; CListPath "docs" "/";
        CCreateDirectory "docs" "/temp_check_00c0ffee"; CClose];
     Print "STATUS:Enumerating... (1/2)";
     Print "RESULT:{10.0.0.1}";
     SmbCalls "10.0.0.3" [CConnect "10.0.0.3"; CListShares; CClose];
     Print "STATUS:Enumerating... (2/2)";
     Print "STATUS:Scanner process finished."].
Proof. vm_compute. reflexivity. Qed.

End ScanRunFacts.

(* ------------------------------------------------------------------ *)
(** ** The results in the window: rows of hosts *)

Module ScanGuiFacts.
Import Scanner ScanProtocol ProtocolSpec ProtocolRun ScanGui.
Import PathFacts ProtocolFacts.

(** *** Rows *)

Lemma no_row_iff (h : string) (m : ScanModel) :
  no_row h m = true <-> ~ In h (map fst m).
Proof.
  unfold no_row. rewrite negb_true_iff. induction m as [|[h' cs] m IH]; cbn.
  - split; [intros _ [] | reflexivity].
  - rewrite orb_false_iff, IH, String.eqb_neq. tauto.
Qed.

Lemma append_child_hosts (h : string) (c : string * string) (m : ScanModel) :
  map fst (append_child h c m) = map fst m.
Proof.
  induction m as [|[h' cs] m IH]; [reflexivity|]. cbn [append_child].
  destruct (String.eqb h' h); cbn [map fst]; [reflexivity | now rewrite IH].
Qed.

Lemma append_child_extend (h : string) (c : string * string) (m : ScanModel) :
  append_child h c m = extend_row h [c] m.
Proof.
  induction m as [|[h' cs] m IH]; [reflexivity|]. cbn [append_child extend_row].
  destruct (String.eqb h' h); [reflexivity | now rewrite IH].
Qed.

Lemma extend_row_app (h : string) (a b : list (string * string)) (m : ScanModel) :
  extend_row h b (extend_row h a m) = extend_row h (a ++ b) m.
Proof.
  induction m as [|[h' cs] m IH]; [reflexivity|]. cbn [extend_row].
  destruct (String.eqb h' h) eqn:E; cbn [extend_row]; rewrite E.
  - now rewrite app_assoc.
  - now rewrite IH.
Qed.

Lemma extend_row_nil (h : string) (m : ScanModel) : extend_row h [] m = m.
Proof.
  induction m as [|[h' cs] m IH]; [reflexivity|]. cbn [extend_row].
  destruct (String.eqb h' h); [now rewrite app_nil_r | now rewrite IH].
Qed.

Lemma extend_row_new (h : string) (cs cs' : list (string * string)) (m : ScanModel) :
  no_row h m = true -> extend_row h cs (m ++ [(h, cs')]) = m ++ [(h, cs' ++ cs)].
Proof.
  intro H. induction m as [|[h' c'] m IH]; cbn [app extend_row].
  - now rewrite String.eqb_refl.
  - unfold no_row in *. cbn [existsb fst] in H.
    rewrite negb_orb in H. apply andb_prop in H as [H1 H2].
    apply negb_true_iff in H1. rewrite H1. now rewrite (IH H2).
Qed.

(** Adding shares touches no host name, whether it ends or raises. *)
Lemma add_shares_hosts (h : string) (l : list json) :
  forall m added,
    map fst (snd (add_shares h l m added)) = map fst m.
Proof.
  induction l as [|share l IH]; intros m added; cbn [add_shares]; [reflexivity|].
  destruct share as [| | | | |members]; try reflexivity.
  destruct (dict_get "name" members) as [[| | |n| |]|] eqn:En;
    destruct (dict_get "permissions" members) as [[| | |p| |]|] eqn:Ep;
    try reflexivity.
  now rewrite IH, append_child_hosts.
Qed.

Lemma add_shares_ok (h : string) (l : list json) :
  forall m added m2 added2 m3,
    add_shares h l m added = (Ok (m2, added2), m3) -> m3 = m2.
Proof.
  induction l as [|share l IH]; intros m added m2 added2 m3; cbn [add_shares].
  - intro E. now injection E as <- _ <-.
  - destruct share as [| | | | |members]; try discriminate.
    destruct (dict_get "name" members) as [[| | |n| |]|];
      destruct (dict_get "permissions" members) as [[| | |p| |]|];
      try discriminate.
    apply IH.
Qed.

Lemma add_shares_of_scanner (h : string) (cs : list (string * string)) :
  forall m added,
    add_shares h (map share_json cs) m added
    = (Ok (extend_row h cs m, added ++ cs), extend_row h cs m).
Proof.
  induction cs as [|[n p] cs IH]; intros m added; cbn [map add_shares].
  - now rewrite extend_row_nil, app_nil_r.
  - unfold share_json at 1. cbn [fst snd].
    replace (dict_get "name" [("name"%string, JStr n); ("permissions"%string, JStr p)])
      with (Some (JStr n)) by reflexivity.
    replace (dict_get "permissions" [("name"%string, JStr n); ("permissions"%string, JStr p)])
      with (Some (JStr p)) by reflexivity.
    rewrite IH, append_child_extend, extend_row_app, <- app_assoc. reflexivity.
Qed.

(** The dictionary of a host, decoded, is shown whole and never raises. *)
Lemma show_result_of_scanner (r : HostResult) (m : ScanModel) :
  show_result (json_of_result r) m
  = (Ok (host r, shares r), shown (host r) (shares r) m).
Proof.
  unfold show_result, json_of_result.
  replace (dict_get "host" _) with (Some (JStr (host r))) by reflexivity.
  replace (dict_get "shares" _) with (Some (JArr (map share_json (shares r))))
    by reflexivity.
  cbn [iterate]. rewrite add_shares_of_scanner. reflexivity.
Qed.

(** Whatever value arrives, the host names already shown stay, in their
    order, and at most one is added. *)
Lemma show_result_hosts (v : json) (m : ScanModel) :
  map fst (snd (show_result v m)) = map fst m
  \/ exists h, no_row h m = true /\ map fst (snd (show_result v m)) = map fst m ++ [h].
Proof.
  unfold show_result. destruct v as [| | | | |members]; try (left; reflexivity).
  destruct (dict_get "host" members) as [[| | |h| |]|]; try (left; reflexivity).
  set (m1 := if no_row h m then m ++ [(h, [])] else m).
  assert (H1 : map fst m1 = map fst m
               \/ (no_row h m = true /\ map fst m1 = map fst m ++ [h])).
  { subst m1. destruct (no_row h m); [right | left; reflexivity].
    split; [reflexivity|]. now rewrite map_app. }
  assert (Hfinal : forall m' : ScanModel, map fst m' = map fst m1 ->
                              map fst m' = map fst m
                              \/ exists h0, no_row h0 m = true
                                            /\ map fst m' = map fst m ++ [h0]).
  { intros m' E. rewrite E. destruct H1 as [H1|[Hn H1]]; [now left|].
    right. now exists h. }
  destruct (iterate _) as [l|e]; [|now apply Hfinal].
  pose proof (add_shares_hosts h l m1 []) as Ha.
  destruct (add_shares h l m1 []) as [[[m2 added]|e] m3] eqn:E; cbn [snd] in *.
  - apply add_shares_ok in E. subst m3. now apply Hfinal.
  - now apply Hfinal.
Qed.

Lemma show_result_unique (v : json) (m : ScanModel) :
  NoDup (map fst m) -> NoDup (map fst (snd (show_result v m))).
Proof.
  intro H. destruct (show_result_hosts v m) as [E|[h [Hn E]]]; rewrite E; [exact H|].
  apply no_row_iff in Hn.
  apply NoDup_app; [exact H | repeat constructor; intros [] |].
  intros x Hx [<-|[]]. contradiction.
Qed.

Section WithDecoder.
Variable json_loads : string -> option json.

Lemma handle_line_unique (line : string) (app : App) :
  NoDup (map fst (scan_model app)) ->
  NoDup (map fst (scan_model (fst (fst (handle_line json_loads line app))))).
Proof.
  intro H. unfold handle_line.
  destruct (String.eqb line ""); [exact H|].
  destruct (PyStr.startswith line "STATUS:"); [exact H|].
  destruct (PyStr.startswith line "RESULT:"); [|exact H].
  destruct (json_loads _) as [v|]; [|exact H].
  pose proof (show_result_unique v (scan_model app) H) as Hu.
  destruct (show_result v (scan_model app)) as [[[h added]|e] m]; exact Hu.
Qed.

Lemma process_lines_unique (fuel : nat) :
  forall app,
    NoDup (map fst (scan_model app)) ->
    NoDup (map fst (scan_model (fst (fst (process_lines json_loads fuel app))))).
Proof.
  induction fuel as [|fuel IH]; intros app H; [exact H|].
  cbn [process_lines].
  destruct (PyStr.split_at_char newline_char (scanner_buffer app)) as [[before rest]|];
    [|exact H].
  pose proof (handle_line_unique (PyStr.strip before) (set_buffer rest app) H) as H1.
  destruct (handle_line json_loads (PyStr.strip before) (set_buffer rest app))
    as [[app1 evs] go_on].
  cbn [fst] in H1. destruct go_on; [|exact H1].
  specialize (IH app1 H1).
  destruct (process_lines json_loads fuel app1) as [[app2 evs'] fin]. exact IH.
Qed.

End WithDecoder.

(** X7.  Whatever the scanner process writes and however [json.loads]
    decodes it, the reader keeps one row per host: if no host has two rows
    before a chunk is handled, none has two after it, also when the handling
    is left by an exception. *)
Theorem host_rows_stay_unique :
  forall json_loads data app,
    NoDup (map fst (scan_model app)) ->
    NoDup (map fst (scan_model (fst (fst (handle_scanner_output json_loads data app))))).
Proof.
  intros loads data app H. unfold handle_scanner_output. cbn zeta.
  now apply process_lines_unique.
Qed.

Lemma host_rows_stay_unique_witness :
  NoDup (map fst (scan_model fresh_app)) /\
  NoDup (map fst (scan_model
                    (fst (fst (handle_scanner_output example_loads
                                 ("RESULT:{10.0.0.1}" ++ nl ++ "RESULT:{10.0.0.1}" ++ nl)
                                 fresh_app))))).
Proof.
  assert (H : NoDup (map fst (scan_model fresh_app))) by constructor.
  split; [exact H|].
  exact (host_rows_stay_unique example_loads
           ("RESULT:{10.0.0.1}" ++ nl ++ "RESULT:{10.0.0.1}" ++ nl) fresh_app H).
Defined.

(** The same host reported twice: one row, the shares of both lines. *)
Example host_reported_twice :
  scan_model
    (fst (fst (handle_scanner_output example_loads
                 ("RESULT:{10.0.0.1}" ++ nl ++ "RESULT:{10.0.0.1}" ++ nl) fresh_app)))
  = [("10.0.0.1"%string, [("docs"%string, "READ"%string); ("docs"%string, "READ"%string)])].
Proof. vm_compute. reflexivity. Qed.

(** *** Lines *)

Import ScanRun ScanRunSpec ScanGuiSpec.

Lemma lstrip_kept (c : ascii) (s : string) :
  PyStr.is_space c = false -> PyStr.lstrip (String c s) = String c s.
Proof. intro H. cbn [PyStr.lstrip]. now rewrite H. Qed.

Lemma rstrip_kept (c : ascii) (s : string) :
  PyStr.is_space c = false -> PyStr.rstrip (String c s) = String c (PyStr.rstrip s).
Proof.
  intro H. cbn [PyStr.rstrip]. destruct (PyStr.rstrip s); [now rewrite H | reflexivity].
Qed.

Lemma strip_status (x : string) :
  PyStr.strip ("STATUS:" ++ x) = ("STATUS:" ++ PyStr.rstrip x)%string.
Proof.
  unfold PyStr.strip. cbn [append].
  rewrite lstrip_kept by reflexivity.
  now rewrite !rstrip_kept by reflexivity.
Qed.

Lemma strip_result (x : string) :
  PyStr.strip ("RESULT:" ++ x) = ("RESULT:" ++ PyStr.rstrip x)%string.
Proof.
  unfold PyStr.strip. cbn [append].
  rewrite lstrip_kept by reflexivity.
  now rewrite !rstrip_kept by reflexivity.
Qed.

Lemma digit_not_newline (d : nat) :
  d < 10 -> Ascii.eqb newline_char (PyNum.digit_char d) = false.
Proof.
  intro H. do 10 (destruct d as [|d]; [reflexivity|]). lia.
Qed.

Lemma str_of_nat_fuel_no_newline (fuel : nat) :
  forall n acc,
    PyStr.mem_char newline_char acc = false ->
    PyStr.mem_char newline_char (PyNum.str_of_nat_fuel fuel n acc) = false.
Proof.
  induction fuel as [|fuel IH]; intros n acc H; [exact H|].
  cbn [PyNum.str_of_nat_fuel].
  assert (H' : PyStr.mem_char newline_char (String (PyNum.digit_char (n mod 10)) acc) = false).
  { cbn [PyStr.mem_char]. rewrite digit_not_newline, H; [reflexivity|].
    apply Nat.mod_upper_bound. discriminate. }
  destruct (n / 10 =? 0)%nat; [exact H' | now apply IH].
Qed.

Lemma str_of_nat_no_newline (n : nat) :
  PyStr.mem_char newline_char (PyNum.str_of_nat n) = false.
Proof. now apply str_of_nat_fuel_no_newline. Qed.

Lemma progress_text_no_newline (k n : nat) :
  PyStr.mem_char newline_char (progress_text k n) = false.
Proof.
  unfold progress_text.
  rewrite !mem_char_app, !str_of_nat_no_newline. reflexivity.
Qed.

Section Reading.
Variable json_loads : string -> option json.

Lemma set_buffer_same (app : App) : set_buffer (scanner_buffer app) app = app.
Proof. now destruct app. Qed.

Lemma handle_empty (app : App) :
  count_newlines (scanner_buffer app) = 0 ->
  handle_scanner_output json_loads "" app = (app, [], true).
Proof.
  intro H. rewrite handle_scanner_output_run, str_app_nil_r, set_buffer_same.
  unfold run_lines. now rewrite H.
Qed.

(** The first line of what arrives, when the buffer is empty. *)
Lemma handle_first_line (line rest : string) (app : App) :
  scanner_buffer app = ""%string ->
  PyStr.mem_char newline_char line = false ->
  handle_scanner_output json_loads (line ++ nl ++ rest) app
  = let '(a1, e1, go_on) := handle_line json_loads (PyStr.strip line) app in
    if go_on then
      let '(a2, e2, fin) := handle_scanner_output json_loads rest a1 in
      (a2, e1 ++ e2, fin)
    else (set_buffer rest a1, e1, false).
Proof.
  intros Hbuf Hl.
  rewrite handle_scanner_output_run, Hbuf. cbn [append].
  assert (Es : PyStr.split_at_char newline_char
                 (scanner_buffer (set_buffer (line ++ nl ++ rest) app))
               = Some (line, rest))
    by (cbn [scanner_buffer set_buffer]; now apply split_first).
  unfold run_lines. rewrite (split_count _ _ _ Es).
  rewrite (process_lines_S json_loads _ _ _ _ Es).
  change (set_buffer rest (set_buffer (line ++ nl ++ rest) app)) with (set_buffer rest app).
  rewrite handle_line_set_buffer.
  pose proof (handle_line_buffer json_loads (PyStr.strip line) app) as Hb.
  destruct (handle_line json_loads (PyStr.strip line) app) as [[a1 e1] go_on].
  cbn [fst] in Hb. rewrite Hbuf in Hb.
  destruct go_on; [|reflexivity].
  rewrite handle_scanner_output_run, Hb. cbn [append].
  reflexivity.
Qed.

Lemma handle_line_status (text : string) (app : App) :
  handle_line json_loads (PyStr.strip ("STATUS:" ++ text)) app
  = (update_status (status_text text) app, [StatusEvent (status_text text)], true).
Proof.
  unfold handle_line, status_text. rewrite strip_status.
  replace (String.eqb ("STATUS:" ++ PyStr.rstrip text) "") with false by reflexivity.
  assert (E : PyStr.startswith ("STATUS:" ++ PyStr.rstrip text) "STATUS:" = true)
    by (apply SearchFacts.prefix_iff; now exists (PyStr.rstrip text)).
  now rewrite E.
Qed.

Lemma handle_line_result (json_dumps : HostResult -> string) (r r' : HostResult) (app : App) :
  json_loads (handed_to_loads json_dumps r) = Some (json_of_result r') ->
  handle_line json_loads (PyStr.strip ("RESULT:" ++ json_dumps r)) app
  = (set_model (shown (host r') (shares r') (scan_model app)) app, [result_event r'], true).
Proof.
  unfold handed_to_loads. intro H. unfold handle_line. rewrite H.
  rewrite strip_result.
  replace (String.eqb ("RESULT:" ++ PyStr.rstrip (json_dumps r)) "") with false by reflexivity.
  replace (PyStr.startswith ("RESULT:" ++ PyStr.rstrip (json_dumps r)) "STATUS:")
    with false by reflexivity.
  assert (E : PyStr.startswith ("RESULT:" ++ PyStr.rstrip (json_dumps r)) "RESULT:" = true)
    by (apply SearchFacts.prefix_iff; now exists (PyStr.rstrip (json_dumps r))).
  rewrite E, show_result_of_scanner. reflexivity.
Qed.

(** Reading a whole text of readable lines. *)
Lemma handle_plines (json_dumps : HostResult -> string) (seen : HostResult -> HostResult)
    (ls : list pline) :
  Forall (readable json_loads json_dumps seen) ls ->
  forall app,
    scanner_buffer app = ""%string ->
    exists evs,
      handle_scanner_output json_loads (stdout_text (map (render json_dumps) ls)) app
      = (mkApp "" (rows_after (map seen (pline_results ls)) (scan_model app))
               (bar_after ls (status_bar app)), evs, true)
      /\ parsed_results evs = map result_event (map seen (pline_results ls)).
Proof.
  induction 1 as [|l ls Hl _ IH]; intros app Hbuf.
  - exists []. cbn [map stdout_text]. rewrite handle_empty by now rewrite Hbuf.
    split; [|reflexivity]. destruct app as [b m s]. cbn in Hbuf. now subst b.
  - cbn [map stdout_text].
    destruct l as [text|r]; cbn [render readable] in *.
    + rewrite handle_first_line;
        [|exact Hbuf
         |cbn [append PyStr.mem_char]; rewrite Hl; reflexivity].
      rewrite handle_line_status.
      destruct (IH (update_status (status_text text) app) Hbuf) as [evs [E Hp]].
      rewrite E. exists (StatusEvent (status_text text) :: evs).
      split; [reflexivity | exact Hp].
    + destruct Hl as [Hn Hj].
      rewrite handle_first_line;
        [|exact Hbuf
         |cbn [append PyStr.mem_char]; rewrite Hn; reflexivity].
      rewrite (handle_line_result json_dumps r (seen r) app Hj).
      destruct (IH (set_model (shown (host (seen r)) (shares (seen r)) (scan_model app)) app)
                  Hbuf) as [evs [E Hp]].
      rewrite E. exists (result_event (seen r) :: evs).
      split; [reflexivity|].
      cbn [pline_results flat_map List.app map parsed_results filter result_event].
      fold (parsed_results evs). now rewrite Hp.
Qed.

(** A run that an exception leaves stays left when more text follows. *)
Lemma run_lines_abort (more : string) (k : nat) :
  forall app app1 ev1,
    count_newlines (scanner_buffer app) = k ->
    run_lines json_loads app = (app1, ev1, false) ->
    run_lines json_loads (set_buffer (scanner_buffer app ++ more) app)
    = (set_buffer (scanner_buffer app1 ++ more) app1, ev1, false).
Proof.
  induction k as [|k IH]; intros app app1 ev1 Hk Hrun.
  - unfold run_lines in Hrun. rewrite Hk in Hrun. discriminate Hrun.
  - destruct (PyStr.split_at_char newline_char (scanner_buffer app))
      as [[before rest]|] eqn:Es.
    2:{ rewrite (split_none_count _ Es) in Hk. discriminate. }
    pose proof (split_count _ _ _ Es) as Hc.
    unfold run_lines in Hrun. rewrite Hk in Hrun.
    rewrite (process_lines_S json_loads _ app before rest Es) in Hrun.
    pose proof (split_app _ _ _ _ more Es) as Es'.
    unfold run_lines. cbn [scanner_buffer set_buffer].
    rewrite (split_count _ _ _ Es').
    rewrite (process_lines_S json_loads _ (set_buffer (scanner_buffer app ++ more) app)
               before (rest ++ more)%string Es').
    change (set_buffer (rest ++ more) (set_buffer (scanner_buffer app ++ more) app))
      with (set_buffer (rest ++ more) (set_buffer rest app)).
    rewrite handle_line_set_buffer.
    pose proof (handle_line_buffer json_loads (PyStr.strip before) (set_buffer rest app)) as Hb.
    destruct (handle_line json_loads (PyStr.strip before) (set_buffer rest app))
      as [[a evs] go_on].
    cbn [fst scanner_buffer set_buffer] in Hb.
    destruct go_on.
    + assert (Hka : count_newlines (scanner_buffer a) = k) by (rewrite Hb; lia).
      rewrite <- Hka in Hrun.
      change (process_lines json_loads (count_newlines (scanner_buffer a)) a)
        with (run_lines json_loads a) in Hrun.
      destruct (run_lines json_loads a) as [[a1 e1] f1] eqn:Ea.
      injection Hrun as <- <- ->.
      specialize (IH a a1 e1 Hka Ea).
      rewrite <- Hb.
      change (process_lines json_loads (count_newlines (scanner_buffer a ++ more))
                (set_buffer (scanner_buffer a ++ more) a))
        with (run_lines json_loads (set_buffer (scanner_buffer a ++ more) a)).
      now rewrite IH.
    + injection Hrun as <- <-. now rewrite Hb.
Qed.

(** What a run leaves in the buffer is the end of what it found there,
    cut after a newline; a run that ends leaves no newline. *)
Lemma run_lines_buffer (k : nat) :
  forall app app1 ev1 fin,
    count_newlines (scanner_buffer app) = k ->
    run_lines json_loads app = (app1, ev1, fin) ->
    (exists handled,
        scanner_buffer app = (handled ++ scanner_buffer app1)%string
        /\ (handled = ""%string \/ exists h0, handled = (h0 ++ nl)%string))
    /\ (fin = true -> count_newlines (scanner_buffer app1) = 0).
Proof.
  induction k as [|k IH]; intros app app1 ev1 fin Hk Hrun.
  - unfold run_lines in Hrun. rewrite Hk in Hrun. cbn [process_lines] in Hrun.
    injection Hrun as <- <- <-. split; [|now intros _].
    exists ""%string. split; [reflexivity | now left].
  - destruct (PyStr.split_at_char newline_char (scanner_buffer app))
      as [[before rest]|] eqn:Es.
    2:{ rewrite (split_none_count _ Es) in Hk. discriminate. }
    pose proof (split_count _ _ _ Es) as Hc.
    unfold run_lines in Hrun. rewrite Hk in Hrun.
    rewrite (process_lines_S json_loads _ app before rest Es) in Hrun.
    pose proof (handle_line_buffer json_loads (PyStr.strip before) (set_buffer rest app)) as Hb.
    destruct (handle_line json_loads (PyStr.strip before) (set_buffer rest app))
      as [[a evs] go_on].
    cbn [fst scanner_buffer set_buffer] in Hb.
    apply split_some in Es as [Es _].
    destruct go_on.
    + assert (Hka : count_newlines (scanner_buffer a) = k) by (rewrite Hb; lia).
      rewrite <- Hka in Hrun.
      change (process_lines json_loads (count_newlines (scanner_buffer a)) a)
        with (run_lines json_loads a) in Hrun.
      destruct (run_lines json_loads a) as [[a1 e1] f1] eqn:Ea.
      injection Hrun as <- <- <-.
      destruct (IH a a1 e1 f1 Hka Ea) as [[handled [Hh Hend]] Hfin].
      split; [|exact Hfin].
      exists (before ++ nl ++ handled)%string. split.
      * rewrite Es, <- Hb, Hh, !str_app_assoc. reflexivity.
      * right. destruct Hend as [->|[h0 ->]].
        -- exists before. reflexivity.
        -- exists (before ++ nl ++ h0)%string. now rewrite !str_app_assoc.
    + injection Hrun as <- <- <-. split; [|discriminate].
      exists (before ++ nl)%string. split.
      * rewrite Es, Hb, str_app_assoc. reflexivity.
      * right. now exists before.
Qed.

Lemma handle_two_chunks (c1 c2 : string) (app app1 : App) (ev1 : list line_event) :
  handle_scanner_output json_loads c1 app = (app1, ev1, true) ->
  handle_scanner_output json_loads (c1 ++ c2) app
  = let '(app2, ev2, fin) := handle_scanner_output json_loads c2 app1 in
    (app2, ev1 ++ ev2, fin).
Proof.
  intro H1. rewrite handle_scanner_output_run in *.
  rewrite handle_scanner_output_run.
  rewrite <- str_app_assoc.
  change (set_buffer ((scanner_buffer app ++ c1) ++ c2) app)
    with (set_buffer
            (scanner_buffer (set_buffer (scanner_buffer app ++ c1) app) ++ c2)
            (set_buffer (scanner_buffer app ++ c1) app)).
  now rewrite (run_lines_more json_loads c2 _ _ app1 ev1 eq_refl H1).
Qed.

Lemma handle_chunk_abort (c1 c2 : string) (app app1 : App) (ev1 : list line_event) :
  handle_scanner_output json_loads c1 app = (app1, ev1, false) ->
  handle_scanner_output json_loads (c1 ++ c2) app
  = (set_buffer (scanner_buffer app1 ++ c2) app1, ev1, false).
Proof.
  intro H1. rewrite handle_scanner_output_run in *.
  rewrite <- str_app_assoc.
  change (set_buffer ((scanner_buffer app ++ c1) ++ c2) app)
    with (set_buffer
            (scanner_buffer (set_buffer (scanner_buffer app ++ c1) app) ++ c2)
            (set_buffer (scanner_buffer app ++ c1) app)).
  now rewrite (run_lines_abort c2 _ _ app1 ev1 eq_refl H1).
Qed.

(** Chunk by chunk or at once: the same, when reading at once ends. *)
Lemma feed_concat (chunks : list string) :
  forall app app' evs,
    count_newlines (scanner_buffer app) = 0 ->
    handle_scanner_output json_loads (concat_chunks chunks) app = (app', evs, true) ->
    feed json_loads chunks app = (app', evs, true).
Proof.
  induction chunks as [|c rest IH]; intros app app' evs Hz H; cbn [feed concat_chunks] in *.
  - now rewrite handle_empty in H.
  - destruct (handle_scanner_output json_loads c app) as [[a1 e1] f1] eqn:E1.
    destruct f1.
    + rewrite (handle_two_chunks _ _ _ _ _ E1) in H.
      destruct (handle_scanner_output json_loads (concat_chunks rest) a1)
        as [[a2 e2] f2] eqn:E2.
      injection H as <- <- ->.
      rewrite handle_scanner_output_run in E1.
      destruct (run_lines_buffer _ _ _ _ _ eq_refl E1) as [_ Hz1].
      now rewrite (IH a1 a2 e2 (Hz1 eq_refl) E2).
    + rewrite (handle_chunk_abort _ _ _ _ _ E1) in H. discriminate H.
Qed.

End Reading.

(** *** From the scanner's output to the rows of the window *)

Lemma result_of_host (net : Network) (args : Args) (h : string) (r : HostResult) :
  result_of net args h = Some r -> host r = h.
Proof.
  unfold result_of, check_smb_host.
  destruct (connect (session_of net h)) as [[|]|]; try discriminate.
  destruct (listShares (session_of net h)) as [names|]; try discriminate.
  destruct (scan_shares _ _ _ names 1) as [cs info]. cbn [snd].
  destruct info as [|i info]; [discriminate|].
  intro E. now injection E as <-.
Qed.

Lemma results_of_cons (net : Network) (args : Args) (h : string) (hs : list string) :
  results_of net args (h :: hs)
  = match result_of net args h with Some r => [r] | None => [] end ++ results_of net args hs.
Proof. reflexivity. Qed.

Lemma results_of_in (net : Network) (args : Args) (hs : list string) (x : string) :
  In x (map host (results_of net args hs)) -> In x hs.
Proof.
  induction hs as [|h hs IH]; [intros []|].
  rewrite (results_of_cons net args h hs), map_app. intro H. apply in_app_or in H as [H|H].
  - left. destruct (result_of net args h) as [r|] eqn:E; [|destruct H].
    destruct H as [<-|[]]. symmetry. exact (result_of_host net args h r E).
  - right. now apply IH.
Qed.

Lemma results_of_unique (net : Network) (args : Args) (hs : list string) :
  NoDup hs -> NoDup (map host (results_of net args hs)).
Proof.
  induction 1 as [|h hs Hn _ IH]; [constructor|].
  rewrite (results_of_cons net args h hs).
  destruct (result_of net args h) as [r|] eqn:E; [|exact IH].
  cbn [List.app map]. constructor; [|exact IH].
  rewrite (result_of_host _ _ _ _ E). intro H. apply Hn. now apply results_of_in in H.
Qed.

(** Results of hosts that have no row yet: one row each, in order. *)
Lemma rows_after_fresh (rs : list HostResult) :
  forall m,
    NoDup (map fst m ++ map host rs) ->
    rows_after rs m = m ++ map row_of rs.
Proof.
  induction rs as [|r rs IH]; intros m H; cbn [rows_after fold_left map].
  - now rewrite app_nil_r.
  - assert (Hn : no_row (host r) m = true).
    { apply no_row_iff. intro Hin. apply NoDup_remove_2 in H. apply H.
      apply in_or_app. now left. }
    unfold shown. rewrite Hn, (extend_row_new _ _ _ _ Hn). cbn [List.app].
    change (fold_left (fun m' r0 => extend_row (host r0) (shares r0)
                                      (if no_row (host r0) m' then m' ++ [(host r0, [])] else m'))
              rs (m ++ [(host r, shares r)]))
      with (rows_after rs (m ++ [(host r, shares r)])).
    rewrite IH.
    + now rewrite <- app_assoc.
    + rewrite map_app, <- app_assoc. cbn [map fst List.app].
      cbn [map] in H. exact H.
Qed.

Lemma lines_from_render (json_dumps : HostResult -> string) (net : Network) (args : Args)
    (completed : list string) (total : nat) :
  forall k,
    lines_from json_dumps net args completed k total
    = map (render json_dumps) (plines_from net args completed k total).
Proof.
  induction completed as [|h rest IH]; intro k; [reflexivity|].
  cbn [lines_from plines_from]. unfold host_lines. rewrite IH.
  cbn [map List.app]. rewrite map_app.
  destruct (result_of net args h); reflexivity.
Qed.

Lemma plines_from_results (net : Network) (args : Args) (completed : list string)
    (total : nat) :
  forall k,
    pline_results (plines_from net args completed k total) = results_of net args completed.
Proof.
  induction completed as [|h rest IH]; intro k; [reflexivity|].
  cbn [plines_from]. rewrite (results_of_cons net args h rest).
  unfold pline_results in *. cbn [flat_map List.app]. rewrite flat_map_app, IH.
  destruct (result_of net args h); reflexivity.
Qed.

Lemma plines_from_readable (json_loads : string -> option json)
    (json_dumps : HostResult -> string) (seen : HostResult -> HostResult)
    (net : Network) (args : Args) (completed : list string) (total : nat) :
  (forall r, In r (results_of net args completed) ->
             readable json_loads json_dumps seen (PResult r)) ->
  forall k,
    Forall (readable json_loads json_dumps seen) (plines_from net args completed k total).
Proof.
  induction completed as [|h rest IH]; intros Hr k; [constructor|].
  cbn [plines_from]. rewrite (results_of_cons net args h rest) in Hr.
  constructor; [apply progress_text_no_newline|].
  apply Forall_app. split.
  - destruct (result_of net args h) as [r|]; [|constructor].
    constructor; [|constructor]. apply Hr. now left.
  - apply IH. intros r Hin. apply Hr. apply in_or_app. now right.
Qed.

Lemma bar_after_last (ls : list pline) (text bar : string) :
  bar_after (ls ++ [PStatus text]) bar = ("Status: " ++ status_text text)%string.
Proof. unfold bar_after. now rewrite fold_left_app. Qed.

Lemma stage_text_no_newline (a b : string) (n : nat) :
  PyStr.mem_char newline_char a = false ->
  PyStr.mem_char newline_char b = false ->
  PyStr.mem_char newline_char (a ++ PyNum.str_of_nat n ++ b) = false.
Proof. intros Ha Hb. now rewrite !mem_char_app, Ha, Hb, str_of_nat_no_newline. Qed.

(** The run of the scanner read chunk by chunk: the rows are those the
    reader decodes for the results, in the order stage 2 completed. *)
Lemma scan_feed_rows :
  forall net json_dumps json_loads seen sched1 sched2 args g hosts chunks,
    usable args = true ->
    hosts_of net (subnet args) = Ok hosts ->
    NoDup hosts ->
    (forall r, In r (results_of net args (filter (live net args) hosts)) ->
               readable json_loads json_dumps seen (PResult r)
               /\ host (seen r) = host r) ->
    concat_chunks chunks
    = stdout_text (prints (snd (main net json_dumps sched1 sched2 (Namespace args) g))) ->
    let completed :=
      Pool.as_completed 25 sched2
        (filter (live net args) (Pool.as_completed 100 sched1 hosts)) in
    Permutation completed (filter (live net args) hosts)
    /\ exists evs,
        feed json_loads chunks fresh_app
        = (mkApp "" (map row_of (map seen (results_of net args completed)))
                 "Status: Scanner process finished.", evs, true)
        /\ parsed_results evs = map result_event (map seen (results_of net args completed)).
Proof.
  intros net dumps loads seen s1 s2 args g hosts chunks Hu Hh Hd Hr Hc.
  destruct (ScanRunFacts.main_prints net dumps s1 s2 args g hosts Hu Hh) as [Hp _].
  cbn zeta in *.
  set (open_hosts := filter (live net args) (Pool.as_completed 100 s1 hosts)) in *.
  set (completed := Pool.as_completed 25 s2 open_hosts) in *.
  assert (Hperm : Permutation completed (filter (live net args) hosts)).
  { subst completed open_hosts.
    eapply Permutation_trans; [apply PoolFacts.as_completed_perm; lia|].
    apply ScanRunFacts.Permutation_filter, PoolFacts.as_completed_perm. lia. }
  split; [exact Hperm|].
  assert (Hr' : forall r, In r (results_of net args completed) ->
                          readable loads dumps seen (PResult r) /\ host (seen r) = host r).
  { intros r Hin. apply Hr.
    unfold results_of in *. apply in_flat_map in Hin as [h [Hin Hx]].
    apply in_flat_map. exists h. split; [|exact Hx].
    eapply Permutation_in; [exact Hperm | exact Hin]. }
  set (ls := PStatus ("Stage 1: Port scanning " ++ PyNum.str_of_nat (List.length hosts)
                        ++ " hosts...")
               :: PStatus ("Stage 2: Enumerating shares on "
                             ++ PyNum.str_of_nat (List.length open_hosts) ++ " live hosts...")
               :: plines_from net args completed 0 (List.length open_hosts)).
  assert (Hl : prints (snd (main net dumps s1 s2 (Namespace args) g))
               = map (render dumps) (ls ++ [PStatus "Scanner process finished."])).
  { rewrite Hp, lines_from_render. subst ls. cbn [List.app map render].
    rewrite map_app. reflexivity. }
  assert (Hres : pline_results (ls ++ [PStatus "Scanner process finished."])
                 = results_of net args completed).
  { unfold pline_results. rewrite flat_map_app. subst ls. cbn [flat_map List.app].
    rewrite app_nil_r. apply plines_from_results. }
  assert (Hread : Forall (readable loads dumps seen)
                    (ls ++ [PStatus "Scanner process finished."])).
  { apply Forall_app. split; [|repeat constructor].
    subst ls. constructor; [now apply stage_text_no_newline|].
    constructor; [now apply stage_text_no_newline|].
    apply plines_from_readable. intros r Hin. now apply Hr'. }
  destruct (handle_plines loads dumps seen _ Hread fresh_app eq_refl) as [evs [E Hev]].
  rewrite <- Hl, <- Hc, Hres in E. rewrite Hres in Hev.
  rewrite bar_after_last in E.
  rewrite rows_after_fresh in E.
  2:{ cbn [scan_model fresh_app map List.app]. rewrite map_map.
      rewrite (map_ext_in (fun r => host (seen r)) host)
        by (intros r Hin; now apply Hr').
      apply results_of_unique.
      eapply Permutation_NoDup; [apply Permutation_sym; exact Hperm|].
      now apply NoDup_filter. }
  exists evs. split; [|exact Hev].
  apply feed_concat; [reflexivity | exact E].
Qed.

(** *** What the reader hands to [json.loads] *)

Lemma remove_all_absent (old s : string) :
  PyStr.contains s old = false ->
  forall fuel, PyStr.remove_all_fuel fuel old s = s.
Proof.
  induction s as [|c s IH]; intros H fuel; destruct fuel as [|fuel];
    cbn [PyStr.remove_all_fuel]; try reflexivity.
  cbn [PyStr.contains] in H. apply orb_false_elim in H as [Hp Hc].
  now rewrite Hp, (IH Hc).
Qed.

Lemma remove_all_fuel_S (fuel : nat) (old : string) (c : ascii) (s : string) :
  PyStr.remove_all_fuel (S fuel) old (String c s)
  = if String.prefix old (String c s)
    then PyStr.remove_all_fuel fuel old (PyStr.drop (String.length old) (String c s))
    else String c (PyStr.remove_all_fuel fuel old s).
Proof. reflexivity. Qed.

Lemma rstrip_cons (c : ascii) (s : string) :
  PyStr.rstrip (String c s)
  = match PyStr.rstrip s with
    | EmptyString => if PyStr.is_space c then EmptyString else String c EmptyString
    | r => String c r
    end.
Proof. reflexivity. Qed.

Lemma rstrip_idem (s : string) : PyStr.rstrip (PyStr.rstrip s) = PyStr.rstrip s.
Proof.
  induction s as [|c s IH]; [reflexivity|]. rewrite rstrip_cons.
  destruct (PyStr.rstrip s) as [|d r] eqn:E.
  - destruct (PyStr.is_space c) eqn:Ec; [reflexivity|].
    rewrite rstrip_cons. cbn [PyStr.rstrip]. now rewrite Ec.
  - rewrite rstrip_cons, IH. reflexivity.
Qed.

(** A text that passes unchanged is what [json.loads] is handed. *)
Lemma handed_unchanged (json_dumps : HostResult -> string) (r : HostResult) :
  passes_unchanged json_dumps r -> handed_to_loads json_dumps r = json_dumps r.
Proof.
  intros [_ [Hs Hc]]. unfold handed_to_loads. rewrite strip_result.
  assert (Hr : PyStr.rstrip (json_dumps r) = json_dumps r).
  { rewrite <- Hs at 1. unfold PyStr.strip. rewrite rstrip_idem. exact Hs. }
  rewrite Hr.
  assert (Hrem : PyStr.remove_all "RESULT:" ("RESULT:" ++ json_dumps r) = json_dumps r).
  { unfold PyStr.remove_all.
    assert (Hp : String.prefix "RESULT:" ("RESULT:" ++ json_dumps r) = true)
      by (apply SearchFacts.prefix_iff; now exists (json_dumps r)).
    change (String.length ("RESULT:" ++ json_dumps r))
      with (S (6 + String.length (json_dumps r))).
    change ("RESULT:" ++ json_dumps r)%string
      with (String "R" ("ESULT:" ++ json_dumps r)) in *.
    rewrite remove_all_fuel_S, Hp.
    change (PyStr.drop (String.length "RESULT:") (String "R" ("ESULT:" ++ json_dumps r)))
      with (json_dumps r).
    now apply remove_all_absent. }
  now rewrite Hrem.
Qed.

Lemma count_zero_no_newline (s : string) :
  count_newlines s = 0 <-> PyStr.mem_char newline_char s = false.
Proof.
  split; [|apply count_no_newline].
  induction s as [|c s IH]; cbn [count_newlines PyStr.mem_char]; [reflexivity|].
  rewrite (Ascii.eqb_sym newline_char c).
  destruct (Ascii.eqb c newline_char); [discriminate|]. exact IH.
Qed.

(** Nothing is handled at the end when what is left has no newline. *)
Lemma finished_without_line (json_loads : string -> option json) (data : string)
    (normal_exit cancel_enabled : bool) (app : App) :
  PyStr.mem_char newline_char (scanner_buffer app ++ data) = false ->
  exists app1,
    (app1 = app \/ app1 = set_buffer (scanner_buffer app ++ data) app)
    /\ on_scanner_finished json_loads data true normal_exit cancel_enabled app
       = (if normal_exit
          then update_status
                 (if (0 <? List.length (scan_model app))%nat
                  then ("Scan finished. Found "
                          ++ PyNum.str_of_nat (List.length (scan_model app))
                          ++ " host(s) with shares.")%string
                  else "Scan finished. No accessible shares were found."%string) app1
          else if cancel_enabled then update_status "Scan cancelled or failed." app1
          else app1,
          [], true).
Proof.
  intro H. unfold on_scanner_finished.
  assert (E : handle_scanner_output json_loads data app
              = (set_buffer (scanner_buffer app ++ data) app, [], true)).
  { rewrite handle_scanner_output_run. unfold run_lines.
    cbn [scanner_buffer set_buffer]. now rewrite (count_no_newline _ H). }
  destruct (negb (String.eqb (PyStr.strip (scanner_buffer app)) "")).
  - rewrite E. exists (set_buffer (scanner_buffer app ++ data) app).
    split; [now right|]. cbn [negb andb].
    destruct normal_exit; [|destruct cancel_enabled]; reflexivity.
  - exists app. split; [now left|]. cbn [negb andb].
    destruct normal_exit; [|destruct cancel_enabled]; reflexivity.
Qed.

(** X8.  What the scanner finds reaches the window whole, when no text
    written holds [RESULT:] again.  The scanner runs on a subnet whose
    addresses are distinct and its standard output arrives at
    [handle_scanner_output] in any chunks; [json.loads] reads back what
    [json.dumps] wrote, and what is written for a result is one line without
    blanks at its ends and without [RESULT:] in it.  Then no call is left by
    an exception, nothing stays in the buffer, the scan model holds exactly
    one row per host with a result, carrying its shares and permissions, these
    hosts being (in some order) the results of the live hosts, each giving one
    result event; and the status bar shows the scanner's last line. *)
Theorem scan_results_reach_window :
  forall net json_dumps json_loads sched1 sched2 args g hosts chunks,
    usable args = true ->
    hosts_of net (subnet args) = Ok hosts ->
    NoDup hosts ->
    (forall r, In r (results_of net args (filter (live net args) hosts)) ->
               passes_unchanged json_dumps r
               /\ json_loads (json_dumps r) = Some (json_of_result r)) ->
    concat_chunks chunks
    = stdout_text (prints (snd (main net json_dumps sched1 sched2 (Namespace args) g))) ->
    exists reported evs,
      Permutation reported (results_of net args (filter (live net args) hosts))
      /\ feed json_loads chunks fresh_app
         = (mkApp "" (map row_of reported) "Status: Scanner process finished.", evs, true)
      /\ parsed_results evs = map result_event reported.
Proof.
  intros net dumps loads s1 s2 args g hosts chunks Hu Hh Hd Hr Hc.
  assert (Hseen : forall r,
             In r (results_of net args (filter (live net args) hosts)) ->
             readable loads dumps (fun r0 => r0) (PResult r) /\ host r = host r).
  { intros r Hin. destruct (Hr r Hin) as [Hp Hl]. split; [|reflexivity].
    split; [exact (proj1 Hp)|]. now rewrite (handed_unchanged dumps r Hp). }
  destruct (scan_feed_rows net dumps loads (fun r0 => r0) s1 s2 args g hosts chunks
              Hu Hh Hd Hseen Hc) as [Hperm [evs [E Hev]]].
  rewrite map_id in E, Hev.
  eexists. exists evs. split; [|split; [exact E | exact Hev]].
  unfold results_of. now apply Permutation_flat_map.
Qed.

Lemma scan_results_reach_window_witness :
  usable example_args = true
  /\ hosts_of example_network (subnet example_args)
     = Ok ["10.0.0.1"; "10.0.0.2"; "10.0.0.3"]%string
  /\ NoDup ["10.0.0.1"; "10.0.0.2"; "10.0.0.3"]%string
  /\ (forall r,
         In r (results_of example_network example_args
                 (filter (live example_network example_args)
                    ["10.0.0.1"; "10.0.0.2"; "10.0.0.3"]%string)) ->
         passes_unchanged example_json_dumps r
         /\ example_loads (example_json_dumps r) = Some (json_of_result r))
  /\ concat_chunks
       [stdout_text (prints (snd (main example_network example_json_dumps
                                    (fun _ => 0) (fun _ => 0) (Namespace example_args)
                                    fresh_process)))]
     = stdout_text (prints (snd (main example_network example_json_dumps
                                   (fun _ => 0) (fun _ => 0) (Namespace example_args)
                                   fresh_process)))
  /\ exists reported evs,
      Permutation reported
        (results_of example_network example_args
           (filter (live example_network example_args)
              ["10.0.0.1"; "10.0.0.2"; "10.0.0.3"]%string))
      /\ feed example_loads
           [stdout_text (prints (snd (main example_network example_json_dumps
                                        (fun _ => 0) (fun _ => 0) (Namespace example_args)
                                        fresh_process)))]
           fresh_app
         = (mkApp "" (map row_of reported) "Status: Scanner process finished.", evs, true)
      /\ parsed_results evs = map result_event reported.
Proof.
  assert (H3 : NoDup ["10.0.0.1"; "10.0.0.2"; "10.0.0.3"]%string).
  { repeat constructor; cbn; intuition discriminate. }
  assert (H4 : forall r,
             In r (results_of example_network example_args
                     (filter (live example_network example_args)
                        ["10.0.0.1"; "10.0.0.2"; "10.0.0.3"]%string)) ->
             passes_unchanged example_json_dumps r
             /\ example_loads (example_json_dumps r) = Some (json_of_result r)).
  { intros r Hin. vm_compute in Hin. destruct Hin as [<-|[]].
    repeat split; vm_compute; reflexivity. }
  assert (H5 : concat_chunks
                 [stdout_text (prints (snd (main example_network example_json_dumps
                                              (fun _ => 0) (fun _ => 0) (Namespace example_args)
                                              fresh_process)))]
               = stdout_text (prints (snd (main example_network example_json_dumps
                                             (fun _ => 0) (fun _ => 0) (Namespace example_args)
                                             fresh_process))))
    by (cbn [concat_chunks]; apply str_app_nil_r).
  split; [reflexivity|]. split; [reflexivity|]. split; [exact H3|]. split; [exact H4|].
  split; [exact H5|].
  exact (scan_results_reach_window example_network example_json_dumps example_loads
           (fun _ => 0) (fun _ => 0) example_args fresh_process
           ["10.0.0.1"; "10.0.0.2"; "10.0.0.3"]%string _ eq_refl eq_refl H3 H4 H5).
Defined.

(** A share whose name holds [RESULT:] does not reach the window whole,
    though the decoder reads back what the encoder writes: the reader takes
    the marker out of the name before it decodes. *)
Example share_name_loses_marker :
  names_loads (names_dumps marked_host_result) = Some (json_of_result marked_host_result)
  /\ handle_scanner_output names_loads ("RESULT:" ++ names_dumps marked_host_result ++ nl)
       fresh_app
     = (mkApp "" [("10.0.0.9"%string, [("s"%string, "READ"%string)])] "",
        [ResultEvent "10.0.0.9" [("s"%string, "READ"%string)]], true).
Proof. split; vm_compute; reflexivity. Qed.

(** The example network, its output cut in the middle of the result line. *)
Example scan_example_in_two_chunks :
  fst (fst (feed example_loads
              ["STATUS:Stage 1: Port scanning 3 hosts..." ++ nl
                 ++ "STATUS:Stage 2: Enumerating shares on 2 live hosts..." ++ nl
                 ++ "STATUS:Enumerating... (1/2)" ++ nl ++ "RESULT:{10.";
               "0.0.1}" ++ nl ++ "STATUS:Enumerating... (2/2)" ++ nl
                 ++ "STATUS:Scanner process finished." ++ nl]%string
              fresh_app))
  = mkApp "" [("10.0.0.1"%string, [("docs"%string, "READ"%string)])]
      "Status: Scanner process finished.".
Proof. vm_compute. reflexivity. Qed.

(** X9.  When the process has exited normally after a run of the
    scanner, the status bar tells how many hosts have shares.  The scanner
    runs on a subnet whose addresses are distinct, its output arrives in any
    chunks, and what the reader hands to [json.loads] for the line of a result
    decodes to a dictionary of the same host, whatever it holds for the shares
    (a share name that holds [RESULT:] is read without it).  Then
    [on_scanner_finished] handles nothing more, the rows are as many as the
    live hosts with a result, and the status bar shows that number, or that
    nothing was found when there is none, whatever the order in which the
    hosts completed. *)
Theorem finished_scan_counts_hosts :
  forall net json_dumps json_loads seen sched1 sched2 args g hosts chunks cancel_enabled,
    usable args = true ->
    hosts_of net (subnet args) = Ok hosts ->
    NoDup hosts ->
    (forall r, In r (results_of net args (filter (live net args) hosts)) ->
               readable json_loads json_dumps seen (PResult r)
               /\ host (seen r) = host r) ->
    concat_chunks chunks
    = stdout_text (prints (snd (main net json_dumps sched1 sched2 (Namespace args) g))) ->
    let found := List.length (results_of net args (filter (live net args) hosts)) in
    let app := fst (fst (feed json_loads chunks fresh_app)) in
    let '(app', evs, fin) :=
      on_scanner_finished json_loads "" true true cancel_enabled app in
    fin = true /\ evs = [] /\ scan_model app' = scan_model app
    /\ List.length (scan_model app') = found
    /\ status_bar app'
       = if (0 <? found)%nat
         then ("Status: Scan finished. Found " ++ PyNum.str_of_nat found
                 ++ " host(s) with shares.")%string
         else "Status: Scan finished. No accessible shares were found."%string.
Proof.
  intros net dumps loads seen s1 s2 args g hosts chunks ce Hu Hh Hd Hr Hc. cbn zeta.
  destruct (scan_feed_rows net dumps loads seen s1 s2 args g hosts chunks Hu Hh Hd Hr Hc)
    as [Hperm [evs [E Hev]]].
  rewrite E. cbn [fst].
  set (rs := results_of net args
                (Pool.as_completed 25 s2
                   (filter (live net args) (Pool.as_completed 100 s1 hosts)))) in *.
  assert (Hlen : List.length rs
                 = List.length (results_of net args (filter (live net args) hosts))).
  { apply Permutation_length. subst rs. unfold results_of. now apply Permutation_flat_map. }
  rewrite <- Hlen.
  destruct (finished_without_line loads "" true ce
              (mkApp "" (map row_of (map seen rs)) "Status: Scanner process finished.")
              eq_refl)
    as [app1 [Happ1 Efin]].
  rewrite Efin.
  assert (Hm : scan_model app1 = map row_of (map seen rs))
    by (destruct Happ1; subst app1; reflexivity).
  cbn [scan_model update_status status_bar]. rewrite Hm, !length_map.
  repeat split. destruct (0 <? List.length rs)%nat; reflexivity.
Qed.

Lemma finished_scan_counts_hosts_witness :
  usable example_args = true
  /\ hosts_of example_network (subnet example_args)
     = Ok ["10.0.0.1"; "10.0.0.2"; "10.0.0.3"]%string
  /\ NoDup ["10.0.0.1"; "10.0.0.2"; "10.0.0.3"]%string
  /\ (forall r,
         In r (results_of example_network example_args
                 (filter (live example_network example_args)
                    ["10.0.0.1"; "10.0.0.2"; "10.0.0.3"]%string)) ->
         readable example_loads example_json_dumps (fun r0 => r0) (PResult r)
         /\ host r = host r)
  /\ (let found :=
        List.length (results_of example_network example_args
                       (filter (live example_network example_args)
                          ["10.0.0.1"; "10.0.0.2"; "10.0.0.3"]%string)) in
      let app :=
        fst (fst (feed example_loads
                    [stdout_text (prints (snd (main example_network example_json_dumps
                                                 (fun _ => 0) (fun _ => 0)
                                                 (Namespace example_args) fresh_process)))]
                    fresh_app)) in
      let '(app', evs, fin) := on_scanner_finished example_loads "" true true true app in
      fin = true /\ evs = [] /\ scan_model app' = scan_model app
      /\ List.length (scan_model app') = found
      /\ status_bar app'
         = if (0 <? found)%nat
           then ("Status: Scan finished. Found " ++ PyNum.str_of_nat found
                   ++ " host(s) with shares.")%string
           else "Status: Scan finished. No accessible shares were found."%string).
Proof.
  assert (H3 : NoDup ["10.0.0.1"; "10.0.0.2"; "10.0.0.3"]%string).
  { repeat constructor; cbn; intuition discriminate. }
  assert (H4 : forall r,
             In r (results_of example_network example_args
                     (filter (live example_network example_args)
                        ["10.0.0.1"; "10.0.0.2"; "10.0.0.3"]%string)) ->
             readable example_loads example_json_dumps (fun r0 => r0) (PResult r)
             /\ host r = host r).
  { intros r Hin. vm_compute in Hin. destruct Hin as [<-|[]].
    repeat split; vm_compute; reflexivity. }
  assert (H5 : concat_chunks
                 [stdout_text (prints (snd (main example_network example_json_dumps
                                              (fun _ => 0) (fun _ => 0) (Namespace example_args)
                                              fresh_process)))]
               = stdout_text (prints (snd (main example_network example_json_dumps
                                             (fun _ => 0) (fun _ => 0) (Namespace example_args)
                                             fresh_process))))
    by (cbn [concat_chunks]; apply str_app_nil_r).
  split; [reflexivity|]. split; [reflexivity|]. split; [exact H3|]. split; [exact H4|].
  exact (finished_scan_counts_hosts example_network example_json_dumps example_loads
           (fun r0 => r0) (fun _ => 0) (fun _ => 0) example_args fresh_process
           ["10.0.0.1"; "10.0.0.2"; "10.0.0.3"]%string _ true eq_refl eq_refl H3 H4 H5).
Defined.

(** On the example network: one host with shares. *)
Example finished_scan_example :
  fst (fst (on_scanner_finished example_loads "" true true true
              (fst (fst (feed example_loads
                           [stdout_text
                              (prints (snd (main example_network example_json_dumps
                                              (fun _ => 0) (fun _ => 0) (Namespace example_args)
                                              fresh_process)))]
                           fresh_app)))))
  = mkApp "" [("10.0.0.1"%string, [("docs"%string, "READ"%string)])]
      "Status: Scan finished. Found 1 host(s) with shares.".
Proof. vm_compute. reflexivity. Qed.

(** X10.  A last line that the process did not end with a newline is
    never handled: when what is in the buffer and what remains to be read hold
    no newline, [on_scanner_finished] gives no event and changes no row,
    whatever the text is, a complete [RESULT:] dictionary included; the
    message of a normal exit counts the rows there were. *)
Theorem unterminated_line_is_not_handled :
  forall json_loads data normal_exit cancel_enabled app,
    PyStr.mem_char newline_char (scanner_buffer app ++ data) = false ->
    let '(app', evs, fin) :=
      on_scanner_finished json_loads data true normal_exit cancel_enabled app in
    fin = true /\ evs = [] /\ scan_model app' = scan_model app
    /\ (normal_exit = true ->
        status_bar app'
        = if (0 <? List.length (scan_model app))%nat
          then ("Status: Scan finished. Found "
                  ++ PyNum.str_of_nat (List.length (scan_model app))
                  ++ " host(s) with shares.")%string
          else "Status: Scan finished. No accessible shares were found."%string).
Proof.
  intros loads data ne ce app H.
  destruct (finished_without_line loads data ne ce app H) as [app1 [Happ1 E]].
  rewrite E.
  assert (Hm : scan_model app1 = scan_model app) by (destruct Happ1; subst app1; reflexivity).
  split; [reflexivity|]. split; [reflexivity|]. split.
  - destruct ne; [|destruct ce]; cbn [scan_model update_status]; exact Hm.
  - intros ->. cbn [status_bar update_status].
    destruct (0 <? List.length (scan_model app))%nat; reflexivity.
Qed.

Lemma unterminated_line_is_not_handled_witness :
  PyStr.mem_char newline_char
    (scanner_buffer (mkApp "RESULT:{10.0.0.1}" [] "Status: Scanner process finished.") ++ "")
  = false
  /\ (let '(app', evs, fin) :=
        on_scanner_finished example_loads "" true true true
          (mkApp "RESULT:{10.0.0.1}" [] "Status: Scanner process finished.") in
      fin = true /\ evs = [] /\ scan_model app' = []
      /\ status_bar app' = "Status: Scan finished. No accessible shares were found."%string).
Proof.
  split; [vm_compute; reflexivity|].
  pose proof (unterminated_line_is_not_handled example_loads "" true true
                (mkApp "RESULT:{10.0.0.1}" [] "Status: Scanner process finished.") eq_refl)
    as H.
  destruct (on_scanner_finished example_loads "" true true true
              (mkApp "RESULT:{10.0.0.1}" [] "Status: Scanner process finished."))
    as [[app' evs] fin].
  destruct H as [A [B [C D]]].
  split; [exact A|]. split; [exact B|]. split; [exact C | exact (D eq_refl)].
Defined.

(** The dictionary of the example host, written without a newline at the
    end of the output: no row. *)
Example unterminated_result_example :
  on_scanner_finished example_loads "" true true true
    (fst (fst (handle_scanner_output example_loads "RESULT:{10.0.0.1}" fresh_app)))
  = (mkApp "RESULT:{10.0.0.1}" [] "Status: Scan finished. No accessible shares were found.",
     [], true).
Proof. vm_compute. reflexivity. Qed.

End ScanGuiFacts.

(* ------------------------------------------------------------------ *)
(** ** The worker: a listing for the window, and a stopped worker *)

Module BrowserFacts.
Import Browser ShareTree IndexSpec BrowserSpec.

Section Sorting.
Variable A : Type.
Variable key : A -> string.

Lemma insert_by_perm (x : A) (l : list A) : Permutation (insert_by key x l) (x :: l).
Proof.
  induction l as [|y t IH]; cbn [insert_by]; [reflexivity|].
  destruct (String.leb (key x) (key y)); [reflexivity|].
  rewrite IH. apply perm_swap.
Qed.

Lemma sorted_perm (l : list A) : Permutation (sorted key l) l.
Proof.
  induction l as [|x l IH]; cbn [sorted fold_right]; [reflexivity|].
  fold (sorted key l). rewrite insert_by_perm. now constructor.
Qed.

Lemma insert_by_hd (x a : A) (l : list A) :
  key_le key a x -> HdRel (key_le key) a l -> HdRel (key_le key) a (insert_by key x l).
Proof.
  intros Hax Hl. destruct l as [|y t]; cbn [insert_by]; [now constructor|].
  destruct (String.leb (key x) (key y)); [now constructor|].
  constructor. now inversion Hl.
Qed.

Lemma insert_by_sorted (x : A) (l : list A) :
  Sorted (key_le key) l -> Sorted (key_le key) (insert_by key x l).
Proof.
  induction 1 as [|y t Ht IH Hy]; cbn [insert_by]; [repeat constructor|].
  destruct (String.leb (key x) (key y)) eqn:E.
  - constructor; [now constructor | now constructor].
  - constructor; [exact IH|]. apply insert_by_hd; [|exact Hy].
    destruct (String.leb_total (key y) (key x)) as [H|H]; [exact H|].
    unfold key_le in *. congruence.
Qed.

Lemma sorted_sorted (l : list A) : Sorted (key_le key) (sorted key l).
Proof.
  induction l as [|x l IH]; cbn [sorted fold_right]; [constructor|].
  now apply insert_by_sorted.
Qed.

End Sorting.

Lemma Sorted_map_rows (A : Type) (key : A -> string) (row : A -> Row) (l : list A) :
  (forall a, row_name (row a) = key a) ->
  Sorted (key_le key) l -> Sorted name_le (map row l).
Proof.
  intros Hk. induction 1 as [|a l Hl IH Ha]; cbn [map]; constructor; [exact IH|].
  destruct Ha as [|b l' Hab]; cbn [map]; constructor.
  unfold name_le, key_le in *. now rewrite !Hk.
Qed.

(** The two groups together hold the visible entries. *)
Lemma rows_of_listing (files : list SharedFile) :
  Permutation
    (map (fun d => mkRow d true 0)
       (map filename
          (filter (fun f => isDirectory f
                            && negb (String.eqb (filename f) "."
                                     || String.eqb (filename f) "..")) files))
     ++ map (fun f => mkRow (filename f) false (file_size f))
          (filter (fun f => negb (isDirectory f)) files))
    (map listed_row (filter (fun f => negb (is_dot f)) files)).
Proof.
  induction files as [|f files IH]; [constructor|].
  cbn [filter].
  assert (Hd : is_dot f
               = isDirectory f && (String.eqb (filename f) "." || String.eqb (filename f) ".."))
    by reflexivity.
  rewrite Hd.
  destruct (isDirectory f) eqn:Ed; cbn [andb negb].
  - destruct (String.eqb (filename f) "." || String.eqb (filename f) "..");
      cbn [negb map List.app]; [exact IH|].
    replace (listed_row f) with (mkRow (filename f) true 0)
      by (unfold listed_row; now rewrite Ed).
    now constructor.
  - cbn [map].
    replace (listed_row f) with (mkRow (filename f) false (file_size f))
      by (unfold listed_row; now rewrite Ed).
    apply Permutation_sym, Permutation_cons_app, Permutation_sym, IH.
Qed.

(** X11.  [browse_path] on a connected worker gives the directories
    first and the files after them, each group in the order of the names; a
    directory row has size 0 and is never [.] or [..]; and the rows are, up to
    order, one per entry of the server's listing other than the directories
    [.] and [..]. *)
Theorem browse_path_rows :
  forall sess self path files,
    smb_connection self = true ->
    main_listPath sess (smb_share (config self)) path = Ok files ->
    exists dirs regular_files,
      browse_path sess self path = Ok (dirs ++ regular_files)
      /\ Forall (fun r => row_is_dir r = true /\ row_size r = 0%Z
                          /\ row_name r <> "."%string /\ row_name r <> ".."%string) dirs
      /\ Forall (fun r => row_is_dir r = false) regular_files
      /\ Sorted name_le dirs
      /\ Sorted name_le regular_files
      /\ Permutation (dirs ++ regular_files)
           (map listed_row (filter (fun f => negb (is_dot f)) files)).
Proof.
  intros sess self path files Hc Hl. unfold browse_path. rewrite Hc, Hl. cbn [negb].
  eexists. eexists. split; [reflexivity|].
  split; [|split; [|split; [|split]]].
  - apply Forall_forall. intros r Hin. apply in_map_iff in Hin as [d [<- Hin]].
    cbn [row_is_dir row_size row_name]. split; [reflexivity|]. split; [reflexivity|].
    eapply Permutation_in in Hin; [|apply sorted_perm].
    apply in_map_iff in Hin as [f [<- Hin]]. apply filter_In in Hin as [_ Hf].
    apply andb_prop in Hf as [_ Hf]. apply negb_true_iff, orb_false_elim in Hf as [H1 H2].
    apply String.eqb_neq in H1, H2. now split.
  - apply Forall_forall. intros r Hin. now apply in_map_iff in Hin as [f [<- _]].
  - apply Sorted_map_rows with (key := fun n : string => n); [reflexivity|].
    apply sorted_sorted.
  - apply Sorted_map_rows with (key := filename); [reflexivity|].
    apply sorted_sorted.
  - eapply Permutation_trans; [|apply rows_of_listing].
    apply Permutation_app; apply Permutation_map, sorted_perm.
Qed.

Lemma browse_path_rows_witness :
  smb_connection connected_worker = true
  /\ main_listPath example_main_session
       (smb_share (config connected_worker)) "/"
     = Ok example_listing
  /\ exists dirs regular_files,
      browse_path example_main_session connected_worker "/"
      = Ok (dirs ++ regular_files)
      /\ Forall (fun r => row_is_dir r = true /\ row_size r = 0%Z
                          /\ row_name r <> "."%string /\ row_name r <> ".."%string) dirs
      /\ Forall (fun r => row_is_dir r = false) regular_files
      /\ Sorted name_le dirs
      /\ Sorted name_le regular_files
      /\ Permutation (dirs ++ regular_files)
           (map listed_row (filter (fun f => negb (is_dot f)) example_listing)).
Proof.
  split; [reflexivity|]. split; [reflexivity|].
  exact (browse_path_rows example_main_session connected_worker
           "/" example_listing eq_refl eq_refl).
Defined.

(** The order is that of the code points: capitals come first. *)
Example browse_path_example :
  browse_path example_main_session connected_worker "/"
  = Ok [mkRow "docs" true 0; mkRow "src" true 0;
        mkRow "Alpha.txt" false 2048; mkRow "zeta.txt" false 7].
Proof. vm_compute. reflexivity. Qed.

(** *** A stopped worker *)

Section Stopped.
Variable remote : Remote.
Variable max_workers : nat.
Variable sched : nat -> nat -> nat.
Variable fuel : nat.
Variable sess : MainSession.

Lemma build_stopped (self : Worker) (g : ProcState) :
  _is_running self = false ->
  _build_cache_parallel remote max_workers sched fuel self g = Returns self g [].
Proof.
  intro H. unfold _build_cache_parallel. destruct fuel; cbn [build_loop]; now rewrite H.
Qed.

Lemma search_cache_incl (keyword : string) (cache : list (string * Z)) :
  incl (search_cache keyword cache) cache.
Proof. unfold search_cache. apply incl_filter. Qed.

Ltac idle_request H :=
  split; [reflexivity|]; split; [exact H|]; split; [apply incl_refl|];
  split; [constructor|]; intros found [].

(** One request to a stopped worker. *)
Lemma serve_stopped (r : request) (self : Worker) (g : ProcState) :
  _is_running self = false ->
  exists s' tr,
    serve (_build_cache_parallel remote max_workers sched fuel) sess r self g = Returns s' g tr
    /\ _is_running s' = false
    /\ incl (file_path_cache s') (file_path_cache self)
    /\ Forall (fun e => is_contact e = false) tr
    /\ (forall found, In (SearchFinished found) tr -> incl found (file_path_cache self)).
Proof.
  intro H. destruct r as [| |keyword|]; cbn [serve].
  - unfold run_browser. rewrite H. exists self, []. cbn [negb].
    idle_request H.
  - unfold start_background_caching. rewrite H. cbn [negb]. rewrite !orb_true_r.
    exists self, []. idle_request H.
  - unfold do_search.
    destruct (smb_connection self); cbn [negb].
    2:{ exists self, []. idle_request H. }
    destruct (is_caching self) eqn:Ec.
    { exists self. eexists. split; [reflexivity|]. split; [exact H|].
      split; [apply incl_refl|]. split; [repeat constructor|].
      intros found [E|[E|[]]]; [discriminate|]. injection E as <-. intros x []. }
    unfold first_search_build.
    destruct (is_cached self) eqn:Ed; cbn [negb].
    + unfold release. rewrite Ec.
      exists self. eexists. split; [reflexivity|]. split; [exact H|].
      split; [apply incl_refl|]. split; [repeat constructor|].
      intros found [E|[E|[]]]; [discriminate|]. injection E as <-. apply search_cache_incl.
    + rewrite build_stopped by exact H.
      eexists. eexists. split; [reflexivity|].
      split; [unfold release; cbn; exact H|].
      split; [unfold release; cbn; intros x []|]. split; [repeat constructor|].
      intros found Hin. cbn [List.app In] in Hin.
      destruct Hin as [E|[E|[E|[]]]]; try discriminate.
      injection E as <-. intros x [].
  - unfold stop. eexists. eexists. split; [reflexivity|]. split; [reflexivity|].
    split; [apply incl_refl|]. split.
    + destruct (smb_connection self); repeat constructor.
    + intros found Hin. destruct (smb_connection self); [destruct Hin as [E|[]]; discriminate|].
      destruct Hin.
Qed.

Lemma serve_all_stopped (rs : list request) :
  forall self g,
    _is_running self = false ->
    exists s' tr,
      serve_all (_build_cache_parallel remote max_workers sched fuel) sess rs self g
      = Returns s' g tr
      /\ _is_running s' = false
      /\ incl (file_path_cache s') (file_path_cache self)
      /\ Forall (fun e => is_contact e = false) tr
      /\ (forall found, In (SearchFinished found) tr -> incl found (file_path_cache self)).
Proof.
  induction rs as [|r rs IH]; intros self g H; cbn [serve_all].
  - exists self, []. idle_request H.
  - destruct (serve_stopped r self g H) as [s1 [tr1 [E1 [H1 [Hi1 [Hc1 Hf1]]]]]].
    destruct (IH s1 g H1) as [s2 [tr2 [E2 [H2 [Hi2 [Hc2 Hf2]]]]]].
    rewrite E1. cbn [then_request]. rewrite E2. cbn [after].
    exists s2, (tr1 ++ tr2). split; [reflexivity|]. split; [exact H2|].
    split; [eapply incl_tran; eassumption|]. split; [now apply Forall_app|].
    intros found Hin. apply in_app_or in Hin as [Hin|Hin]; [now apply Hf1|].
    eapply incl_tran; [now apply Hf2 | exact Hi1].
Qed.

End Stopped.

(** X12.  A stopped worker is inert.  Once [_is_running] is false,
    whatever requests follow (connecting, indexing, searching, stopping
    again), every one returns, the worker stays stopped, the process-wide
    socket configuration is not written, no listing task is started and no
    connection outcome is emitted, and a search answers only from what was
    already in the cache. *)
Theorem stopped_worker_is_inert :
  forall remote max_workers sched fuel sess rs self g,
    _is_running self = false ->
    exists s' tr,
      serve_all (_build_cache_parallel remote max_workers sched fuel) sess rs self g
      = Returns s' g tr
      /\ _is_running s' = false
      /\ Forall (fun e => is_contact e = false) tr
      /\ (forall found, In (SearchFinished found) tr -> incl found (file_path_cache self)).
Proof.
  intros remote mw sched fuel sess rs self g H.
  destruct (serve_all_stopped remote mw sched fuel sess rs self g H)
    as [s' [tr [E [H1 [_ [H2 H3]]]]]].
  exists s', tr. auto.
Qed.

Lemma stopped_worker_is_inert_witness :
  _is_running (set_is_running false connected_worker) = false
  /\ exists s' tr,
      serve_all (_build_cache_parallel (remote_of example_tree) 20
                   (fun _ _ => 0) 10)
        example_main_session [ReqRunBrowser; ReqStartCaching; ReqSearch "a"; ReqStop]
        (set_is_running false connected_worker) fresh_process
      = Returns s' fresh_process tr
      /\ _is_running s' = false
      /\ Forall (fun e => is_contact e = false) tr
      /\ (forall found,
             In (SearchFinished found) tr ->
             incl found
               (file_path_cache
                  (set_is_running false connected_worker))).
Proof.
  split; [reflexivity|].
  exact (stopped_worker_is_inert (remote_of example_tree) 20
           (fun _ _ => 0) 10 example_main_session
           [ReqRunBrowser; ReqStartCaching; ReqSearch "a"; ReqStop]
           (set_is_running false connected_worker)
           fresh_process eq_refl).
Defined.

(** A search that reaches a worker stopped before it indexed: an empty
    answer, and the index counts as built. *)
Example search_after_stop :
  serve_all (_build_cache_parallel (remote_of example_tree) 20
               (fun _ _ => 0) 10)
    example_main_session [ReqStop; ReqSearch "a"]
    connected_worker fresh_process
  = Returns (mkWorker example_config true false true false []) fresh_process
      [CloseConnection;
       StatusUpdate "First search: building file index... This may take a moment.";
       StatusUpdate "Searching for 'a' in cache..."; SearchFinished []].
Proof. vm_compute. reflexivity. Qed.

End BrowserFacts.

(* ------------------------------------------------------------------ *)
(** ** The browser tab: paths built by the window, sizes shown *)

Module BrowserGuiFacts.
Import Browser ShareTree BrowserGui.
Import PathFacts.

Lemma rstrip_chars_clean (c : ascii) (n : string) :
  PyStr.mem_char c n = false -> PyText.rstrip_chars c n = n.
Proof.
  induction n as [|d n IH]; cbn [PyStr.mem_char PyText.rstrip_chars]; [reflexivity|].
  intro H. apply orb_false_elim in H as [H1 H2]. rewrite (IH H2).
  destruct n; [|reflexivity]. now rewrite Ascii.eqb_sym, H1.
Qed.

Lemma rstrip_chars_app (c : ascii) (a n : string) :
  n <> ""%string -> PyStr.mem_char c n = false ->
  PyText.rstrip_chars c (a ++ n) = (a ++ n)%string.
Proof.
  intros Hne Hn. induction a as [|d a IH]; cbn [append].
  - now apply rstrip_chars_clean.
  - cbn [PyText.rstrip_chars]. rewrite IH.
    destruct (a ++ n)%string eqn:E; [|reflexivity].
    destruct a; cbn in E; [contradiction | discriminate].
Qed.

Lemma split_clean (c : ascii) (n : string) :
  PyStr.mem_char c n = false -> PyText.split c n = [n].
Proof.
  induction n as [|d n IH]; cbn [PyStr.mem_char PyText.split]; [reflexivity|].
  intro H. apply orb_false_elim in H as [H1 H2].
  now rewrite Ascii.eqb_sym, H1, (IH H2).
Qed.

Lemma split_first_part (c : ascii) (n rest : string) :
  PyStr.mem_char c n = false ->
  PyText.split c (n ++ String c rest) = n :: PyText.split c rest.
Proof.
  induction n as [|d n IH]; cbn [PyStr.mem_char PyText.split append].
  - now rewrite Ascii.eqb_refl.
  - intro H. apply orb_false_elim in H as [H1 H2].
    now rewrite Ascii.eqb_sym, H1, (IH H2).
Qed.

Lemma concat_cons2 (sep a b : string) (l : list string) :
  String.concat sep (a :: b :: l) = (a ++ sep ++ String.concat sep (b :: l))%string.
Proof. reflexivity. Qed.

Lemma split_concat (segments : list string) :
  segments <> [] ->
  Forall (fun m => good_name m = true) segments ->
  PyText.split slash (String.concat "/" segments) = segments.
Proof.
  intros Hne H. induction H as [|a l Ha Hl IH]; [contradiction|].
  destruct (good_name_parts a Ha) as [_ [Hs _]].
  destruct l as [|b l]; [now apply split_clean|].
  rewrite concat_cons2. cbn [append].
  rewrite (split_first_part slash a _ Hs), IH by discriminate. reflexivity.
Qed.

Lemma lstrip_chars_good (n rest : string) :
  good_name n = true -> PyText.lstrip_chars slash (n ++ rest) = (n ++ rest)%string.
Proof.
  intro H. destruct (good_name_parts n H) as [Hne [Hs _]].
  destruct n as [|d n]; [contradiction|].
  cbn [append PyText.lstrip_chars]. cbn [PyStr.mem_char] in Hs.
  apply orb_false_elim in Hs as [Hd _]. now rewrite Ascii.eqb_sym, Hd.
Qed.

Lemma concat_good_end (segments : list string) (n : string) :
  good_name n = true ->
  exists a, String.concat "/" (segments ++ [n]) = (a ++ n)%string.
Proof.
  intros _. rewrite concat_snoc. destruct segments as [|b l].
  - now exists ""%string.
  - exists (String.concat "/" (b :: l) ++ "/")%string. now rewrite str_app_assoc.
Qed.

Lemma concat_good_start (segments : list string) :
  segments <> [] -> Forall (fun m => good_name m = true) segments ->
  exists n rest, good_name n = true /\ String.concat "/" segments = (n ++ rest)%string.
Proof.
  intros Hne H. destruct H as [|a l Ha Hl]; [contradiction|].
  exists a. destruct l as [|b l].
  - exists ""%string. split; [exact Ha|]. cbn. now rewrite str_app_nil_r.
  - eexists. split; [exact Ha|]. apply concat_cons2.
Qed.

(** The current path without its slashes at both ends: the names. *)
Lemma strip_path_of (segments : list string) (n : string) :
  Forall (fun m => good_name m = true) segments -> good_name n = true ->
  PyText.strip_chars slash (path_of (segments ++ [n])) = String.concat "/" (segments ++ [n]).
Proof.
  intros Hs Hn. unfold PyText.strip_chars, path_of.
  cbn [append PyText.lstrip_chars]. rewrite Ascii.eqb_refl.
  assert (Hall : Forall (fun m => good_name m = true) (segments ++ [n])) by (apply Forall_app; split; auto).
  destruct (concat_good_start (segments ++ [n])) as [a [rest [Ha E]]];
    [now destruct segments | exact Hall |].
  rewrite E, (lstrip_chars_good a rest Ha), <- E.
  destruct (concat_good_end segments n Hn) as [x Ex]. rewrite Ex.
  destruct (good_name_parts n Hn) as [Hne [Hsl _]].
  now apply rstrip_chars_app.
Qed.

Lemma rstrip_path_of (segments : list string) (n : string) :
  good_name n = true ->
  PyText.rstrip_chars slash (path_of (segments ++ [n])) = path_of (segments ++ [n]).
Proof.
  intro Hn. unfold path_of.
  destruct (concat_good_end segments n Hn) as [x Ex]. rewrite Ex, <- str_app_assoc.
  destruct (good_name_parts n Hn) as [Hne [Hsl _]].
  now apply rstrip_chars_app.
Qed.

Lemma path_of_root (segments : list string) :
  Forall (fun m => good_name m = true) segments ->
  String.eqb (path_of segments) "/" = match segments with [] => true | _ => false end.
Proof.
  intro H. destruct H as [|a l Ha Hl]; [reflexivity|].
  apply String.eqb_neq. unfold path_of. intro E.
  destruct (concat_good_start (a :: l)) as [n [rest [Hn E']]];
    [discriminate | now constructor |].
  rewrite E' in E. destruct (good_name_parts n Hn) as [Hne _].
  destruct n; [contradiction | discriminate E].
Qed.

Lemma child_path_of (segments : list string) (n : string) :
  Forall (fun m => good_name m = true) segments ->
  child_path (path_of segments) n = path_of (segments ++ [n]).
Proof.
  intro H. unfold child_path. rewrite (path_of_root segments H).
  destruct segments as [|a l] using rev_ind; [reflexivity|]. clear IHl.
  apply Forall_app in H as [Hl Ha]. inversion Ha as [|? ? Hga _]; subst.
  destruct (l ++ [a]) as [|b l'] eqn:E; [now destruct l|]. rewrite <- E. cbn [negb].
  rewrite (rstrip_path_of l a Hga).
  unfold path_of. rewrite (concat_snoc "/" (l ++ [a]) n), E, <- E.
  now rewrite !str_app_assoc.
Qed.

Lemma parent_path_of (segments : list string) (n : string) :
  Forall (fun m => good_name m = true) segments -> good_name n = true ->
  parent_path (path_of (segments ++ [n])) = path_of segments.
Proof.
  intros Hs Hn. unfold parent_path. cbn zeta.
  rewrite (strip_path_of segments n Hs Hn).
  rewrite split_concat;
    [|now destruct segments | apply Forall_app; split; auto].
  rewrite length_app, removelast_last. cbn [List.length].
  destruct segments as [|a l]; [reflexivity|].
  replace (1 <? List.length (a :: l) + 1)%nat with true
    by (symmetry; apply Nat.ltb_lt; cbn [List.length]; lia).
  reflexivity.
Qed.

Lemma split_at_slash (c : ascii) (x n : string) :
  exists pre,
    pre <> [] /\ PyText.split c (x ++ String c n) = pre ++ PyText.split c n.
Proof.
  induction x as [|d x [pre [Hne IH]]]; cbn [append PyText.split].
  - exists [""%string]. split; [discriminate|]. now rewrite Ascii.eqb_refl.
  - rewrite IH. destruct (Ascii.eqb d c).
    + exists (""%string :: pre). split; [discriminate | reflexivity].
    + destruct pre as [|h t]; [contradiction|].
      exists (String d h :: t). split; [discriminate | reflexivity].
Qed.

Lemma split_last (x n : string) :
  PyStr.mem_char slash n = false ->
  last (PyText.split slash (x ++ "/" ++ n)) ""%string = n.
Proof.
  intro Hn. change (x ++ "/" ++ n)%string with (x ++ String slash n)%string.
  destruct (split_at_slash slash x n) as [pre [_ E]].
  rewrite E, (split_clean slash n Hn). apply last_last.
Qed.

Lemma basename_last (x n : string) :
  PyStr.mem_char slash n = false ->
  basename (x ++ "/" ++ n) = n.
Proof.
  intro Hn. induction x as [|d x IH]; cbn [append basename].
  - now rewrite Hn, Ascii.eqb_refl.
  - cbn [append] in IH. rewrite IH.
    assert (E : PyStr.mem_char slash (x ++ String "/" n) = true).
    { rewrite mem_char_app. cbn [PyStr.mem_char].
      change (Ascii.eqb slash "/") with true. now rewrite orb_true_r. }
    now rewrite E.
Qed.

Lemma path_of_snoc_split (segments : list string) (n : string) :
  exists x, path_of (segments ++ [n]) = (x ++ "/" ++ n)%string.
Proof.
  unfold path_of. rewrite concat_snoc. destruct segments as [|a l].
  - now exists ""%string.
  - exists ("/" ++ String.concat "/" (a :: l))%string. now rewrite !str_app_assoc.
Qed.

(** X13.  Entering a directory and going up again leads back.  From a
    directory reached by names a server can give (not empty, without slash or
    backslash), a double click on the directory [n] browses the path of the
    names followed by [n], and a double click on [..] there browses the
    directory one came from; at the root the path is ["/"] and further down
    it never ends with a slash. *)
Theorem enter_then_up_returns :
  forall segments n,
    Forall (fun m => good_name m = true) segments ->
    good_name n = true ->
    on_item_double_clicked false true DataDir n (path_of segments)
    = BrowsePath (path_of (segments ++ [n]))
    /\ on_item_double_clicked false true DataUp ".." (path_of (segments ++ [n]))
       = BrowsePath (path_of segments).
Proof.
  intros segments n Hs Hn. unfold on_item_double_clicked. cbn [negb]. split.
  - now rewrite child_path_of.
  - rewrite path_of_root by (apply Forall_app; split; [exact Hs | now constructor]).
    destruct (segments ++ [n]) eqn:E; [now destruct segments|]. rewrite <- E. cbn [negb].
    now rewrite parent_path_of.
Qed.

Lemma enter_then_up_returns_witness :
  Forall (fun m => good_name m = true) ["b"; "c"]%string
  /\ good_name "d" = true
  /\ on_item_double_clicked false true DataDir "d" (path_of ["b"; "c"]%string)
     = BrowsePath (path_of ["b"; "c"; "d"]%string)
  /\ on_item_double_clicked false true DataUp ".." (path_of ["b"; "c"; "d"]%string)
     = BrowsePath (path_of ["b"; "c"]%string).
Proof.
  assert (H1 : Forall (fun m => good_name m = true) ["b"; "c"]%string)
    by (repeat constructor).
  split; [exact H1|]. split; [reflexivity|].
  exact (enter_then_up_returns ["b"; "c"]%string "d" H1 eq_refl).
Defined.

(** X14.  The window and the indexer name a file alike.  For a file [n]
    shown in the directory reached by the names [segments], the path
    [get_selected_file_path] gives in browse mode is the path under which
    [_fetch_path_contents] records the file when it lists that directory; in
    search mode the selected result is given back unchanged unless it holds
    the text of the row for an empty result; and both the name [do_preview]
    shows and the name [start_download] proposes are [n]. *)
Theorem selected_file_is_indexed_path :
  forall segments n current,
    Forall (fun m => good_name m = true) segments ->
    good_name n = true ->
    let indexed := full_path (path_of segments) n in
    get_selected_file_path true (Some (n, DataFile)) false (path_of segments) = Some indexed
    /\ (PyStr.contains indexed "No matching files found." = false ->
        get_selected_file_path true (Some (indexed, DataFile)) true current = Some indexed)
    /\ basename indexed = n
    /\ download_name indexed = n.
Proof.
  intros segments n current Hs Hn. cbn zeta.
  rewrite (full_path_located segments n Hs Hn).
  destruct (good_name_parts n Hn) as [Hne [Hsl _]].
  destruct (path_of_snoc_split segments n) as [x Ex].
  split; [|split; [|split]].
  - unfold get_selected_file_path. cbn [negb]. now rewrite child_path_of.
  - intro Hc. unfold get_selected_file_path. cbn [negb]. rewrite Hc. cbn [negb].
    replace (String.eqb (path_of (segments ++ [n])) "") with false; [reflexivity|].
    symmetry. apply String.eqb_neq. unfold path_of. discriminate.
  - rewrite Ex. now apply basename_last.
  - unfold download_name. rewrite Ex. now apply split_last.
Qed.

Lemma selected_file_is_indexed_path_witness :
  Forall (fun m => good_name m = true) ["b"; "c"]%string
  /\ good_name "f3" = true
  /\ PyStr.contains (full_path (path_of ["b"; "c"]%string) "f3") "No matching files found."
     = false
  /\ get_selected_file_path true (Some ("f3"%string, DataFile)) false
       (path_of ["b"; "c"]%string)
     = Some (full_path (path_of ["b"; "c"]%string) "f3")
  /\ get_selected_file_path true
       (Some (full_path (path_of ["b"; "c"]%string) "f3", DataFile)) true "/"
     = Some (full_path (path_of ["b"; "c"]%string) "f3")
  /\ basename (full_path (path_of ["b"; "c"]%string) "f3") = "f3"%string
  /\ download_name (full_path (path_of ["b"; "c"]%string) "f3") = "f3"%string.
Proof.
  assert (H1 : Forall (fun m => good_name m = true) ["b"; "c"]%string)
    by (repeat constructor).
  assert (H3 : PyStr.contains (full_path (path_of ["b"; "c"]%string) "f3")
                 "No matching files found." = false) by (vm_compute; reflexivity).
  destruct (selected_file_is_indexed_path ["b"; "c"]%string "f3" "/" H1 eq_refl)
    as [A [B [C D]]].
  split; [exact H1|]. split; [reflexivity|]. split; [exact H3|].
  split; [exact A|]. split; [exact (B H3)|]. split; [exact C | exact D].
Defined.

(** A found file whose name holds the text of the empty-result row cannot
    be selected in search mode. *)
Example search_result_not_selectable :
  get_selected_file_path true
    (Some ("/b/No matching files found.txt"%string, DataFile)) true "/" = None.
Proof. vm_compute. reflexivity. Qed.

End BrowserGuiFacts.

(* ------------------------------------------------------------------ *)
(** ** The sizes shown in the browser tab *)

Module SizeFacts.
Import BrowserGui.

(** The loop stops at the largest unit the size reaches, TB at most. *)
Lemma scale_loop_unit (size : Z) :
  (0 < size)%Z ->
  exists n,
    scale_loop 4 size 1 0 = ((1024 ^ Z.of_nat n)%Z, n)
    /\ n <= 4
    /\ (1024 ^ Z.of_nat n <= size)%Z
    /\ (n < 4 -> (size < 1024 ^ Z.of_nat (S n))%Z).
Proof.
  intro H. cbn [scale_loop Nat.ltb Nat.leb andb].
  destruct (1024 * 1 <=? size)%Z eqn:E1; cbn [andb].
  2:{ exists 0. apply Z.leb_gt in E1. cbn. repeat split; lia. }
  destruct (1024 * (1024 * 1) <=? size)%Z eqn:E2; cbn [andb].
  2:{ exists 1. apply Z.leb_le in E1. apply Z.leb_gt in E2. cbn. repeat split; lia. }
  destruct (1024 * (1024 * (1024 * 1)) <=? size)%Z eqn:E3; cbn [andb].
  2:{ exists 2. apply Z.leb_le in E2. apply Z.leb_gt in E3. cbn. repeat split; lia. }
  destruct (1024 * (1024 * (1024 * (1024 * 1))) <=? size)%Z eqn:E4; cbn [andb].
  2:{ exists 3. apply Z.leb_le in E3. apply Z.leb_gt in E4. cbn. repeat split; lia. }
  exists 4. apply Z.leb_le in E4. cbn. repeat split; lia.
Qed.

(** Rounding gives a nearest integer. *)
Lemma round_half_even_near (num den : Z) :
  (0 < den)%Z ->
  (2 * Z.abs (round_half_even num den * den - num) <= den)%Z.
Proof.
  intro Hd. unfold round_half_even. cbn zeta.
  pose proof (Z.div_mod num den ltac:(lia)) as Hdm.
  pose proof (Z.mod_pos_bound num den Hd) as Hm.
  destruct (2 * (num mod den) <? den)%Z eqn:E1.
  - apply Z.ltb_lt in E1. nia.
  - apply Z.ltb_ge in E1.
    destruct (den <? 2 * (num mod den))%Z eqn:E2.
    + apply Z.ltb_lt in E2. nia.
    + apply Z.ltb_ge in E2. destruct (Z.even (num / den)); nia.
Qed.

Lemma round_half_even_mono (num den : Z) (lo hi : Z) :
  (0 < den)%Z -> (lo * den <= num)%Z -> (num <= hi * den)%Z ->
  (lo <= round_half_even num den <= hi)%Z.
Proof.
  intros Hd Hlo Hhi. unfold round_half_even. cbn zeta.
  pose proof (Z.div_mod num den ltac:(lia)) as Hdm.
  pose proof (Z.mod_pos_bound num den Hd) as Hm.
  assert (Hq : (lo <= num / den)%Z) by (apply Z.div_le_lower_bound; lia).
  assert (Hq' : (num / den <= hi)%Z) by (apply Z.div_le_upper_bound; lia).
  assert (Hr : (0 < num mod den -> num / den < hi)%Z) by nia.
  destruct (2 * (num mod den) <? den)%Z eqn:E1; [lia|].
  apply Z.ltb_ge in E1.
  destruct (den <? 2 * (num mod den))%Z; [lia|].
  destruct (Z.even (num / den)); lia.
Qed.

(** X15.  The size shown is the nearest whole number of the largest unit
    the size reaches.  Nothing is shown for no size or a size of 0 or less.
    For a size from 1 byte to below 2^53, the text is a number and a unit
    among B, KB, MB, GB and TB, the unit being the largest power of 1024
    (TB at most) that the size reaches; the number is at least 1, differs
    from the size in that unit by one half at most, and is at most 1024 for
    every unit below TB (sizes just under the next unit show as 1024 of the
    smaller one). *)
Theorem format_file_size_nearest_unit :
  format_file_size None = ""%string
  /\ (forall size, (size <= 0)%Z -> format_file_size (Some size) = ""%string)
  /\ (forall size,
         (0 < size < 2 ^ 53)%Z ->
         exists k n,
           format_file_size (Some size)
           = (PyNum.str_of_nat (Z.to_nat k) ++ " " ++ power_label n)%string
           /\ n <= 4
           /\ (1024 ^ Z.of_nat n <= size)%Z
           /\ (n < 4 -> (size < 1024 ^ Z.of_nat (S n))%Z /\ (k <= 1024)%Z)
           /\ (1 <= k)%Z
           /\ (2 * Z.abs (k * 1024 ^ Z.of_nat n - size) <= 1024 ^ Z.of_nat n)%Z).
Proof.
  split; [reflexivity|]. split.
  - intros size H. unfold format_file_size.
    now replace (size <=? 0)%Z with true by (symmetry; apply Z.leb_le; exact H).
  - intros size [Hpos _]. unfold format_file_size.
    replace (size <=? 0)%Z with false by (symmetry; apply Z.leb_gt; exact Hpos).
    destruct (scale_loop_unit size Hpos) as [n [E [Hn [Hlo Hhi]]]].
    rewrite E.
    assert (Hden : (0 < 1024 ^ Z.of_nat n)%Z) by (apply Z.pow_pos_nonneg; lia).
    exists (round_half_even size (1024 ^ Z.of_nat n)), n.
    split; [reflexivity|]. split; [exact Hn|]. split; [exact Hlo|].
    split; [|split].
    + intro H4. specialize (Hhi H4). split; [exact Hhi|].
      apply (round_half_even_mono size _ 1 1024 Hden); [lia|].
      rewrite Nat2Z.inj_succ, Z.pow_succ_r in Hhi by lia. lia.
    + apply (round_half_even_mono size _ 1 size Hden); [lia | nia].
    + now apply round_half_even_near.
Qed.

Lemma format_file_size_nearest_unit_witness :
  (-3 <= 0)%Z
  /\ format_file_size (Some (-3)%Z) = ""%string
  /\ (0 < 1048575 < 2 ^ 53)%Z
  /\ exists k n,
      format_file_size (Some 1048575%Z)
      = (PyNum.str_of_nat (Z.to_nat k) ++ " " ++ power_label n)%string
      /\ n <= 4
      /\ (1024 ^ Z.of_nat n <= 1048575)%Z
      /\ (n < 4 -> (1048575 < 1024 ^ Z.of_nat (S n))%Z /\ (k <= 1024)%Z)
      /\ (1 <= k)%Z
      /\ (2 * Z.abs (k * 1024 ^ Z.of_nat n - 1048575) <= 1024 ^ Z.of_nat n)%Z.
Proof.
  assert (H1 : (-3 <= 0)%Z) by lia.
  assert (H2 : (0 < 1048575 < 2 ^ 53)%Z) by (split; reflexivity).
  destruct format_file_size_nearest_unit as [_ [Hneg Hpos]].
  split; [exact H1|]. split; [exact (Hneg _ H1)|]. split; [exact H2|].
  exact (Hpos _ H2).
Defined.

(** One byte short of a megabyte is shown as 1024 KB; ties go to the even
    number. *)
Example format_file_size_examples :
  format_file_size (Some 1048575%Z) = "1024 KB"%string
  /\ format_file_size (Some 1048576%Z) = "1 MB"%string
  /\ format_file_size (Some 1536%Z) = "2 KB"%string
  /\ format_file_size (Some 2560%Z) = "2 KB"%string
  /\ format_file_size (Some 1023%Z) = "1023 B"%string
  /\ format_file_size (Some 0%Z) = ""%string
  /\ format_file_size (Some (5 * 1024 ^ 5)%Z) = "5120 TB"%string.
Proof. repeat split; vm_compute; reflexivity. Qed.

End SizeFacts.

(* ------------------------------------------------------------------ *)
(** ** The settings: loading the configuration, changing the proxies *)

Module SettingsFacts.
Import ScanProtocol Settings SettingsSpec.

Lemma dict_get_none (k : string) (members : list (string * json)) :
  dict_get k members = None <-> has_key k members = false.
Proof.
  unfold has_key. induction members as [|[k' v] rest IH]; cbn [dict_get existsb fst].
  - tauto.
  - rewrite orb_false_iff, <- IH, (String.eqb_sym k' k).
    destruct (dict_get k rest); [split; [discriminate | intros [_ H]; discriminate]|].
    destruct (String.eqb k k'); split; try discriminate; try tauto.
    intros [H _]. discriminate.
Qed.

Lemma dict_get_snoc (k key : string) (value : json) (members : list (string * json)) :
  dict_get k (members ++ [(key, value)])
  = if String.eqb k key then Some value else dict_get k members.
Proof.
  induction members as [|[k' v] rest IH]; cbn [List.app dict_get].
  - destruct (String.eqb k key); reflexivity.
  - rewrite IH. destruct (String.eqb k key); [reflexivity|].
    destruct (dict_get k rest); reflexivity.
Qed.

Lemma has_key_in (k : string) (members : list (string * json)) :
  has_key k members = true <-> In k (map fst members).
Proof.
  unfold has_key. induction members as [|[k' v] rest IH]; cbn.
  - split; [discriminate | intros []].
  - rewrite orb_true_iff, IH, String.eqb_eq. tauto.
Qed.

Lemma dict_get_first (k : string) (defaults : list (string * json)) :
  NoDup (map fst defaults) -> dict_get k defaults = first_value k defaults.
Proof.
  induction defaults as [|[key value] rest IH]; cbn [map fst dict_get first_value];
    [reflexivity|].
  intro H. inversion H as [|? ? Hn Hr]; subst. rewrite (IH Hr).
  destruct (String.eqb k key) eqn:E; [|now destruct (first_value k rest)].
  apply String.eqb_eq in E. subst k. rewrite <- (IH Hr).
  replace (dict_get key rest) with (@None json); [reflexivity|].
  symmetry. apply dict_get_none.
  destruct (has_key key rest) eqn:Eh; [|reflexivity].
  apply has_key_in in Eh. contradiction.
Qed.

Lemma default_config_keys : NoDup (map fst default_config).
Proof.
  repeat constructor; cbn; intuition discriminate.
Qed.

(** The loop over the defaults, on a dictionary: what was loaded stays,
    what was missing is taken from the defaults. *)
Lemma ensure_defaults_object (defaults : list (string * json)) :
  forall members,
    exists config,
      ensure_defaults defaults (JObj members) = Ok (JObj config)
      /\ (forall k v, dict_get k members = Some v -> dict_get k config = Some v)
      /\ (forall k, In k (map fst defaults) -> dict_get k config <> None)
      /\ (forall k, dict_get k members = None -> dict_get k config = first_value k defaults).
Proof.
  induction defaults as [|[key value] rest IH]; intro members; cbn [ensure_defaults].
  - exists members. split; [reflexivity|]. split; [auto|]. split; [intros k []|].
    intros k H. exact H.
  - cbn [py_in]. fold (has_key key members).
    destruct (has_key key members) eqn:Ek.
    + destruct (IH members) as [config [E [Hkept [Hin Hnone]]]].
      exists config. split; [exact E|]. split; [exact Hkept|]. split.
      * intros k [<-|Hk]; [|now apply Hin]. cbn [fst].
        destruct (dict_get key members) as [v|] eqn:Eg.
        -- rewrite (Hkept _ _ Eg). discriminate.
        -- apply dict_get_none in Eg. congruence.
      * intros k Hk. cbn [first_value].
        destruct (String.eqb k key) eqn:Ekk; [|now apply Hnone].
        apply String.eqb_eq in Ekk. subst k. apply dict_get_none in Hk. congruence.
    + cbn [py_setitem]. unfold dict_set. fold (has_key key members). rewrite Ek.
      destruct (IH (members ++ [(key, value)])) as [config [E [Hkept [Hin Hnone]]]].
      exists config. split; [exact E|]. split; [|split].
      * intros k v Hk. apply Hkept. rewrite dict_get_snoc.
        destruct (String.eqb k key) eqn:Ekk; [|exact Hk].
        apply String.eqb_eq in Ekk. subst k.
        apply dict_get_none in Ek. congruence.
      * intros k [<-|Hk]; [|now apply Hin]. cbn [fst].
        rewrite (Hkept key value); [discriminate|].
        now rewrite dict_get_snoc, String.eqb_refl.
      * intros k Hk. cbn [first_value].
        destruct (String.eqb k key) eqn:Ekk.
        -- apply Hkept. now rewrite dict_get_snoc, Ekk.
        -- apply Hnone. now rewrite dict_get_snoc, Ekk.
Qed.

(** X16.  What [load_config] ends with, by what it finds.  When the file
    is absent, cannot be opened or read ([IOError]) or is text that is not
    JSON ([JSONDecodeError]), the defaults are taken and saved.  From a file
    that holds an object, a configuration with [proxies], [theme] and
    [auto_index] results and no exception leaves the method: an object that is
    not empty and has neither [proxies] nor [theme] is taken whole as the
    proxies of the old format and saved; any other object keeps every value it
    has, the defaults filling only the keys that are missing, and nothing is
    saved.  A file whose bytes are not text, and a file that holds a number, a
    boolean or null, make the method raise ([UnicodeDecodeError],
    [TypeError]): neither is caught. *)
Theorem load_config_completes :
  load_config Absent = Ok (JObj default_config, [Saved (JObj default_config)])
  /\ (forall e, load_config (Unreadable e)
                = Ok (JObj default_config, [Warned e; Saved (JObj default_config)]))
  /\ (forall e, load_config (Malformed e)
                = Ok (JObj default_config, [Warned e; Saved (JObj default_config)]))
  /\ (forall members,
         exists config evs,
           load_config (Holds (JObj members)) = Ok (JObj config, evs)
           /\ (forall k, In k ["proxies"; "theme"; "auto_index"]%string ->
                         dict_get k config <> None)
           /\ (dict_get "proxies" members = None -> dict_get "theme" members = None ->
               members <> [] ->
               config = [("proxies"%string, JObj members); ("theme"%string, JStr "dark");
                         ("auto_index"%string, JBool true)]
               /\ evs = [Saved (JObj config)])
           /\ (dict_get "proxies" members <> None \/ dict_get "theme" members <> None
               \/ members = [] ->
               evs = []
               /\ (forall k v, dict_get k members = Some v -> dict_get k config = Some v)
               /\ (forall k, dict_get k members = None ->
                             dict_get k config = dict_get k default_config)))
  /\ (forall v,
         match v with JNull | JBool _ | JNum _ => True | _ => False end ->
         load_config (Holds v) = Raise "TypeError")
  /\ (forall e, load_config (Undecodable e) = Raise "UnicodeDecodeError").
Proof.
  split; [reflexivity|]. split; [reflexivity|]. split; [reflexivity|].
  split; [|split; [|reflexivity]].
  - intro members. unfold load_config, is_old_format. cbn [py_in truthy].
    fold (has_key "proxies" members). fold (has_key "theme" members).
    destruct (has_key "proxies" members) eqn:Ep.
    { destruct (ensure_defaults_object default_config members)
        as [config [E [Hkept [Hin Hnone]]]].
      rewrite E. exists config, []. split; [reflexivity|]. split; [exact Hin|]. split.
      - intros Hp. apply dict_get_none in Hp. congruence.
      - intros _. split; [reflexivity|]. split; [exact Hkept|].
        intros k Hk. rewrite (Hnone k Hk). symmetry.
        apply dict_get_first, default_config_keys. }
    destruct (has_key "theme" members) eqn:Et.
    { destruct (ensure_defaults_object default_config members)
        as [config [E [Hkept [Hin Hnone]]]].
      rewrite E. exists config, []. split; [reflexivity|]. split; [exact Hin|]. split.
      - intros _ Hth. apply dict_get_none in Hth. congruence.
      - intros _. split; [reflexivity|]. split; [exact Hkept|].
        intros k Hk. rewrite (Hnone k Hk). symmetry.
        apply dict_get_first, default_config_keys. }
    destruct members as [|m members].
    { exists default_config, []. split; [reflexivity|]. split.
      - intros k [<-|[<-|[<-|[]]]]; discriminate.
      - split; [intros _ _ H; now contradiction H|].
        intros _. split; [reflexivity|]. split; [intros k v H; discriminate H|].
        reflexivity. }
    eexists. eexists. split; [reflexivity|]. split.
    + intros k [<-|[<-|[<-|[]]]]; discriminate.
    + split; [intros _ _ _; split; reflexivity|].
      intros [H|[H|H]]; [| |discriminate H].
      * exfalso. apply H. now apply dict_get_none.
      * exfalso. apply H. now apply dict_get_none.
  - intros v Hv. destruct v; try contradiction; reflexivity.
Qed.

Lemma load_config_completes_witness :
  dict_get "proxies" [("lab"%string, JNum 9050)] = None
  /\ dict_get "theme" [("lab"%string, JNum 9050)] = None
  /\ [("lab"%string, JNum 9050)] <> []
  /\ load_config (Holds (JObj [("lab"%string, JNum 9050)]))
     = Ok (JObj [("proxies"%string, JObj [("lab"%string, JNum 9050)]);
                 ("theme"%string, JStr "dark"); ("auto_index"%string, JBool true)],
           [Saved (JObj [("proxies"%string, JObj [("lab"%string, JNum 9050)]);
                         ("theme"%string, JStr "dark"); ("auto_index"%string, JBool true)])]).
Proof.
  assert (H3 : [("lab"%string, JNum 9050)] <> []) by discriminate.
  split; [reflexivity|]. split; [reflexivity|]. split; [exact H3|].
  destruct (proj1 (proj2 (proj2 (proj2 load_config_completes)))
              [("lab"%string, JNum 9050)]) as [config [evs [E [_ [Hold _]]]]].
  destruct (Hold eq_refl eq_refl H3) as [-> ->]. exact E.
Defined.

(** A theme alone: kept, the proxies and the indexing taken from the
    defaults, nothing saved.  The old format with one proxy named [theme] is
    not recognised. *)
Example load_config_examples :
  load_config (Holds (JObj [("theme"%string, JStr "light")]))
  = Ok (JObj [("theme"%string, JStr "light"); ("proxies"%string, default_proxies);
              ("auto_index"%string, JBool true)], [])
  /\ load_config (Holds (JObj [("theme"%string, JNum 9050)]))
     = Ok (JObj [("theme"%string, JNum 9050); ("proxies"%string, default_proxies);
                 ("auto_index"%string, JBool true)], [])
  /\ load_config (Holds (JArr [])) = Raise "TypeError".
Proof. repeat split. Qed.

(** *** Proxies *)

Lemma has_proxy_in (name : string) (proxies : Proxies) :
  has_proxy name proxies = true <-> In name (proxy_names proxies).
Proof.
  unfold has_proxy, proxy_names. induction proxies as [|[k v] rest IH]; cbn.
  - split; [discriminate | intros []].
  - rewrite orb_true_iff, IH, String.eqb_eq. tauto.
Qed.

Lemma has_proxy_port (name : string) (proxies : Proxies) :
  has_proxy name proxies = false <-> proxy_port_of name proxies = None.
Proof.
  unfold has_proxy. induction proxies as [|[k v] rest IH]; cbn [existsb proxy_port_of fst].
  - tauto.
  - destruct (String.eqb k name); cbn [orb]; [split; discriminate | exact IH].
Qed.

Lemma port_of_snoc (k name : string) (port : Z) (proxies : Proxies) :
  proxy_port_of k (proxies ++ [(name, port)])
  = match proxy_port_of k proxies with
    | Some v => Some v
    | None => if String.eqb name k then Some port else None
    end.
Proof.
  induction proxies as [|[k' v] rest IH]; cbn [List.app proxy_port_of]; [reflexivity|].
  destruct (String.eqb k' k); [reflexivity | exact IH].
Qed.

Lemma port_of_filter (k name : string) (proxies : Proxies) :
  proxy_port_of k (filter (fun kv => negb (String.eqb (fst kv) name)) proxies)
  = if String.eqb name k then None else proxy_port_of k proxies.
Proof.
  induction proxies as [|[k' v] rest IH]; cbn [filter proxy_port_of fst].
  - now destruct (String.eqb name k).
  - destruct (String.eqb k' name) eqn:E1; cbn [negb proxy_port_of].
    + apply String.eqb_eq in E1. subst k'. rewrite IH.
      destruct (String.eqb name k); reflexivity.
    + rewrite IH. destruct (String.eqb k' k) eqn:E2; [|reflexivity].
      apply String.eqb_eq in E2. subst k'. now rewrite String.eqb_sym, E1.
Qed.

Lemma names_filter (name : string) (proxies : Proxies) :
  proxy_names (filter (fun kv => negb (String.eqb (fst kv) name)) proxies)
  = filter (fun k => negb (String.eqb k name)) (proxy_names proxies).
Proof.
  unfold proxy_names. induction proxies as [|[k v] rest IH]; cbn [filter map fst];
    [reflexivity|].
  destruct (String.eqb k name); cbn [negb map fst]; now rewrite IH.
Qed.

Lemma filter_length_unique (name : string) (names : list string) :
  NoDup names ->
  List.length (filter (fun k => negb (String.eqb k name)) names)
  = if existsb (fun k => String.eqb k name) names
    then List.length names - 1 else List.length names.
Proof.
  induction 1 as [|k names Hk _ IH]; cbn [filter existsb List.length]; [reflexivity|].
  destruct (String.eqb k name) eqn:E; cbn [negb orb List.length].
  - apply String.eqb_eq in E. subst k.
    replace (filter (fun k => negb (String.eqb k name)) names) with names; [lia|].
    symmetry. apply forallb_filter_id. apply forallb_forall. intros x Hx.
    apply negb_true_iff, String.eqb_neq. intros ->. contradiction.
  - rewrite IH. destruct (existsb (fun k0 => String.eqb k0 name) names) eqn:Ex; [|reflexivity].
    destruct names; [discriminate Ex|]. cbn [List.length]. lia.
Qed.

Lemma has_proxy_names (name : string) (proxies : Proxies) :
  has_proxy name proxies = existsb (fun k => String.eqb k name) (proxy_names proxies).
Proof.
  unfold has_proxy, proxy_names. induction proxies as [|[k v] rest IH]; cbn; [reflexivity|].
  now rewrite IH.
Qed.

Lemma port_of_replace (k name : string) (port : Z) (proxies : Proxies) :
  proxy_port_of k
    (map (fun kv : string * Z => if String.eqb (fst kv) name then (fst kv, port) else kv)
       proxies)
  = if String.eqb name k
    then (if has_proxy name proxies then Some port else None)
    else proxy_port_of k proxies.
Proof.
  unfold has_proxy.
  induction proxies as [|[k' v] rest IH]; cbn [map proxy_port_of existsb fst].
  - now destruct (String.eqb name k).
  - destruct (String.eqb k' name) eqn:E1; cbn [proxy_port_of fst orb].
    + apply String.eqb_eq in E1. subst k'.
      destruct (String.eqb name k); [reflexivity | exact IH].
    + rewrite IH. destruct (String.eqb k' k) eqn:E2; [|reflexivity].
      apply String.eqb_eq in E2. subst k'. now rewrite String.eqb_sym, E1.
Qed.

Lemma names_replace (name : string) (port : Z) (proxies : Proxies) :
  proxy_names
    (map (fun kv : string * Z => if String.eqb (fst kv) name then (fst kv, port) else kv)
       proxies)
  = proxy_names proxies.
Proof.
  unfold proxy_names. rewrite map_map. apply map_ext. intros [k v]. cbn [fst].
  now destruct (String.eqb k name).
Qed.

Lemma entered_data (strip : string -> string) (name_text : string) (port_input : option Z)
    (name : string) (port : Z) :
  entered (get_data strip name_text port_input) = Some (name, port) ->
  name = strip name_text /\ name <> ""%string /\ port <> 0%Z
  /\ port_input = Some port /\ name_text <> ""%string.
Proof.
  unfold entered, get_data. destruct port_input as [p|]; [|discriminate].
  destruct (String.eqb name_text "") eqn:E0; cbn [negb]; [discriminate|].
  destruct (String.eqb (strip name_text) "") eqn:E1; cbn [negb andb]; [discriminate|].
  destruct (p =? 0)%Z eqn:E2; cbn [negb]; [discriminate|].
  intro H. injection H as <- <-.
  apply String.eqb_neq in E0, E1. apply Z.eqb_neq in E2. auto.
Qed.

(** X17.  [add_proxy] never touches a proxy that is there.  When it
    changes the proxies, it adds one entry at the end: the name is what
    [str.strip] makes of the text of the name field and is not empty, the port
    is the number entered and is not 0, and no proxy had that name; every
    proxy that was there keeps its port, and names that were distinct stay
    distinct. *)
Theorem add_proxy_never_overwrites :
  forall strip accepted name_text port_input proxies updated,
    add_proxy strip accepted name_text port_input proxies = Updated updated ->
    exists name port,
      updated = proxies ++ [(name, port)]
      /\ accepted = true
      /\ name = strip name_text /\ name <> ""%string
      /\ port_input = Some port /\ port <> 0%Z
      /\ has_proxy name proxies = false
      /\ (forall k v, proxy_port_of k proxies = Some v -> proxy_port_of k updated = Some v)
      /\ (NoDup (proxy_names proxies) -> NoDup (proxy_names updated)).
Proof.
  intros strip accepted name_text port_input proxies updated. unfold add_proxy.
  destruct accepted; cbn [negb]; [|discriminate].
  destruct (entered (get_data strip name_text port_input)) as [[name port]|] eqn:E;
    [|discriminate].
  destruct (has_proxy name proxies) eqn:Eh; [discriminate|].
  unfold set_proxy. rewrite Eh. intro H. injection H as <-.
  destruct (entered_data _ _ _ _ _ E) as [Hn [Hne [Hp [Hi _]]]].
  exists name, port. repeat (split; [assumption || reflexivity|]). split.
  - intros k v Hk. now rewrite port_of_snoc, Hk.
  - intro Hd. unfold proxy_names. rewrite map_app. cbn [map fst].
    apply NoDup_app; [exact Hd | repeat constructor; intros [] |].
    intros x Hx [<-|[]]. apply has_proxy_in in Hx. congruence.
Qed.

Lemma add_proxy_never_overwrites_witness :
  add_proxy PyStr.strip true " lab " (Some 9050%Z) example_proxies
  = Updated (example_proxies ++ [("lab"%string, 9050%Z)])
  /\ exists name port,
      example_proxies ++ [("lab"%string, 9050%Z)] = example_proxies ++ [(name, port)]
      /\ true = true
      /\ name = PyStr.strip " lab " /\ name <> ""%string
      /\ Some 9050%Z = Some port /\ port <> 0%Z
      /\ has_proxy name example_proxies = false
      /\ (forall k v, proxy_port_of k example_proxies = Some v ->
                      proxy_port_of k (example_proxies ++ [("lab"%string, 9050%Z)]) = Some v)
      /\ (NoDup (proxy_names example_proxies) ->
          NoDup (proxy_names (example_proxies ++ [("lab"%string, 9050%Z)]))).
Proof.
  assert (H : add_proxy PyStr.strip true " lab " (Some 9050%Z) example_proxies
              = Updated (example_proxies ++ [("lab"%string, 9050%Z)]))
    by (vm_compute; reflexivity).
  split; [exact H|].
  exact (add_proxy_never_overwrites PyStr.strip true " lab " (Some 9050%Z)
           example_proxies _ H).
Defined.

(** X18.  [edit_proxy] replaces the edited proxy, and merges it into
    another when it is given that one's name.  For a selected proxy that is
    there and an entry that is accepted, the edited name is gone unless it is
    kept, the new name has the new port, every proxy with neither name keeps
    its port and the names stay distinct; the number of proxies stays the same
    when the new name is new or is the old one, and goes down by one when it is
    the name of another proxy, whose port is replaced without a word. *)
Theorem edit_proxy_replaces_or_merges :
  forall strip old_name name_text port_input new_name new_port proxies,
    NoDup (proxy_names proxies) ->
    has_proxy old_name proxies = true ->
    entered (get_data strip name_text port_input) = Some (new_name, new_port) ->
    exists updated,
      edit_proxy strip (Some old_name) true name_text port_input proxies
      = Ok (Updated updated)
      /\ NoDup (proxy_names updated)
      /\ proxy_port_of new_name updated = Some new_port
      /\ (new_name <> old_name -> proxy_port_of old_name updated = None)
      /\ (forall k, k <> old_name -> k <> new_name ->
                    proxy_port_of k updated = proxy_port_of k proxies)
      /\ List.length updated
         = if has_proxy new_name proxies && negb (String.eqb new_name old_name)
           then List.length proxies - 1 else List.length proxies.
Proof.
  intros strip old new_text port_input new port proxies Hd Ho He.
  unfold edit_proxy. cbn [negb]. rewrite He. unfold del_proxy. rewrite Ho.
  set (p1 := filter (fun kv => negb (String.eqb (fst kv) old)) proxies).
  assert (Hn1 : NoDup (proxy_names p1))
    by (subst p1; rewrite names_filter; now apply NoDup_filter).
  assert (Hl1 : List.length p1 = List.length proxies - 1).
  { subst p1. rewrite <- (length_map fst), <- (length_map fst proxies).
    fold (proxy_names proxies).
    change (map fst (filter (fun kv => negb (String.eqb (fst kv) old)) proxies))
      with (proxy_names (filter (fun kv => negb (String.eqb (fst kv) old)) proxies)).
    rewrite names_filter, (filter_length_unique old _ Hd), <- has_proxy_names, Ho.
    reflexivity. }
  assert (Hpos : 1 <= List.length proxies).
  { destruct proxies; [discriminate Ho | cbn; lia]. }
  assert (Hp1 : forall k, proxy_port_of k p1
                          = if String.eqb old k then None else proxy_port_of k proxies)
    by (intro k; subst p1; apply port_of_filter).
  assert (Hh1 : has_proxy new p1
                = has_proxy new proxies && negb (String.eqb new old)).
  { destruct (has_proxy new p1) eqn:E1.
    - destruct (proxy_port_of new p1) as [v|] eqn:E2;
        [|apply has_proxy_port in E2; congruence].
      rewrite Hp1 in E2. rewrite (String.eqb_sym new old).
      destruct (String.eqb old new); [discriminate|].
      destruct (has_proxy new proxies) eqn:E3; [reflexivity|].
      apply has_proxy_port in E3. congruence.
    - apply has_proxy_port in E1. rewrite Hp1 in E1. rewrite (String.eqb_sym new old).
      destruct (String.eqb old new); [now rewrite andb_false_r|].
      apply has_proxy_port in E1. now rewrite E1. }
  rewrite <- Hh1.
  eexists. split; [reflexivity|]. unfold set_proxy.
  destruct (has_proxy new p1) eqn:E1.
  - split; [now rewrite names_replace|]. split; [|split; [|split]].
    + now rewrite port_of_replace, String.eqb_refl, E1.
    + intro Hne. rewrite port_of_replace.
      replace (String.eqb new old) with false by (symmetry; now apply String.eqb_neq).
      now rewrite Hp1, String.eqb_refl.
    + intros k Hk1 Hk2. rewrite port_of_replace.
      replace (String.eqb new k) with false
        by (symmetry; apply String.eqb_neq; congruence).
      rewrite Hp1.
      now replace (String.eqb old k) with false
        by (symmetry; apply String.eqb_neq; congruence).
    + now rewrite length_map.
  - assert (Hnone : proxy_port_of new p1 = None) by now apply has_proxy_port.
    split; [|split; [|split; [|split]]].
    + unfold proxy_names. rewrite map_app. cbn [map fst].
      apply NoDup_app; [exact Hn1 | repeat constructor; intros [] |].
      intros x Hx [<-|[]]. apply has_proxy_in in Hx. congruence.
    + now rewrite port_of_snoc, Hnone, String.eqb_refl.
    + intro Hne. rewrite port_of_snoc, Hp1, String.eqb_refl.
      now replace (String.eqb new old) with false by (symmetry; now apply String.eqb_neq).
    + intros k Hk1 Hk2. rewrite port_of_snoc, Hp1.
      replace (String.eqb old k) with false
        by (symmetry; apply String.eqb_neq; congruence).
      replace (String.eqb new k) with false
        by (symmetry; apply String.eqb_neq; congruence).
      now destruct (proxy_port_of k proxies).
    + rewrite length_app, Hl1. cbn [List.length]. lia.
Qed.

Lemma edit_proxy_replaces_or_merges_witness :
  NoDup (proxy_names example_proxies)
  /\ has_proxy "example1" example_proxies = true
  /\ entered (get_data PyStr.strip "example2" (Some 9050%Z))
     = Some ("example2"%string, 9050%Z)
  /\ exists updated,
      edit_proxy PyStr.strip (Some "example1"%string) true "example2" (Some 9050%Z)
        example_proxies
      = Ok (Updated updated)
      /\ NoDup (proxy_names updated)
      /\ proxy_port_of "example2" updated = Some 9050%Z
      /\ ("example2"%string <> "example1"%string -> proxy_port_of "example1" updated = None)
      /\ (forall k, k <> "example1"%string -> k <> "example2"%string ->
                    proxy_port_of k updated = proxy_port_of k example_proxies)
      /\ List.length updated
         = if has_proxy "example2" example_proxies
              && negb (String.eqb "example2" "example1")
           then List.length example_proxies - 1 else List.length example_proxies.
Proof.
  assert (H1 : NoDup (proxy_names example_proxies)).
  { repeat constructor; cbn; intuition discriminate. }
  split; [exact H1|]. split; [reflexivity|]. split; [reflexivity|].
  exact (edit_proxy_replaces_or_merges PyStr.strip "example1" "example2" (Some 9050%Z)
           "example2" 9050%Z example_proxies H1 eq_refl eq_refl).
Defined.

(** Renaming [example1] to [example2]: two proxies are left, and the port
    of [example2] is the one entered. *)
Example edit_proxy_merges :
  edit_proxy PyStr.strip (Some "example1"%string) true "example2" (Some 9050%Z)
    example_proxies
  = Ok (Updated [("example2"%string, 9050%Z); ("example3"%string, 1339%Z)]).
Proof. vm_compute. reflexivity. Qed.

End SettingsFacts.

(* ------------------------------------------------------------------ *)
(** ** The scanner's process-wide configuration *)

Module ScanStateFacts.
Import Scanner ScanRun ScanStateSpec.

(** What a host check writes does not depend on what the host answers. *)
Lemma check_smb_host_writes :
  forall urandom_hex sess h user password quick use_proxy port g,
    fst (fst (check_smb_host urandom_hex sess h user password quick use_proxy port g))
    = set_smb_structs_socket SocksSocket
        (set_socket_socket SocksSocket
           (if use_proxy then set_default_proxy (Some ("127.0.0.1"%string, port)) g
            else set_default_proxy None g)).
Proof.
  intros rnd sess h user password quick up port g. unfold check_smb_host.
  destruct (connect sess) as [[|]|]; try reflexivity.
  destruct (listShares sess) as [names|]; [|reflexivity].
  now destruct (scan_shares rnd sess quick names 1).
Qed.

(** A host check in the configuration of [main] rewrites what is there. *)
Lemma check_smb_host_installed (net : Network) (args : Args) (h : string) (g : ProcState) :
  installed args g ->
  fst (fst (check_smb_host (urandom_of net h) (session_of net h) h (user args)
              (password args) (quick_scan args) (negb (no_proxy args))
              (port_value (proxy_port args)) g))
  = set_smb_structs_socket SocksSocket g.
Proof.
  intros [Hp Hs]. rewrite check_smb_host_writes.
  destruct g as [p s1 s2]. cbn [default_proxy socket_socket] in Hp, Hs. subst p s1.
  unfold scanner_proxy. now destruct (no_proxy args).
Qed.

Lemma stage2_state (net : Network) (json_dumps : HostResult -> string) (args : Args)
    (completed : list string) :
  forall processed_count total g,
    installed args g ->
    fst (stage2 net json_dumps completed args processed_count total g)
    = match completed with
      | [] => g
      | _ :: _ => set_smb_structs_socket SocksSocket g
      end.
Proof.
  induction completed as [|h rest IH]; intros k n g Hg; [reflexivity|].
  cbn [stage2].
  pose proof (check_smb_host_installed net args h g Hg) as Hw.
  destruct (check_smb_host (urandom_of net h) (session_of net h) h (user args)
              (password args) (quick_scan args) (negb (no_proxy args))
              (port_value (proxy_port args)) g) as [[g1 calls] result].
  cbn [fst] in Hw. subst g1.
  assert (Hg1 : installed args (set_smb_structs_socket SocksSocket g))
    by (destruct Hg; split; assumption).
  specialize (IH (S k) n _ Hg1).
  destruct (stage2 net json_dumps rest args (S k) n (set_smb_structs_socket SocksSocket g))
    as [g2 effs].
  cbn [fst] in *. rewrite IH. now destruct rest.
Qed.

(** X19.  The scanner's threads only rewrite the configuration [main]
    installed.  In that configuration (the default proxy of the arguments,
    [socket.socket] bound to the SOCKS class) a host check leaves both as they
    are, whatever the host answers, binding [smb_structs.socket] as well; so a
    run of [main] on a valid subnet ends with the proxy of its arguments,
    whatever the completion order, [smb_structs.socket] being rebound exactly
    when some host passed the port check. *)
Theorem scanner_proxy_is_stable :
  forall net json_dumps sched1 sched2 args g hosts,
    usable args = true ->
    hosts_of net (subnet args) = Ok hosts ->
    (forall h g0,
        installed args g0 ->
        fst (fst (check_smb_host (urandom_of net h) (session_of net h) h (user args)
                    (password args) (quick_scan args) (negb (no_proxy args))
                    (port_value (proxy_port args)) g0))
        = set_smb_structs_socket SocksSocket g0)
    /\ (let g' := fst (main net json_dumps sched1 sched2 (Namespace args) g) in
        installed args g'
        /\ smb_structs_socket g'
           = if existsb (live net args) hosts then SocksSocket else smb_structs_socket g).
Proof.
  intros net dumps s1 s2 args g hosts Hu Hh.
  split; [intros h g0; apply check_smb_host_installed|].
  cbn zeta. unfold main. rewrite Hh.
  pose proof (ScanRunFacts.stage1_open net (Pool.as_completed 100 s1 hosts) args) as Ho.
  destruct (stage1 net (Pool.as_completed 100 s1 hosts) (negb (no_proxy args))
              (proxy_port args)) as [open_hosts effs1].
  cbn [fst] in Ho.
  set (g2 := set_socket_socket SocksSocket
               (if negb (no_proxy args)
                then set_default_proxy
                       (Some ("127.0.0.1"%string, port_value (proxy_port args))) g
                else set_default_proxy None g)).
  assert (Hg2 : installed args g2).
  { subst g2. unfold installed, scanner_proxy. now destruct (no_proxy args). }
  assert (Hs2 : smb_structs_socket g2 = smb_structs_socket g)
    by (subst g2; now destruct (no_proxy args)).
  pose proof (stage2_state net dumps args (Pool.as_completed 25 s2 open_hosts) 0
                (List.length open_hosts) g2 Hg2) as Hst.
  assert (Hfin : fst (let '(g3, effs2) :=
                        stage2 net dumps (Pool.as_completed 25 s2 open_hosts) args 0
                          (List.length open_hosts) g2 in
                      (g3,
                       Print ("STATUS:Stage 1: Port scanning "
                              ++ PyNum.str_of_nat (List.length hosts) ++ " hosts...")
                         :: effs1
                         ++ Print ("STATUS:Stage 2: Enumerating shares on "
                                   ++ PyNum.str_of_nat (List.length open_hosts)
                                   ++ " live hosts...")
                         :: effs2 ++ [Print "STATUS:Scanner process finished."]))
                 = match Pool.as_completed 25 s2 open_hosts with
                   | [] => g2
                   | _ :: _ => set_smb_structs_socket SocksSocket g2
                   end).
  { destruct (stage2 net dumps (Pool.as_completed 25 s2 open_hosts) args 0
                (List.length open_hosts) g2) as [g3 effs2]. exact Hst. }
  assert (Hperm : Permutation (Pool.as_completed 25 s2 open_hosts)
                    (filter (live net args) hosts)).
  { subst open_hosts.
    eapply Permutation_trans; [apply PoolFacts.as_completed_perm; lia|].
    apply ScanRunFacts.Permutation_filter, PoolFacts.as_completed_perm. lia. }
  assert (Hex : existsb (live net args) hosts
                = match Pool.as_completed 25 s2 open_hosts with [] => false | _ => true end).
  { destruct (Pool.as_completed 25 s2 open_hosts) as [|c cs] eqn:Ec.
    - apply Permutation_nil in Hperm.
      destruct (existsb (live net args) hosts) eqn:Ee; [|reflexivity].
      apply existsb_exists in Ee as [x [Hx Hl]].
      assert (Hin : In x (filter (live net args) hosts)) by (apply filter_In; now split).
      rewrite Hperm in Hin. destruct Hin.
    - assert (Hin : In c (filter (live net args) hosts))
        by (eapply Permutation_in; [exact Hperm | now left]).
      apply filter_In in Hin as [Hin Hl]. apply existsb_exists. now exists c. }
  destruct (no_proxy args) eqn:En, (proxy_port args) as [port|] eqn:Ep;
    try (unfold usable in Hu; rewrite En, Ep in Hu; discriminate Hu);
    rewrite Hfin, Hex;
    (destruct (Pool.as_completed 25 s2 open_hosts);
     [split; [exact Hg2 | exact Hs2]
     |split; [destruct Hg2; split; assumption | reflexivity]]).
Qed.

Lemma scanner_proxy_is_stable_witness :
  usable example_args = true
  /\ hosts_of example_network (subnet example_args)
     = Ok ["10.0.0.1"; "10.0.0.2"; "10.0.0.3"]%string
  /\ installed example_args
       (fst (main example_network example_json_dumps (fun _ => 0) (fun _ => 0)
               (Namespace example_args) fresh_process))
  /\ smb_structs_socket
       (fst (main example_network example_json_dumps (fun _ => 0) (fun _ => 0)
               (Namespace example_args) fresh_process))
     = if existsb (live example_network example_args)
            ["10.0.0.1"; "10.0.0.2"; "10.0.0.3"]%string
       then SocksSocket else smb_structs_socket fresh_process.
Proof.
  split; [reflexivity|]. split; [reflexivity|].
  exact (proj2 (scanner_proxy_is_stable example_network example_json_dumps
                  (fun _ => 0) (fun _ => 0) example_args fresh_process
                  ["10.0.0.1"; "10.0.0.2"; "10.0.0.3"]%string eq_refl eq_refl)).
Defined.

End ScanStateFacts.
